(* ===== verification/_CoqProject ===== *)
-Q . S2P
Prelude.v
Transport.v
Device.v
Deploy.v
IPv4.v
Resolver.v
Reconciler.v
Health.v
Config.v
Controller.v
Fuel.v
DeviceFacts.v
Invariant.v
Failover.v
