(* ===== verification/Prelude.v ===== *)
(** * Verification of fpwr-route-failover (ISP failover for Firepower FDM)

    The program (src/pathmonitor.py, src/firepower.py) probes a target
    with ICMP, decides from loss and latency whether the primary ISP is
    unhealthy, and then adds or removes a backup static route on a
    Firepower Device Manager (FDM) through its REST API, followed by a
    configuration deployment that it polls until the task is DEPLOYED.

    ** How the parts interact

    [pathmonitor.run] probes ([doPing], [calculateLoss]), classifies
    ([checkMetrics]), constructs [FirePower] (login, virtual router
    lookup) and calls [addRoute] or [delRoute].  Both re-read the route
    table ([doesRouteExist]: one GET of the table, two object GETs per
    entry); [addRoute] then builds the route ([createRouteObject]:
    interface lookup, [createNetwork], [createGateway], each through
    [createNetworkObject] with its duplicate-name recovery), posts it and
    deploys ([deployPolicy]: POST, then sleep-and-poll until DEPLOYED);
    [delRoute] deletes the matched entry and deploys.  All device access
    goes through [getData], [postData] and [deleteData].

    ** Files (library root S2P, in dependency order)

    - [Prelude] (this file): the Python runtime as a shallow embedding:
      exceptions ([exn]); outcomes ([res]: a value, an exception, or
      [Stuck] when a loop ran out of fuel); the state-and-exception monad
      [PyM S] (the state is the remote device) with [let*] and, for pure
      expressions, [let?]; [try_except_KeyError]; JSON values ([json]) as
      [json.loads] returns them and the Python operations the code
      applies to them ([getitem_key] for [d['k']], [getitem_idx] for
      [l[0]], [py_iter], [as_str] for string [+], [json_eq_str] for
      [==], [truthy], [split_first] for [s.split(c)[0]], [split_on],
      [str_contains] for [in]).  Automation: hint databases [py]
      ([read_only] closure lemmas) and [py_str] (string rewriting), the
      tactics [py_simp] and [zdiv_lia].
    - [Transport]: the interface to the device, the typeclass
      [Transport] (one [request] per HTTP call, [sleep] the only place
      time passes) and its law [TransportLaws] (a GET changes nothing);
      the options record; [FirePower]'s fields; [getData], [postData],
      [deleteData], [authRequest], [getGlobalVR], [init] (firepower.py
      23-68, 265-316).
    - [Device]: a reference FDM implementing [Transport] (tokens, virtual
      routers, interfaces, network objects with the duplicateName and
      invalidValue errors, static routes with a duplicate-name check,
      deployment tasks QUEUED, DEPLOYING, DEPLOYED advancing at each
      [sleep], a stalled and a locked mode), with [TransportLaws]
      proved.  It is not part of the repository: it gives the concrete
      runs on which witnesses apply the theorems.
    - [Deploy]: [deployPolicy] (127-154) as [scan_tasks] (the [for]),
      [poll] (one iteration of the [while]) and [deploy_loop] (the
      [while], with fuel).
    - [IPv4]: the part of CPython's [ipaddress] that createNetwork calls
      ([IPv4Network] on strings: octets, prefix or netmask or host mask,
      the strict host-bit check, [str]).
    - [Resolver]: [getNetworkObject], [getDuplicateObject],
      [createNetworkObject], [createGateway], [createNetwork] (173-263).
    - [Reconciler]: [getRoutes], [doesRouteExist] ([route_matches],
      [find_route]), [getFailoverInterface], [createRouteObject],
      [addRoute], [delRoute] (70-125, 156-236).
    - [Health]: [calculateLoss], [checkMetrics], [doPing]
      (pathmonitor.py 8-61).
    - [Config]: the option load of both modules from the parsed
      options.json ([load_firepower], firepower.py 12-20;
      [load_pingtest], pathmonitor.py 9-16; [load_config] in the order
      of the import), with [KeyError] for an absent option.
    - [Controller]: [run] (pathmonitor.py 64-81), the two [__main__]
      blocks ([pathmonitor_main], [firepower_main]) and the session
      setup theorems.
    - [Fuel]: the fuel of [deploy_loop] is only a bound: [run] (and
      every method that deploys) is monotone in it, for every device,
      with the combinators [fuel_mono_bind], [fuel_mono_if] and the
      tactic [fuel_mono_tac] (hint database [fuel]).
    - [DeviceFacts]: the helpers on every state of [Device] whose API
      base and token are the client's ([connected]): what [getData],
      [postData] and [deleteData] return for each path the client uses,
      a whole [deployPolicy] (the device deploys on the second poll;
      on a stalled device it never returns),
      and [createNetworkObject] ([ensure_object]: reuse of the object
      named like it, or a new one).
    - [Invariant]: the client's view of a device ([is_backup],
      [routing_of]: the derived PRIMARY/FAILOVER state of spec 3;
      [built_route]: the entry [createRouteObject] builds from the
      objects under the two names), the structural invariant [dev_inv]
      and the conditions [dev_ok] (deployments progress, DELETE
      accepted, at most one backup route, no other entry named
      route_BACKUP), and their preservation by every change the client
      makes.
    - [Failover]: [addRoute], [delRoute], [__init__] and [run] on every
      device state satisfying [dev_inv]; the PRIMARY/FAILOVER machine of
      spec 4.6 ([spec_cycle]) and the refinement theorem under
      [dev_ok]; the properties of spec 8 (idempotence, round trip,
      object reuse); the states reachable by cycles ([reachable]); and
      the cycle on devices outside [dev_ok].

    ** Correspondence with the code

    Each method is a Definition of the same name; the methods of
    [FirePower] take the options and the object's fields ([FirePower]
    record) as arguments and run in [PyM D] for a device [D] given by
    the [Transport] instance.  Python [None] is [JNull] in a field
    ([self.token]) and [None : option] where a helper returns "a body or
    None" ([getData], [postData]) or where [doesRouteExist] returns
    [False]; an attribute never assigned ([self.globalVR]) is [None] and
    using it raises [AttributeError].  [delRoute] returns [option bool]
    because it can fall off its end.  [print] has no effect, but the
    string [+] it evaluates raises [TypeError] on a non-string, and the
    model keeps those evaluations.  Floats (latency, loss) are exact
    rationals [Q].

    ** What the theorems show

    - Reconciler: idempotence of both operations (no-op branches return
      [False] and leave the device unchanged), and that [False] comes
      only from them; matching by gateway value and destination address,
      first match, no match; the unchecked route POST, [None] from a refused DELETE, [TypeError]
      for an unknown interface.
    - Deploy: liveness (enough fuel after the task is seen DEPLOYED gives
      [True]), its converse, non-termination when the task stays pending
      or is lost (a set of device states closed under polling, as in
      cdf-mech-sem's [infseq]; a task missing from the list is scanned
      as pending), and the scan against [existsb] on typed tasks.
    - Resolver and IPv4: the value sent for the backup network is
      address/netmask and its address part equals the configured one
      (the round trip [ip_int_from_string_iff] of dotted quads makes the
      created route match again); createNetworkObject on a created
      object, a duplicate name, another error, a failed POST.
    - Config: the loaders read back the records from any document
      holding their sections ([load_config_roundtrip]); an absent option
      raises [KeyError] at import ([load_config_missing]).
    - Health and Controller: the loss formula; the verdict of a probe
      ([doPing_verdict]: the round-trip time is compared with
      MAX_LATENCY, the loss with MAX_LOSS, both inclusive); the branch taken by [run], level-triggered no-ops, the
      exit status 0 on [PermissionError], and how a failed login and a
      non-first Global router surface.
    - Failover (the composition of all the components on the reference
      device, for every state satisfying [dev_inv], not one run): [run]
      refines [spec_cycle] ([run_refines]: one cycle returns, keeps
      [dev_inv], and its derived routing state and reported outcome are
      the machine's); [__init__] logs in and records the Global
      router without changing the device ([init_session]); [addRoute] twice gives [True] then [False] and one
      more route; [addRoute] then [delRoute] restores the route table;
      a second failover reuses the objects of the first (all from
      [dev_inv] and [dev_ok]).  [dev_inv] holds in every reachable
      state whatever the device answers ([run_inv_any]), and there
      [doesRouteExist] never raises; [dev_ok] holds there when it held
      at the start.  Outside [dev_ok] the refinement fails, and the
      theorems say how: a stalled deployment makes the cycle run
      forever ([run_stalled_never_returns]), a refused DELETE gives a
      silent partial failure ([run_locked_partial]), and a stale entry
      named route_BACKUP ([Reconciler.dev_stale]) a reported failover
      that did not happen ([run_stale_backup_name]), and two backup
      entries a reported restoration that did not happen
      ([run_two_backups]).  On a device that only lets the client log
      in ([dev_session]), one route to a network group makes every
      cycle raise [TypeError] ([run_dangling_route]).  Two overlapping
      cycles, a healthy one run while an unhealthy one polls its
      deployment, leave the device PRIMARY with the failover reported
      last ([overlapping_cycles_race]).
    - Fuel: the lemma [run_fuel_mono]: a cycle that has an outcome with some fuel
      has the same outcome and final device with any larger fuel.
    Findings are listed in PROJECT.json.

    ** Fuel and bounds

    The only loop that is not a [for] over a finite list is the polling
    loop of [deployPolicy]; [deploy_loop] takes fuel and yields [Stuck]
    when it runs out.  Theorem [deploy_loop_deployed] shows that any fuel
    larger than the number of pending polls is enough, and
    [deploy_loop_pending_forever] that no fuel is enough when the task
    never reaches DEPLOYED.  The reference device advances each task
    one state per [sleep] (QUEUED, DEPLOYING, DEPLOYED), so the task of
    a deployment is seen DEPLOYED at the second poll: the Failover
    theorems assume fuel at least 2, which is then enough
    ([deployPolicy_dev]); the concrete runs use fuel 5.  By
    [run_fuel_mono] (file [Fuel]) an outcome obtained with some fuel is
    the outcome with every larger fuel, so [Stuck] means "the loop is
    still running", and [Stuck] for every fuel
    ([deploy_loop_pending_forever], [run_stalled_never_returns]) means
    the loop of the code does not end.  Addresses are 32-bit values in
    [Z]; [ip_int_from_string_iff] bounds them by [ALL_ONES].

    ** Not modelled

    The HTTP stack (requests, TLS, sessions) is the [Transport]
    interface; the ICMP probe (pythonping) is the input [probe_outcome];
    opening options.json and [json.load] are I/O: [Config] starts from
    the parsed JSON value, whose numbers are integers, so fractional
    thresholds are outside the model, and option values of another type
    than the code uses are reported at load rather than at first use.
    The [ipaddress] module is not part of the repository: [IPv4] models
    the behaviour createNetwork relies on, and only its call sites are
    mapped.  Overlapping cycles are modelled by running one cycle inside
    the other at the point where it polls its deployment; interleavings
    at a finer grain (inside a method, between two of its requests) are
    not, since the theorems compose whole method calls.

    ** Plan for the next steps

    - the error paths of [getDuplicateObject] (an empty lookup) as
      outcomes of [run];
    - the refinement for a device that deploys after any number of
      polls (fuel bound from [deployed_after]).
*)

From Stdlib Require Import String Ascii ZArith List Lia.
From stdpp Require Import base strings list.
Import ListNotations.
Open Scope string_scope.

(** ** Python exceptions raised by the code *)

Inductive exn : Type :=
| KeyError          (** [d['k']] on a dict without ['k'] *)
| IndexError        (** [l[i]] out of range *)
| TypeError         (** [None] subscripted, [str + None], unpacking [None] *)
| ValueError        (** [ipaddress] rejecting its input *)
| AttributeError    (** an attribute never assigned, [.split] on a non-string *)
| ZeroDivisionError (** a division by zero *)
| SystemExit (code : Z).

#[export] Instance exn_eq_dec : EqDecision exn.
Proof. solve_decision. Defined.

(** ** Outcomes and the monad *)

Inductive res (A : Type) : Type :=
| Ok (a : A)
| Raise (e : exn)
| Stuck.
Arguments Ok {A} a.
Arguments Raise {A} e.
Arguments Stuck {A}.

(** A method of the client: it runs against the state [S] of the
    remote device and yields an outcome and the new state. *)
Definition PyM (S A : Type) : Type := S -> res A * S.

Section Monad.
Context {S : Type}.

Definition ret {A} (a : A) : PyM S A := fun s => (Ok a, s).

Definition bind {A B} (c : PyM S A) (k : A -> PyM S B) : PyM S B :=
  fun s => match c s with
           | (Ok a, s') => k a s'
           | (Raise e, s') => (Raise e, s')
           | (Stuck, s') => (Stuck, s')
           end.

Definition raise {A} (e : exn) : PyM S A := fun s => (Raise e, s).

Definition stuck {A} : PyM S A := fun s => (Stuck, s).

(** Lift a pure Python expression that may raise. *)
Definition lift {A} (r : res A) : PyM S A := fun s => (r, s).

(** [try: c except KeyError: h] *)
Definition try_except_KeyError {A} (c : PyM S A) (h : PyM S A) : PyM S A :=
  fun s => match c s with
           | (Raise KeyError, s') => h s'
           | r => r
           end.
End Monad.

Declare Scope py_scope.
Delimit Scope py_scope with py.
Notation "'let*' x ':=' c 'in' k" := (bind c (fun x => k))
  (at level 100, x name, c at next level, right associativity) : py_scope.
Notation "'let*' ' p ':=' c 'in' k" := (bind c (fun x => match x with p => k end))
  (at level 100, p pattern, c at next level, right associativity) : py_scope.
(** Sequencing of pure Python expressions that may raise. *)
Definition rbind {A B} (r : res A) (k : A -> res B) : res B :=
  match r with Ok a => k a | Raise e => Raise e | Stuck => Stuck end.
Notation "'let?' x ':=' r 'in' k" := (rbind r (fun x => k))
  (at level 100, x name, r at next level, right associativity) : py_scope.
Notation "c ;;; k" := (bind c (fun _ => k))
  (at level 100, right associativity) : py_scope.
Open Scope py_scope.

(** ** JSON values, as [json.loads] returns them *)

#[warnings="-register-all"]
Inductive json : Type :=
| JNull
| JBool (b : bool)
| JNum (z : Z)
| JStr (s : string)
| JList (l : list json)
| JObj (kv : list (string * json)).

(** [json.loads] keeps the last binding of a repeated key. *)
Definition dict_get (k : string) (kv : list (string * json)) : option json :=
  fold_left (fun acc '(k', v) => if String.eqb k k' then Some v else acc) kv None.

(** [j[k]] for a string key. *)
Definition getitem_key (k : string) (j : json) : res json :=
  match j with
  | JObj kv => match dict_get k kv with Some v => Ok v | None => Raise KeyError end
  | _ => Raise TypeError
  end.

(** [j[n]] for an integer index: a list or a string is indexed, a dict
    (whose JSON keys are strings) has no integer key. *)
Definition getitem_idx (n : nat) (j : json) : res json :=
  match j with
  | JList l => match nth_error l n with Some v => Ok v | None => Raise IndexError end
  | JStr s => match String.get n s with
              | Some c => Ok (JStr (String c EmptyString))
              | None => Raise IndexError
              end
  | JObj _ => Raise KeyError
  | _ => Raise TypeError
  end.

Fixpoint string_chars (s : string) : list json :=
  match s with
  | EmptyString => []
  | String c s' => JStr (String c EmptyString) :: string_chars s'
  end.

(** [for x in j]: a list yields its items, a dict its keys, a string its
    characters; anything else is not iterable. *)
Definition py_iter (j : json) : res (list json) :=
  match j with
  | JList l => Ok l
  | JObj kv => Ok (map (fun p => JStr (fst p)) kv)
  | JStr s => Ok (string_chars s)
  | _ => Raise TypeError
  end.

(** The operand of a string [+]. *)
Definition as_str (j : json) : res string :=
  match j with JStr s => Ok s | _ => Raise TypeError end.

(** An integer where the code uses the value as a number. *)
Definition as_int (j : json) : res Z :=
  match j with JNum z => Ok z | _ => Raise TypeError end.

(** [j == "s"] *)
Definition json_eq_str (j : json) (s : string) : bool :=
  match j with JStr t => String.eqb t s | _ => false end.

(** Truthiness of a JSON value ([if route:]). *)
Definition truthy (j : json) : bool :=
  match j with
  | JNull => false
  | JBool b => b
  | JNum z => negb (Z.eqb z 0)
  | JStr s => negb (String.eqb s EmptyString)
  | JList l => negb (Nat.eqb (length l) 0)
  | JObj kv => negb (Nat.eqb (length kv) 0)
  end.

(** [json.loads(x)] where [x] is a response body or [None]. *)
Definition loads (o : option json) : res json :=
  match o with Some j => Ok j | None => Raise TypeError end.

(** [s.split(c)[0]]: the text before the first [c]. *)
Fixpoint split_first (c : ascii) (s : string) : string :=
  match s with
  | EmptyString => EmptyString
  | String a s' => if Ascii.eqb a c then EmptyString else String a (split_first c s')
  end.

Fixpoint split_on_aux (c : ascii) (s acc : string) : list string :=
  match s with
  | EmptyString => [acc]
  | String a s' => if Ascii.eqb a c then acc :: split_on_aux c s' ""
                   else split_on_aux c s' (acc ++ String a "")
  end.

(** [s.split(c)] for a one-character separator. *)
Definition split_on (c : ascii) (s : string) : list string := split_on_aux c s "".

(** [sub in s] *)
Fixpoint str_contains (sub s : string) : bool :=
  String.prefix sub s ||
  match s with
  | EmptyString => false
  | String _ s' => str_contains sub s'
  end.

(** ** Generic lemmas *)

Create HintDb py discriminated.

Section MonadLemmas.
Context {S : Type}.

Lemma bind_ret_l {A B} (a : A) (k : A -> PyM S B) s : bind (ret a) k s = k a s.
Proof. reflexivity. Qed.

Lemma bind_assoc {A B C} (c : PyM S A) (k : A -> PyM S B) (k' : B -> PyM S C) s :
  bind (bind c k) k' s = bind c (fun a => bind (k a) k') s.
Proof. unfold bind. destruct (c s) as [[a| e|] s']; reflexivity. Qed.

Lemma bind_ok {A B} (c : PyM S A) (k : A -> PyM S B) s a s' :
  c s = (Ok a, s') -> bind c k s = k a s'.
Proof. unfold bind. intros ->. reflexivity. Qed.

Lemma bind_raise {A B} (c : PyM S A) (k : A -> PyM S B) s e s' :
  c s = (Raise e, s') -> bind c k s = (Raise e, s').
Proof. unfold bind. intros ->. reflexivity. Qed.

Lemma bind_stuck {A B} (c : PyM S A) (k : A -> PyM S B) s s' :
  c s = (Stuck, s') -> bind c k s = (Stuck, s').
Proof. unfold bind. intros ->. reflexivity. Qed.

(** A continuation that only returns leaves the state of [c]. *)
Lemma snd_bind_ret {A B} (c : PyM S A) (f : A -> B) s : snd (bind c (fun a => ret (f a)) s) = snd (c s).
Proof. unfold bind. destruct (c s) as [[a| e|] s']; reflexivity. Qed.

Lemma bind_ok_inv {A B} (c : PyM S A) (k : A -> PyM S B) s b s' :
  bind c k s = (Ok b, s') -> exists a s1, c s = (Ok a, s1) /\ k a s1 = (Ok b, s').
Proof. unfold bind. destruct (c s) as [[a| e|] s1]; intros H; try discriminate. eauto. Qed.

(** A computation that leaves the device as it found it. *)
Definition read_only {A} (c : PyM S A) : Prop := forall s, snd (c s) = s.

Lemma read_only_ret {A} (a : A) : read_only (ret a).
Proof. intros s. reflexivity. Qed.

Lemma read_only_raise {A} e : read_only (raise (A:=A) e).
Proof. intros s. reflexivity. Qed.

Lemma read_only_lift {A} (r : res A) : read_only (lift r).
Proof. intros s. reflexivity. Qed.

Lemma read_only_bind {A B} (c : PyM S A) (k : A -> PyM S B) :
  read_only c -> (forall a, read_only (k a)) -> read_only (bind c k).
Proof.
  intros Hc Hk s. unfold bind. specialize (Hc s).
  destruct (c s) as [[a| e|] s'] eqn:E; simpl in *; subst; [apply Hk|reflexivity|reflexivity].
Qed.

Lemma read_only_try {A} (c h : PyM S A) :
  read_only c -> read_only h -> read_only (try_except_KeyError c h).
Proof.
  intros Hc Hh s. unfold try_except_KeyError. specialize (Hc s).
  destruct (c s) as [[a| [] |] s'] eqn:E; simpl in *; subst; auto.
Qed.

Lemma read_only_match_option {A B} (o : option A) (f : A -> PyM S B) (g : PyM S B) :
  (forall a, read_only (f a)) -> read_only g ->
  read_only (match o with Some a => f a | None => g end).
Proof. destruct o; auto. Qed.

Lemma read_only_if {A} (b : bool) (c1 c2 : PyM S A) :
  read_only c1 -> read_only c2 -> read_only (if b then c1 else c2).
Proof. destruct b; auto. Qed.
End MonadLemmas.

#[export] Hint Resolve read_only_ret read_only_raise read_only_lift read_only_bind
  read_only_try read_only_match_option read_only_if : py.

Lemma dict_get_cons_other k k' v kv :
  k <> k' -> dict_get k ((k', v) :: kv) = dict_get k kv.
Proof.
  intros Hne. unfold dict_get. simpl.
  destruct (String.eqb_spec k k'); [contradiction|reflexivity].
Qed.

Lemma dict_get_app_other k kv extra :
  (forall p, In p extra -> fst p <> k) -> dict_get k (kv ++ extra) = dict_get k kv.
Proof.
  unfold dict_get. rewrite fold_left_app.
  generalize (fold_left (fun acc '(k', v) => if String.eqb k k' then Some v else acc) kv None) as acc.
  induction extra as [|[k' v] extra IH]; intros acc Hx; [reflexivity|]. simpl.
  destruct (String.eqb_spec k k') as [->|_].
  - exfalso. apply (Hx (k', v)); [left; reflexivity|reflexivity].
  - apply IH. intros p Hp. apply Hx. right. exact Hp.
Qed.

(** The last binding wins. *)
Lemma dict_get_app_last k v kv :
  dict_get k (kv ++ [(k, v)]) = Some v.
Proof. unfold dict_get. rewrite fold_left_app. simpl. rewrite String.eqb_refl. reflexivity. Qed.

(** A later binding of [k] hides the earlier ones. *)
Lemma dict_get_app k kv extra :
  dict_get k (kv ++ extra) = match dict_get k extra with Some v => Some v | None => dict_get k kv end.
Proof.
  unfold dict_get. rewrite fold_left_app.
  generalize (fold_left (fun acc '(k', v) => if String.eqb k k' then Some v else acc) kv None) as acc.
  assert (H : forall o, fold_left (fun acc '(k', v) => if String.eqb k k' then Some v else acc) extra o =
            match fold_left (fun acc '(k', v) => if String.eqb k k' then Some v else acc) extra None with
            | Some v => Some v | None => o end).
  { induction extra as [|[k' v] extra IH]; intros o; [reflexivity|]. cbn.
    destruct (String.eqb k k'); [|apply IH].
    rewrite (IH (Some v)). destruct (fold_left _ extra None); reflexivity. }
  intros acc. exact (H acc).
Qed.

(** stdpp makes [String.append] opaque to [simpl]; these are the
    equations the proofs use instead. *)
Lemma str_app_cons (x : ascii) (a b : string) : String x a ++ b = String x (a ++ b).
Proof. reflexivity. Qed.

Lemma str_app_nil_l (a : string) : "" ++ a = a.
Proof. reflexivity. Qed.

Lemma str_app_assoc (a b c : string) : (a ++ b) ++ c = a ++ (b ++ c).
Proof. induction a as [|x a IH]; [reflexivity|]. exact (f_equal (String x) IH). Qed.

Lemma str_app_nil_r (a : string) : a ++ "" = a.
Proof. induction a as [|x a IH]; [reflexivity|]. exact (f_equal (String x) IH). Qed.

Create Rewrite HintDb py_str.
#[export] Hint Rewrite str_app_cons str_app_nil_l str_app_assoc str_app_nil_r : py_str.

(** The first piece of [s.split(c)] is what precedes the first [c]. *)
Lemma split_on_aux_head c s acc :
  exists rest, split_on_aux c s acc = (acc ++ split_first c s) :: rest.
Proof.
  revert acc. induction s as [|a s IH]; intros acc; simpl.
  - exists []. rewrite str_app_nil_r. reflexivity.
  - destruct (Ascii.eqb a c).
    + exists (split_on_aux c s ""). rewrite str_app_nil_r. reflexivity.
    + destruct (IH (acc ++ String a "")) as [rest ->]. exists rest.
      rewrite str_app_assoc. reflexivity.
Qed.

Lemma split_on_head c s a rest : split_on c s = a :: rest -> split_first c s = a.
Proof.
  unfold split_on. destruct (split_on_aux_head c s "") as [r ->].
  intros H. injection H as <- _. reflexivity.
Qed.

(** Joining the pieces of [s.split(c)] with [c] gives back [s]. *)
Lemma split_on_aux_nonempty c s acc : split_on_aux c s acc <> [].
Proof.
  revert acc. induction s as [|a s IH]; intros acc; simpl; [discriminate|].
  destruct (Ascii.eqb a c); [discriminate|apply IH].
Qed.

Lemma split_on_aux_join c s acc :
  String.concat (String c "") (split_on_aux c s acc) = acc ++ s.
Proof.
  revert acc. induction s as [|a s IH]; intros acc; simpl.
  - rewrite str_app_nil_r. reflexivity.
  - destruct (Ascii.eqb_spec a c) as [->|Hne].
    + pose proof (IH "") as H0. pose proof (split_on_aux_nonempty c s "") as Hne.
      destruct (split_on_aux c s "") as [|x l]; [contradiction|].
      change (acc ++ String c "" ++ String.concat (String c "") (x :: l) = acc ++ String c s).
      rewrite H0. reflexivity.
    + rewrite IH, str_app_assoc. reflexivity.
Qed.

Lemma split_on_join c s : String.concat (String c "") (split_on c s) = s.
Proof. apply split_on_aux_join. Qed.

Lemma json_eq_str_spec j s : json_eq_str j s = true <-> j = JStr s.
Proof.
  destruct j; simpl; split; intros H; try discriminate; try congruence.
  - apply String.eqb_eq in H. congruence.
  - injection H as ->. apply String.eqb_refl.
Qed.

(** [c not in s] *)
Fixpoint lacks (c : ascii) (s : string) : bool :=
  match s with
  | EmptyString => true
  | String a s' => negb (Ascii.eqb a c) && lacks c s'
  end.

Lemma lacks_app c s t : lacks c (s ++ t) = lacks c s && lacks c t.
Proof. induction s as [|a s IH]; [reflexivity|]. simpl. rewrite IH. apply andb_assoc. Qed.

Lemma split_first_lacks c s : lacks c s = true -> split_first c s = s.
Proof.
  induction s as [|a s IH]; intros H; simpl; [reflexivity|].
  simpl in H. apply andb_prop in H as [Ha Hs].
  destruct (Ascii.eqb a c); [discriminate|]. rewrite IH; auto.
Qed.

Lemma split_first_app_sep c s t :
  lacks c s = true -> split_first c (s ++ String c t) = s.
Proof.
  induction s as [|a s IH]; intros H; simpl.
  - rewrite Ascii.eqb_refl. reflexivity.
  - simpl in H. apply andb_prop in H as [Ha Hs].
    destruct (Ascii.eqb a c); [discriminate|]. rewrite IH; auto.
Qed.

Lemma split_on_aux_lacks c s acc : lacks c s = true -> split_on_aux c s acc = [acc ++ s].
Proof.
  revert acc. induction s as [|a s IH]; intros acc H; simpl.
  - rewrite str_app_nil_r. reflexivity.
  - simpl in H. apply andb_prop in H as [Ha Hs].
    destruct (Ascii.eqb a c); [discriminate|]. rewrite IH by exact Hs.
    rewrite str_app_assoc. reflexivity.
Qed.

Lemma split_on_aux_app_sep c s t acc :
  lacks c s = true -> split_on_aux c (s ++ String c t) acc = (acc ++ s) :: split_on_aux c t "".
Proof.
  revert acc. induction s as [|a s IH]; intros acc H; simpl.
  - rewrite Ascii.eqb_refl, str_app_nil_r. reflexivity.
  - simpl in H. apply andb_prop in H as [Ha Hs].
    destruct (Ascii.eqb a c); [discriminate|]. rewrite IH by exact Hs.
    rewrite str_app_assoc. reflexivity.
Qed.

(** Linear arithmetic through [Z.div] and [Z.modulo] by constants. *)
Ltac zdiv_lia := Z.to_euclidean_division_equations; lia.

(** Unfold the monad on a concrete or partly concrete program. *)
Ltac py_simp :=
  repeat (unfold bind, ret, raise, lift, stuck, try_except_KeyError in *; simpl in *).
