(* ===== verification/Transport.v ===== *)
(** * Transport: the HTTP helpers and the constructor of [FirePower]

    src/firepower.py, class [FirePower]: [getData] (272-284),
    [deleteData] (286-298), [postData] (300-316), [authRequest] (44-56),
    [getGlobalVR] (58-68) and [__init__] (38-42), with the module-level
    options (11-33).  The device is reached through the typeclass
    [Transport]: the HTTP session of [requests] becomes [request], and
    [time.sleep] becomes [sleep], the only operation through which the
    device's own progress (a deployment running) is observed. *)

From Stdlib Require Import String ZArith List.
From stdpp Require Import base strings list.
From S2P Require Import Prelude.
Import ListNotations.
Open Scope string_scope.
Open Scope py_scope.

Inductive method : Type := GET | POST | DELETE.

#[export] Instance method_eq_dec : EqDecision method.
Proof. solve_decision. Defined.

Record response : Type := mk_response {
  status_code : Z;
  resp_text : json   (** the body, already through [json.loads] *)
}.

(** A deployment task as the device lists it (the spec's typed
    DeploymentTask), and its JSON form. *)
Record task : Type := mk_task { task_id : string; task_state : string }.

Definition task_to_json (t : task) : json :=
  JObj [("id", JStr (task_id t)); ("state", JStr (task_state t))].

Definition deploy_url : string := "/operational/deploy".

(** What the client needs from the device: one HTTP exchange, and the
    passing of time. *)
Class Transport (S : Type) : Type := {
  request : method -> string -> list (string * string) -> option json -> S -> response * S;
  sleep : Z -> S -> S
}.

(** What the client assumes of the device: reading does not modify it. *)
Class TransportLaws (S : Type) `{Transport S} : Prop := {
  get_read_only : forall url hdrs s, snd (request GET url hdrs None s) = s
}.

(** The ["firepower"] section of options.json (firepower.py 11-21). *)
Record Options : Type := mk_options {
  USERNAME : string;
  PASSWORD : string;
  FDM : string;
  ROUTE : string;
  GATEWAY : string;
  FO_INTERFACE : string
}.

(** The fields of a [FirePower] object.  [token] is what [authRequest]
    returned ([JNull] for Python's [None]); [globalVR] is [None] while
    the attribute has never been assigned. *)
Record FirePower : Type := mk_fp {
  token : json;
  globalVR : option json
}.

Section Client.
Context {S : Type} `{Transport S}.
Variable opts : Options.

Definition baseurl : string := "https://" ++ FDM opts ++ "/api/fdm/latest".

Definition headers : list (string * string) :=
  [("Content-Type", "application/json"); ("Accept", "application/json")].

Definition oauth_data : json :=
  JObj [("grant_type", JStr "password"); ("username", JStr (USERNAME opts));
        ("password", JStr (PASSWORD opts))].

(** One call of [self.s.get/post/delete]. *)
Definition send (m : method) (url : string) (hdrs : list (string * string))
    (payload : option json) : PyM S response :=
  fun s => let '(r, s') := request m url hdrs payload s in (Ok r, s').

Definition do_sleep (n : Z) : PyM S unit := fun s => (Ok tt, sleep n s).

(** The header dict built at the start of each helper:
    ["Bearer " + self.token] raises [TypeError] unless the token is a
    string. *)
Definition auth_headers (fw : FirePower) : res (list (string * string)) :=
  let? t := as_str (token fw) in
  Ok [("Content-Type", "application/json"); ("Authorization", "Bearer " ++ t)].

Definition getData (fw : FirePower) (url : string) : PyM S (option json) :=
  let* hdrs := lift (auth_headers fw) in
  let* resp := send GET (baseurl ++ url) hdrs None in
  if Z.eqb (status_code resp) 200 then ret (Some (resp_text resp)) else ret None.

Definition deleteData (fw : FirePower) (url : string) : PyM S bool :=
  let* hdrs := lift (auth_headers fw) in
  let* resp := send DELETE (baseurl ++ url) hdrs None in
  ret (Z.eqb (status_code resp) 204).

Definition postData (fw : FirePower) (url : string) (payload : option json)
    : PyM S (option json) :=
  let* hdrs := lift (auth_headers fw) in
  let* resp := send POST (baseurl ++ url) hdrs payload in
  if Z.eqb (status_code resp) 200 then ret (Some (resp_text resp))
  else if Z.eqb (status_code resp) 422 then ret (Some (resp_text resp))
  else ret None.

Definition authRequest : PyM S json :=
  let* resp := send POST (baseurl ++ "/fdm/token") headers (Some oauth_data) in
  if Z.eqb (status_code resp) 200 then lift (getitem_key "access_token" (resp_text resp))
  else ret JNull.

Definition vr_url : string := "/devices/default/routing/virtualrouters".

(** Only the first virtual router is examined; [self.globalVR] is
    assigned only when its name is "Global". *)
Definition getGlobalVR (fw : FirePower) : PyM S FirePower :=
  let* resp := getData fw vr_url in
  let* vrouters := lift (let? j := loads resp in
                         let? items := getitem_key "items" j in
                         getitem_idx 0 items) in
  let* name := lift (getitem_key "name" vrouters) in
  if json_eq_str name "Global" then
    let* id := lift (getitem_key "id" vrouters) in
    let* _ := lift (as_str id) in
    ret (mk_fp (token fw) (Some id))
  else ret fw.

Definition init : PyM S FirePower :=
  let* tok := authRequest in
  getGlobalVR (mk_fp tok None).

(** [self.globalVR] inside a string [+]. *)
Definition vr_id (fw : FirePower) : res string :=
  match globalVR fw with Some j => as_str j | None => Raise AttributeError end.

Definition routes_url (vr : string) : string :=
  "/devices/default/routing/virtualrouters/" ++ vr ++ "/staticrouteentries".
End Client.

Section ClientLemmas.
Context {S : Type} `{TransportLaws S}.

Lemma send_get_read_only url hdrs : read_only (send GET url hdrs None).
Proof.
  intros s. unfold send. pose proof (get_read_only url hdrs s) as Hg.
  destruct (request GET url hdrs None s). exact Hg.
Qed.

Lemma getData_read_only opts fw url : read_only (getData opts fw url).
Proof. unfold getData. auto using send_get_read_only with py. Qed.

Lemma getData_ok opts fw url t s :
  as_str (token fw) = Ok t ->
  getData opts fw url s =
    let '(r, s') := request GET (baseurl opts ++ url)
                      [("Content-Type", "application/json");
                       ("Authorization", "Bearer " ++ t)] None s in
    (Ok (if Z.eqb (status_code r) 200 then Some (resp_text r) else None), s').
Proof.
  intros Ht. unfold getData, auth_headers, send. rewrite Ht. py_simp.
  destruct (request _ _ _ _ s) as [r s']. destruct (Z.eqb _ 200); reflexivity.
Qed.
End ClientLemmas.

#[export] Hint Resolve send_get_read_only getData_read_only : py.
