(* ===== verification/Device.v ===== *)
(** * Device: a reference Firepower Device Manager

    The REST API of the device is not part of the repository; the client
    is verified against the interface [Transport] and its law.  This
    file gives one device that implements the interface, following the
    API behaviour the code expects (token endpoint, virtual routers,
    static route entries, network objects with a duplicate-name error,
    interfaces, deployment tasks that progress when time passes), so that
    the theorems of the other files can be applied to concrete runs of
    the client.  It also proves [TransportLaws] for it. *)

From Stdlib Require Import String Ascii ZArith List.
From stdpp Require Import base strings list pretty.
From S2P Require Import Prelude Transport.
Import ListNotations.
Open Scope string_scope.

Record device : Type := mk_device {
  dev_base : string;                 (** "https://<address>/api/fdm/latest" *)
  dev_user : string;
  dev_pass : string;
  dev_token : string;                (** the token issued on login *)
  dev_vrs : list json;               (** virtual routers *)
  dev_ifaces : list json;            (** interfaces *)
  dev_objects : list json;           (** network objects, each with its "id" *)
  dev_routes : list json;            (** static route entries of the Global router *)
  dev_tasks : list task;             (** deployment tasks *)
  dev_next : nat;                    (** counter for fresh identifiers *)
  dev_stall : bool;                  (** deployments never progress *)
  dev_locked : bool                  (** configuration locked: DELETE refused *)
}.

Definition set_objects (os : list json) (s : device) : device :=
  mk_device (dev_base s) (dev_user s) (dev_pass s) (dev_token s) (dev_vrs s) (dev_ifaces s)
    os (dev_routes s) (dev_tasks s) (S (dev_next s)) (dev_stall s) (dev_locked s).

Definition set_routes (rs : list json) (bump : bool) (s : device) : device :=
  mk_device (dev_base s) (dev_user s) (dev_pass s) (dev_token s) (dev_vrs s) (dev_ifaces s)
    (dev_objects s) rs (dev_tasks s) (if bump then S (dev_next s) else dev_next s) (dev_stall s)
    (dev_locked s).

Definition set_tasks (ts : list task) (bump : bool) (s : device) : device :=
  mk_device (dev_base s) (dev_user s) (dev_pass s) (dev_token s) (dev_vrs s) (dev_ifaces s)
    (dev_objects s) (dev_routes s) ts (if bump then S (dev_next s) else dev_next s) (dev_stall s)
    (dev_locked s).

Fixpoint strip_prefix (p s : string) : option string :=
  match p, s with
  | EmptyString, _ => Some s
  | String a p', String b s' => if Ascii.eqb a b then strip_prefix p' s' else None
  | String _ _, EmptyString => None
  end.

Fixpoint hdr_get (k : string) (h : list (string * string)) : option string :=
  match h with
  | [] => None
  | (k', v) :: h' => if String.eqb k k' then Some v else hdr_get k h'
  end.

Definition items (l : list json) : json := JObj [("items", JList l)].

Definition ok (j : json) : response := mk_response 200 j.
Definition not_found : response := mk_response 404 JNull.

Definition has_id (i : string) (j : json) : bool :=
  match getitem_key "id" j with Ok v => json_eq_str v i | _ => false end.

Definition has_name (n : string) (j : json) : bool :=
  match getitem_key "name" j with Ok v => json_eq_str v n | _ => false end.

Definition with_id (i : string) (j : json) : json :=
  match j with JObj kv => JObj (kv ++ [("id", JStr i)]) | _ => j end.

Definition fresh_id (pre : string) (s : device) : string := pre ++ pretty (dev_next s).

Definition global_vr (s : device) : option string :=
  match dev_vrs s with
  | v :: _ => match getitem_key "id" v with Ok (JStr i) => Some i | _ => None end
  | [] => None
  end.

Definition authorized (s : device) (h : list (string * string)) : bool :=
  match hdr_get "Authorization" h with
  | Some v => String.eqb v ("Bearer " ++ dev_token s)
  | None => false
  end.

(** A GET of an authorized client, by path under the API base. *)
Definition get_path (s : device) (path : string) : response :=
    if String.eqb path "/devices/default/routing/virtualrouters" then ok (items (dev_vrs s)) else
    if String.eqb path "/devices/default/interfaces" then ok (items (dev_ifaces s)) else
    if String.eqb path deploy_url then ok (items (map task_to_json (dev_tasks s))) else
    match strip_prefix "/object/networks?filter=name%3A" path with
    | Some n => ok (items (List.filter (has_name n) (dev_objects s)))
    | None =>
    match strip_prefix "/object/networks/" path with
    | Some oid => match find (has_id oid) (dev_objects s) with
                  | Some o => ok o | None => not_found end
    | None =>
    match strip_prefix "/devices/default/routing/virtualrouters/" path with
    | Some rest =>
        match split_on "/" rest with
        | [vr; "staticrouteentries"] =>
            if bool_decide (global_vr s = Some vr) then ok (items (dev_routes s)) else not_found
        | _ => not_found
        end
    | None => not_found
    end end end.

Definition dev_get (s : device) (url : string) (h : list (string * string)) : response :=
  match strip_prefix (dev_base s) url with
  | None => not_found
  | Some path => if negb (authorized s h) then mk_response 401 JNull else get_path s path
  end.

Definition duplicate_name_error : json :=
  JObj [("error", JObj [("messages", JList [JObj [("code", JStr "duplicateName")]])])].

Definition invalid_value_error : json :=
  JObj [("error", JObj [("messages", JList [JObj [("code", JStr "invalidValue")]])])].

(** The login: the token for the right credentials. *)
Definition post_token (s : device) (p : option json) : response :=
  match p with
  | Some body =>
      if json_eq_str (match getitem_key "username" body with Ok u => u | _ => JNull end) (dev_user s)
         && json_eq_str (match getitem_key "password" body with Ok u => u | _ => JNull end) (dev_pass s)
      then ok (JObj [("access_token", JStr (dev_token s))])
      else mk_response 400 JNull
  | None => mk_response 400 JNull
  end.

(** A new network object: refused when its value is empty or its name
    is taken, else stored under a fresh id. *)
Definition post_object (s : device) (o : json) : response * device :=
  let n := match getitem_key "name" o with Ok (JStr n) => n | _ => "" end in
  if json_eq_str (match getitem_key "value" o with Ok v => v | _ => JNull end) ""
  then (mk_response 422 invalid_value_error, s) else
  if existsb (has_name n) (dev_objects s) then (mk_response 422 duplicate_name_error, s)
  else let i := fresh_id "obj" s in
       (ok (with_id i o), set_objects (dev_objects s ++ [with_id i o]) s).

(** A new static route: refused when its name is taken. *)
Definition post_route (s : device) (r : json) : response * device :=
  if existsb (has_name (match getitem_key "name" r with Ok (JStr n) => n | _ => "" end))
             (dev_routes s)
  then (mk_response 422 duplicate_name_error, s) else
  let i := fresh_id "route" s in
  (ok (with_id i r), set_routes (dev_routes s ++ [with_id i r]) true s).

(** A deployment: a new QUEUED task. *)
Definition post_deploy (s : device) : response * device :=
  let i := fresh_id "deploy" s in
  (ok (JObj [("id", JStr i)]), set_tasks (dev_tasks s ++ [mk_task i "QUEUED"]) true s).

(** A POST of an authorized client, by path under the API base. *)
Definition post_path (s : device) (path : string) (p : option json) : response * device :=
  if String.eqb path deploy_url then post_deploy s
  else if String.eqb path "/object/networks" then
    match p with
    | Some o => post_object s o
    | None => (mk_response 400 JNull, s)
    end
  else match global_vr s, p with
    | Some vr, Some r =>
        if String.eqb path ("/devices/default/routing/virtualrouters/" ++ vr ++ "/staticrouteentries")
        then post_route s r else (not_found, s)
    | _, _ => (not_found, s)
    end.

Definition dev_post (s : device) (url : string) (h : list (string * string))
    (p : option json) : response * device :=
  match strip_prefix (dev_base s) url with
  | None => (not_found, s)
  | Some path =>
    if String.eqb path "/fdm/token" then (post_token s p, s) else
    if negb (authorized s h) then (mk_response 401 JNull, s) else
    post_path s path p
  end.

(** A DELETE of an authorized client, by path under the API base: a
    locked configuration refuses it, an unknown route is not found. *)
Definition delete_path (s : device) (vr path : string) : response * device :=
  if dev_locked s then (mk_response 409 JNull, s) else
  match strip_prefix ("/devices/default/routing/virtualrouters/" ++ vr ++ "/staticrouteentries/") path with
  | Some rid =>
      if existsb (has_id rid) (dev_routes s)
      then (mk_response 204 JNull, set_routes (List.filter (fun r => negb (has_id rid r)) (dev_routes s)) false s)
      else (not_found, s)
  | None => (not_found, s)
  end.

Definition dev_delete (s : device) (url : string) (h : list (string * string)) : response * device :=
  match strip_prefix (dev_base s) url, global_vr s with
  | Some path, Some vr =>
    if negb (authorized s h) then (mk_response 401 JNull, s) else delete_path s vr path
  | _, _ => (not_found, s)
  end.

Definition advance (t : task) : task :=
  if String.eqb (task_state t) "QUEUED" then mk_task (task_id t) "DEPLOYING"
  else if String.eqb (task_state t) "DEPLOYING" then mk_task (task_id t) "DEPLOYED"
  else t.

#[export] Instance device_transport : Transport device := {
  request m url h p s :=
    match m with
    | GET => (dev_get s url h, s)
    | POST => dev_post s url h p
    | DELETE => dev_delete s url h
    end;
  sleep _ s := if dev_stall s then s else set_tasks (map advance (dev_tasks s)) false s
}.

#[export] Instance device_laws : TransportLaws device.
Proof. constructor. reflexivity. Qed.

(** ** A configuration and a device used by the concrete runs *)

Definition opts0 : Options :=
  mk_options "admin" "secret" "fdm.example" "10.9.0.0/16" "192.168.1.1" "GigabitEthernet0/1".

Definition dev0 : device :=
  mk_device "https://fdm.example/api/fdm/latest" "admin" "secret" "tok1"
    [JObj [("name", JStr "Global"); ("id", JStr "vr1")]]
    [JObj [("hardwareName", JStr "GigabitEthernet0/0"); ("id", JStr "if0"); ("name", JStr "outside")];
     JObj [("hardwareName", JStr "GigabitEthernet0/1"); ("id", JStr "if1"); ("name", JStr "outside2")]]
    [] [] [] 0 false false.

(** The client object after a successful [__init__] against [dev0]. *)
Definition fw0 : FirePower := mk_fp (JStr "tok1") (Some (JStr "vr1")).

Lemma init_dev0 : init opts0 dev0 = (Ok fw0, dev0).
Proof. reflexivity. Qed.
