(* ===== verification/Deploy.v ===== *)
(** * Deploy: the deployment waiter, [FirePower.deployPolicy]

    src/firepower.py 127-154.  The method posts to /operational/deploy,
    reads the task id, and then loops: sleep(8), fetch the task list,
    scan it for the task.  Seeing the task DEPLOYED returns [True]; any
    other observation (the task pending, or absent from the list) goes
    round the [while] again, so the loop has no exit but success.

    The [while] is [deploy_loop] with fuel; one iteration is [poll];
    the inner [for] is [scan_tasks], compared with a reference
    definition on the typed task list of [Transport]. *)

From Stdlib Require Import String ZArith List Lia.
From stdpp Require Import base strings list.
From S2P Require Import Prelude Transport Device.
Import ListNotations.
Open Scope string_scope.
Open Scope py_scope.

(** The body of [for task in taskList['items']]: [Ok true] when the
    method returns [True] from inside the loop, [Ok false] when the
    [for] runs to its end. *)
Fixpoint scan_tasks (deploymentID : string) (tasks : list json) : res bool :=
  match tasks with
  | [] => Ok false
  | task :: rest =>
      let? tid := getitem_key "id" task in
      if json_eq_str tid deploymentID then
        let? st := getitem_key "state" task in
        if json_eq_str st "DEPLOYED" then Ok true
        else let? _ := as_str st in scan_tasks deploymentID rest
      else scan_tasks deploymentID rest
  end.

Section Deploy.
Context {D : Type} `{Transport D}.
Variable opts : Options.

(** One iteration of [while deployed is False]. *)
Definition poll (fw : FirePower) (deploymentID : string) : PyM D bool :=
  do_sleep 8 ;;;
  let* r := getData opts fw deploy_url in
  lift (let? taskList := loads r in
        let? items := getitem_key "items" taskList in
        let? tasks := py_iter items in
        scan_tasks deploymentID tasks).

Fixpoint deploy_loop (fuel : nat) (fw : FirePower) (deploymentID : string) : PyM D bool :=
  match fuel with
  | O => stuck
  | S n =>
      let* found := poll fw deploymentID in
      if found then ret true else deploy_loop n fw deploymentID
  end.

Definition deployPolicy (fuel : nat) (fw : FirePower) : PyM D bool :=
  let* r := postData opts fw deploy_url None in
  let* deploymentID := lift (let? j := loads r in
                             let? i := getitem_key "id" j in
                             as_str i) in
  deploy_loop fuel fw deploymentID.

(** The polls from [s] show the task pending [k] times and then
    DEPLOYED, ending in [s']. *)
Inductive deployed_after (fw : FirePower) (i : string) : nat -> D -> D -> Prop :=
| deployed_now s s' :
    poll fw i s = (Ok true, s') -> deployed_after fw i 0 s s'
| deployed_later k s s1 s' :
    poll fw i s = (Ok false, s1) -> deployed_after fw i k s1 s' ->
    deployed_after fw i (S k) s s'.
End Deploy.

Section DeployTheory.
Context {D : Type} `{Transport D}.
Variable opts : Options.

Lemma deploy_loop_S fuel fw i s :
  deploy_loop opts (S fuel) fw i s =
    match poll opts fw i s with
    | (Ok true, s') => (Ok true, s')
    | (Ok false, s') => deploy_loop opts fuel fw i s'
    | (Raise e, s') => (Raise e, s')
    | (Stuck, s') => (Stuck, s')
    end.
Proof. simpl. unfold bind. destruct (poll opts fw i s) as [[[]| |] s']; reflexivity. Qed.

Lemma deploy_loop_not_false fuel fw i s : fst (deploy_loop opts fuel fw i s) <> Ok false.
Proof.
  revert s. induction fuel as [|n IH]; intros s; [discriminate|].
  rewrite deploy_loop_S. destruct (poll opts fw i s) as [[[]| |] s']; simpl; auto; discriminate.
Qed.

(** The loop started after a successful submission. *)
Lemma deployPolicy_submitted fuel fw s j s1 i :
  postData opts fw deploy_url None s = (Ok (Some j), s1) ->
  getitem_key "id" j = Ok (JStr i) ->
  deployPolicy opts fuel fw s = deploy_loop opts fuel fw i s1.
Proof. intros Hp Hi. unfold deployPolicy, bind. rewrite Hp. simpl. rewrite Hi. reflexivity. Qed.

(** [deployPolicy] never returns [False]: its outcome is [True],
    an exception, or no outcome at all (the loop still running when
    the fuel ends).  The [else] branches of [addRoute] and [delRoute]
    that report a deployment error are therefore unreachable. *)
Theorem deployPolicy_never_false fuel fw s :
  fst (deployPolicy opts fuel fw s) <> Ok false.
Proof.
  unfold deployPolicy, bind.
  destruct (postData opts fw deploy_url None s) as [[r| e|] s1]; simpl; try discriminate.
  destruct (let? j := loads r in let? i := getitem_key "id" j in as_str i) as [i| e|];
    simpl; try discriminate.
  apply deploy_loop_not_false.
Qed.

(** C20: liveness of the polling loop: when the polls from [s] see the
    task pending [k] times and then DEPLOYED, any fuel above [k] makes
    the loop return [True], in the state after that last poll. *)
Theorem deploy_loop_deployed fw i k s s' fuel :
  deployed_after opts fw i k s s' -> k < fuel ->
  deploy_loop opts fuel fw i s = (Ok true, s').
Proof.
  intros Hd. revert fuel. induction Hd as [s s' Hp|k s s1 s' Hp Hd IH]; intros fuel Hlt;
    destruct fuel as [|fuel]; try lia; rewrite deploy_loop_S, Hp; [reflexivity|].
  apply IH. lia.
Qed.

(** C22: conversely, the loop returns [True] only after a run of polls
    that ends in DEPLOYED, and within its fuel. *)
Theorem deploy_loop_true_inv fw i fuel s s' :
  deploy_loop opts fuel fw i s = (Ok true, s') ->
  exists k, k < fuel /\ deployed_after opts fw i k s s'.
Proof.
  revert s. induction fuel as [|fuel IH]; intros s Hl; [discriminate|].
  rewrite deploy_loop_S in Hl.
  destruct (poll opts fw i s) as [[[]| |] s1] eqn:Hp; try discriminate.
  - injection Hl as <-. exists 0. split; [lia|]. constructor. exact Hp.
  - destruct (IH s1 Hl) as (k & Hk & Hd). exists (S k). split; [lia|].
    econstructor; eauto.
Qed.

Lemma deploy_loop_pending fw i (Inv : D -> Prop) s :
  Inv s ->
  (forall s0, Inv s0 -> exists s1, poll opts fw i s0 = (Ok false, s1) /\ Inv s1) ->
  forall fuel, fst (deploy_loop opts fuel fw i s) = Stuck.
Proof.
  intros Hs Hstep fuel. revert s Hs. induction fuel as [|fuel IH]; intros s Hs; [reflexivity|].
  rewrite deploy_loop_S. destruct (Hstep s Hs) as (s1 & Hp & Hs1). rewrite Hp. auto.
Qed.

(** C21: when every poll from [s] on sees the task not yet DEPLOYED
    (still pending, or gone from the list), the loop never returns:
    whatever the fuel, it is still polling when the fuel ends.  [Inv]
    is a set of device states closed under such polls. *)
Theorem deploy_loop_pending_forever fw i (Inv : D -> Prop) s :
  Inv s ->
  (forall s0, Inv s0 -> exists s1, poll opts fw i s0 = (Ok false, s1) /\ Inv s1) ->
  forall fuel, fst (deploy_loop opts fuel fw i s) = Stuck.
Proof. exact (deploy_loop_pending fw i Inv s). Qed.
End DeployTheory.

(** ** The scan against the typed task list *)

Definition task_deployed (i : string) (t : task) : bool :=
  String.eqb (task_id t) i && String.eqb (task_state t) "DEPLOYED".

Lemma getitem_task_id t : getitem_key "id" (task_to_json t) = Ok (JStr (task_id t)).
Proof. reflexivity. Qed.

Lemma getitem_task_state t : getitem_key "state" (task_to_json t) = Ok (JStr (task_state t)).
Proof. reflexivity. Qed.

Lemma scan_tasks_existsb i ts :
  scan_tasks i (map task_to_json ts) = Ok (existsb (task_deployed i) ts).
Proof.
  induction ts as [|t ts IH]; [reflexivity|].
  cbn [map scan_tasks]. rewrite getitem_task_id. cbn [rbind json_eq_str existsb].
  unfold task_deployed at 1.
  destruct (String.eqb (task_id t) i); cbn [andb orb]; [|exact IH].
  rewrite getitem_task_state. cbn [rbind json_eq_str].
  destruct (String.eqb (task_state t) "DEPLOYED"); [reflexivity|exact IH].
Qed.

(** C23: on a well-formed task list, the scan returns [True] exactly
    when some task has the deployment's id and the state DEPLOYED. *)
Theorem scan_tasks_spec i ts :
  scan_tasks i (map task_to_json ts) = Ok (existsb (task_deployed i) ts).
Proof. apply scan_tasks_existsb. Qed.

(** ** Concrete runs against the reference device *)

(** [dev0] right after a deployment was submitted. *)
Definition dev_submitted : device := set_tasks [mk_task "deploy0" "QUEUED"] true dev0.
Definition dev_deployed : device := set_tasks [mk_task "deploy0" "DEPLOYED"] false dev_submitted.
Definition dev_stalled : device :=
  mk_device (dev_base dev_submitted) (dev_user dev_submitted) (dev_pass dev_submitted)
    (dev_token dev_submitted) (dev_vrs dev_submitted) (dev_ifaces dev_submitted)
    (dev_objects dev_submitted) (dev_routes dev_submitted) (dev_tasks dev_submitted)
    (dev_next dev_submitted) true false.

Example deployPolicy_dev0 :
  deployPolicy opts0 3 fw0 dev0 = (Ok true, dev_deployed).
Proof. reflexivity. Qed.

Lemma deploy_loop_deployed_witness :
  deployed_after opts0 fw0 "deploy0" 1 dev_submitted dev_deployed /\
  deploy_loop opts0 3 fw0 "deploy0" dev_submitted = (Ok true, dev_deployed).
Proof.
  assert (Hd : deployed_after opts0 fw0 "deploy0" 1 dev_submitted dev_deployed).
  { eapply deployed_later; [reflexivity|]. apply deployed_now. reflexivity. }
  split; [exact Hd|]. apply (deploy_loop_deployed opts0 fw0 "deploy0" 1); [exact Hd | lia].
Defined.

Lemma deploy_loop_true_inv_witness :
  exists k, k < 3 /\ deployed_after opts0 fw0 "deploy0" k dev_submitted dev_deployed.
Proof. apply (deploy_loop_true_inv opts0 fw0 "deploy0" 3 dev_submitted dev_deployed). reflexivity. Defined.

Lemma deploy_loop_pending_forever_witness :
  fst (deploy_loop opts0 50 fw0 "deploy0" dev_stalled) = Stuck.
Proof.
  apply (deploy_loop_pending_forever opts0 fw0 "deploy0" (fun s => s = dev_stalled)); [reflexivity|].
  intros s0 ->. exists dev_stalled. split; reflexivity.
Defined.
