(* ===== verification/IPv4.v ===== *)
(** * IPv4: the part of Python's [ipaddress] that [createNetwork] uses

    src/firepower.py 200-209 ([createNetwork]) normalises the backup
    route with [IPv4Network(address).network_address] and
    [.netmask].  This file models what those calls do on a string, after
    CPython's Lib/ipaddress.py (3.9 and later): [_ip_int_from_string],
    [_parse_octet] (at most three decimal digits, no leading zero, at
    most 255), [_split_optional_netmask], [_make_netmask] with
    [_prefix_from_prefix_string] and [_prefix_from_ip_string] (a prefix
    length, a netmask, or a host mask), [_ip_int_from_prefix], the
    strict check that no host bit is set, and [str()] of an address.
    Addresses are 32-bit integers in [Z]; every error is [ValueError]
    (AddressValueError and NetmaskValueError are its subclasses). *)

From Stdlib Require Import String Ascii ZArith List Lia.
From stdpp Require Import base strings list.
From S2P Require Import Prelude.
Import ListNotations.
Open Scope string_scope.
Open Scope Z_scope.

Definition is_digit (c : ascii) : bool :=
  (48 <=? nat_of_ascii c)%nat && (nat_of_ascii c <=? 57)%nat.

Definition digit_val (c : ascii) : Z := Z.of_nat (nat_of_ascii c) - 48.

(** [s.isascii() and s.isdigit()] *)
Fixpoint all_digits (s : string) : bool :=
  match s with
  | EmptyString => false
  | String c EmptyString => is_digit c
  | String c s' => is_digit c && all_digits s'
  end.

Fixpoint dec_value_acc (s : string) (acc : Z) : Z :=
  match s with
  | EmptyString => acc
  | String c s' => dec_value_acc s' (10 * acc + digit_val c)
  end.

(** [int(s, 10)] on a string of decimal digits. *)
Definition dec_value (s : string) : Z := dec_value_acc s 0.

Definition starts_with_zero (s : string) : bool :=
  match s with String c _ => Ascii.eqb c "0"%char | EmptyString => false end.

(** [_parse_octet] *)
Definition parse_octet (s : string) : res Z :=
  if String.eqb s "" then Raise ValueError
  else if negb (all_digits s) then Raise ValueError
  else if (3 <? String.length s)%nat then Raise ValueError
  else if negb (String.eqb s "0") && starts_with_zero s then Raise ValueError
  else let v := dec_value s in
       if 255 <? v then Raise ValueError else Ok v.

(** [_ip_int_from_string]: four octets, most significant first. *)
Definition ip_int_from_string (s : string) : res Z :=
  if String.eqb s "" then Raise ValueError else
  match split_on "." s with
  | [a; b; c; d] =>
      let? va := parse_octet a in
      let? vb := parse_octet b in
      let? vc := parse_octet c in
      let? vd := parse_octet d in
      Ok (((va * 256 + vb) * 256 + vc) * 256 + vd)
  | _ => Raise ValueError
  end.

Definition ALL_ONES : Z := 2 ^ 32 - 1.

(** [_ip_int_from_prefix] *)
Definition ip_int_from_prefix (p : Z) : Z := Z.lxor ALL_ONES (Z.shiftr ALL_ONES p).

(** [int.bit_length] of a non-negative integer. *)
Definition bit_length (n : Z) : Z := if n =? 0 then 0 else Z.log2 n + 1.

(** [_count_righthand_zero_bits] *)
Definition count_righthand_zero_bits (n bits : Z) : Z :=
  if n =? 0 then bits else Z.min bits (bit_length (Z.land (Z.lnot n) (n - 1))).

(** [_prefix_from_ip_int]: a netmask is ones followed by zeros. *)
Definition prefix_from_ip_int (ip : Z) : res Z :=
  let tz := count_righthand_zero_bits ip 32 in
  let p := 32 - tz in
  if Z.shiftr ip tz =? Z.shiftl 1 p - 1 then Ok p else Raise ValueError.

(** [_prefix_from_prefix_string] *)
Definition prefix_from_prefix_string (s : string) : res Z :=
  if negb (all_digits s) then Raise ValueError else
  let p := dec_value s in
  if (0 <=? p) && (p <=? 32) then Ok p else Raise ValueError.

(** [_prefix_from_ip_string]: a netmask, or else a host mask. *)
Definition prefix_from_ip_string (s : string) : res Z :=
  let? ip := ip_int_from_string s in
  match prefix_from_ip_int ip with
  | Ok p => Ok p
  | _ => prefix_from_ip_int (Z.lxor ip ALL_ONES)
  end.

(** [_make_netmask] on a string argument: the netmask and the prefix
    length. *)
Definition make_netmask (arg : string) : res (Z * Z) :=
  let? p := match prefix_from_prefix_string arg with
            | Ok p => Ok p
            | _ => prefix_from_ip_string arg
            end in
  Ok (ip_int_from_prefix p, p).

Record ipv4_network : Type := mk_net {
  network_address : Z;
  netmask : Z;
  prefixlen : Z
}.

(** [IPv4Network(address)] with [strict=True]. *)
Definition IPv4Network (address : string) : res ipv4_network :=
  let? parts := match split_on "/" address with
                | [a] => Ok (a, None)
                | [a; m] => Ok (a, Some m)
                | _ => Raise ValueError
                end in
  let? packed := ip_int_from_string (fst parts) in
  let? mask := match snd parts with
               | None => Ok (ip_int_from_prefix 32, 32)
               | Some m => make_netmask m
               end in
  if negb (Z.land packed (fst mask) =? packed) then Raise ValueError
  else Ok (mk_net packed (fst mask) (snd mask)).

Definition digit_char (d : Z) : ascii := ascii_of_nat (48 + Z.to_nat d).

(** [str(n)] for [0 <= n <= 255]. *)
Definition print_octet (n : Z) : string :=
  if n <? 10 then String (digit_char n) ""
  else if n <? 100 then String (digit_char (n / 10)) (String (digit_char (n mod 10)) "")
  else String (digit_char (n / 100))
         (String (digit_char ((n / 10) mod 10)) (String (digit_char (n mod 10)) "")).

Definition octet (z : Z) (k : Z) : Z := Z.land (Z.shiftr z (8 * k)) 255.

(** [str(IPv4Address)]: the four bytes of [to_bytes(4, 'big')]. *)
Definition ipv4_str (z : Z) : string :=
  print_octet (octet z 3) ++ "." ++ print_octet (octet z 2) ++ "." ++
  print_octet (octet z 1) ++ "." ++ print_octet (octet z 0).

Example ipv4_network_16 :
  IPv4Network "10.9.0.0/16" = Ok (mk_net 168361984 4294901760 16).
Proof. reflexivity. Qed.

Example ipv4_network_netmask :
  IPv4Network "10.9.0.0/255.255.0.0" = Ok (mk_net 168361984 4294901760 16).
Proof. reflexivity. Qed.

Example ipv4_network_hostmask :
  IPv4Network "10.9.0.0/0.0.255.255" = Ok (mk_net 168361984 4294901760 16).
Proof. reflexivity. Qed.

Example ipv4_network_host_bits : IPv4Network "10.9.0.1/16" = Raise ValueError.
Proof. reflexivity. Qed.

Example ipv4_network_leading_zero : IPv4Network "10.09.0.0/16" = Raise ValueError.
Proof. reflexivity. Qed.

Example ipv4_str_mask : ipv4_str 4294901760 = "255.255.0.0".
Proof. reflexivity. Qed.

(** ** Octets: [str] and [_parse_octet] are inverse on 0..255 *)

Lemma digit_facts c :
  is_digit c = true -> digit_char (digit_val c) = c /\ 0 <= digit_val c <= 9.
Proof.
  unfold is_digit, digit_val, digit_char. intros H.
  apply andb_prop in H as [H1 H2]. apply Nat.leb_le in H1, H2.
  split; [|lia].
  replace (48 + Z.to_nat (Z.of_nat (nat_of_ascii c) - 48))%nat with (nat_of_ascii c) by lia.
  apply ascii_nat_embedding.
Qed.

Lemma print_octet_one a : 0 <= a <= 9 -> print_octet a = String (digit_char a) "".
Proof. intros Ha. unfold print_octet. replace (a <? 10) with true by lia. reflexivity. Qed.

Lemma print_octet_two a b :
  1 <= a <= 9 -> 0 <= b <= 9 ->
  print_octet (10 * a + b) = String (digit_char a) (String (digit_char b) "").
Proof.
  intros Ha Hb. unfold print_octet.
  replace (10 * a + b <? 10) with false by lia. replace (10 * a + b <? 100) with true by lia.
  replace ((10 * a + b) / 10) with a by zdiv_lia. replace ((10 * a + b) mod 10) with b by zdiv_lia.
  reflexivity.
Qed.

Lemma print_octet_three a b c :
  1 <= a <= 9 -> 0 <= b <= 9 -> 0 <= c <= 9 -> 100 * a + 10 * b + c <= 255 ->
  print_octet (100 * a + 10 * b + c) =
    String (digit_char a) (String (digit_char b) (String (digit_char c) "")).
Proof.
  intros Ha Hb Hc Hle. unfold print_octet.
  replace (100 * a + 10 * b + c <? 10) with false by lia.
  replace (100 * a + 10 * b + c <? 100) with false by lia.
  replace ((100 * a + 10 * b + c) / 100) with a by zdiv_lia.
  replace ((100 * a + 10 * b + c) / 10 mod 10) with b by zdiv_lia.
  replace ((100 * a + 10 * b + c) mod 10) with c by zdiv_lia.
  reflexivity.
Qed.

Lemma digit_nonzero c : is_digit c = true -> Ascii.eqb c "0"%char = false -> 1 <= digit_val c.
Proof.
  intros Hd Hz. destruct (digit_facts c Hd) as [Hc Hr].
  destruct (Z.eq_dec (digit_val c) 0) as [E|E]; [|lia].
  rewrite E in Hc. rewrite <- Hc in Hz. discriminate.
Qed.

Lemma parse_octet_ok s v :
  parse_octet s = Ok v ->
  all_digits s = true /\ (String.length s <= 3)%nat /\
  (s = "0" \/ starts_with_zero s = false) /\ dec_value s = v /\ v <= 255.
Proof.
  unfold parse_octet. intros H.
  destruct (String.eqb s "") eqn:E0; [discriminate|].
  destruct (all_digits s) eqn:E1; [|discriminate]. cbn [negb] in H.
  destruct (3 <? String.length s)%nat eqn:E2; [discriminate|].
  destruct (negb (String.eqb s "0") && starts_with_zero s) eqn:E3; [discriminate|].
  destruct (255 <? dec_value s) eqn:E4; [discriminate|]. injection H as <-.
  apply Nat.ltb_ge in E2. apply Z.ltb_ge in E4. repeat split; auto.
  destruct (String.eqb_spec s "0") as [->|Hne]; [left; reflexivity|right].
  destruct (starts_with_zero s); [discriminate|reflexivity].
Qed.

(** A string [_parse_octet] accepts is the decimal form of its value. *)
Lemma parse_print_octet s v : parse_octet s = Ok v -> print_octet v = s.
Proof.
  intros H. destruct (parse_octet_ok s v H) as (Hd & Hl & Hz & <- & Hle). clear H.
  destruct s as [|c1 [|c2 [|c3 [|c4 r]]]]; cbn [all_digits String.length] in Hd, Hl;
    [discriminate| | | |lia].
  - destruct (digit_facts c1 Hd) as [E1 R1].
    unfold dec_value; cbn [dec_value_acc]. replace (10 * 0 + digit_val c1) with (digit_val c1) by lia.
    rewrite print_octet_one by exact R1. rewrite E1. reflexivity.
  - apply andb_prop in Hd as [D1 D2].
    destruct Hz as [Hz|Hz]; [discriminate|]. unfold starts_with_zero in Hz.
    destruct (digit_facts c1 D1) as [E1 R1]. destruct (digit_facts c2 D2) as [E2 R2].
    pose proof (digit_nonzero c1 D1 Hz).
    unfold dec_value; cbn [dec_value_acc].
    replace (10 * (10 * 0 + digit_val c1) + digit_val c2)
      with (10 * digit_val c1 + digit_val c2) by lia.
    rewrite print_octet_two by lia. rewrite E1, E2. reflexivity.
  - apply andb_prop in Hd as [D1 Hd]. apply andb_prop in Hd as [D2 D3].
    destruct Hz as [Hz|Hz]; [discriminate|]. unfold starts_with_zero in Hz.
    destruct (digit_facts c1 D1) as [E1 R1]. destruct (digit_facts c2 D2) as [E2 R2].
    destruct (digit_facts c3 D3) as [E3 R3]. pose proof (digit_nonzero c1 D1 Hz).
    unfold dec_value in *; cbn [dec_value_acc] in *.
    replace (10 * (10 * (10 * 0 + digit_val c1) + digit_val c2) + digit_val c3)
      with (100 * digit_val c1 + 10 * digit_val c2 + digit_val c3) in * by lia.
    rewrite print_octet_three by lia. rewrite E1, E2, E3. reflexivity.
Qed.

Lemma all_digits_cons c s :
  all_digits (String c s) = true -> is_digit c = true /\ (s = "" \/ all_digits s = true).
Proof.
  destruct s as [|c' s]; cbn [all_digits]; intros H; [auto|].
  apply andb_prop in H as [H1 H2]. auto.
Qed.

Lemma dec_value_acc_nonneg s acc :
  all_digits s = true -> 0 <= acc -> 0 <= dec_value_acc s acc.
Proof.
  revert acc. induction s as [|c s IH]; intros acc Hd Ha; [exact Ha|].
  apply all_digits_cons in Hd as [Hc [->|Hs]]; destruct (digit_facts c Hc) as [_ R];
    cbn [dec_value_acc]; [lia|]. apply IH; [exact Hs|lia].
Qed.

Lemma parse_octet_range s v : parse_octet s = Ok v -> 0 <= v <= 255.
Proof.
  intros H. destruct (parse_octet_ok s v H) as (Hd & _ & _ & <- & Hle).
  split; [apply dec_value_acc_nonneg; [exact Hd|lia]|exact Hle].
Qed.

(** [str] then [_parse_octet], checked on the 256 octets. *)
Definition octet_print_ok (n : Z) : bool :=
  match parse_octet (print_octet n) with Ok v => v =? n | _ => false end
  && lacks "." (print_octet n) && lacks "/" (print_octet n).

Lemma octet_print_ok_all : forallb octet_print_ok (map Z.of_nat (seq 0 256)) = true.
Proof. vm_compute. reflexivity. Qed.

Lemma octet_print_ok_range n : 0 <= n <= 255 -> octet_print_ok n = true.
Proof.
  intros Hn. pose proof octet_print_ok_all as H. rewrite forallb_forall in H. apply H.
  apply in_map_iff. exists (Z.to_nat n). split; [lia|]. apply in_seq. lia.
Qed.

Lemma print_parse_octet n : 0 <= n <= 255 -> parse_octet (print_octet n) = Ok n.
Proof.
  intros Hn. pose proof (octet_print_ok_range n Hn) as H. unfold octet_print_ok in H.
  destruct (parse_octet (print_octet n)) as [v| |]; [|discriminate|discriminate].
  apply andb_prop in H as [H _]. apply andb_prop in H as [H _]. apply Z.eqb_eq in H. congruence.
Qed.

Lemma print_octet_lacks n :
  0 <= n <= 255 -> lacks "." (print_octet n) = true /\ lacks "/" (print_octet n) = true.
Proof.
  intros Hn. pose proof (octet_print_ok_range n Hn) as H. unfold octet_print_ok in H.
  apply andb_prop in H as [H H2]. apply andb_prop in H as [_ H1]. auto.
Qed.

Lemma octet_eq z k : 0 <= k -> octet z k = (z / 2 ^ (8 * k)) mod 256.
Proof.
  intros Hk. unfold octet. change 255 with (Z.ones 8).
  rewrite Z.land_ones by lia. rewrite Z.shiftr_div_pow2 by lia. reflexivity.
Qed.

Lemma octet_range z k : 0 <= k -> 0 <= octet z k <= 255.
Proof. intros Hk. rewrite octet_eq by exact Hk. pose proof (Z.mod_pos_bound (z / 2 ^ (8 * k)) 256). lia. Qed.

Lemma split_on_dotted a b c d :
  lacks "." a = true -> lacks "." b = true -> lacks "." c = true -> lacks "." d = true ->
  split_on "." (a ++ "." ++ b ++ "." ++ c ++ "." ++ d) = [a; b; c; d].
Proof.
  intros Ha Hb Hc Hd. unfold split_on.
  change (a ++ "." ++ b ++ "." ++ c ++ "." ++ d) with
    (a ++ String "." (b ++ String "." (c ++ String "." d))).
  rewrite !split_on_aux_app_sep by assumption. rewrite split_on_aux_lacks by exact Hd.
  reflexivity.
Qed.

Lemma ipv4_str_nonempty z : String.eqb (ipv4_str z) "" = false.
Proof. unfold ipv4_str, print_octet. destruct (octet z 3 <? 10), (octet z 3 <? 100); reflexivity. Qed.

Lemma octets_recombine z :
  0 <= z <= ALL_ONES ->
  ((octet z 3 * 256 + octet z 2) * 256 + octet z 1) * 256 + octet z 0 = z.
Proof.
  unfold ALL_ONES. intros Hz. rewrite !octet_eq by lia. cbn [Z.pow Z.mul Z.pow_pos Pos.iter].
  zdiv_lia.
Qed.

Lemma octets_split a b c d :
  0 <= a <= 255 -> 0 <= b <= 255 -> 0 <= c <= 255 -> 0 <= d <= 255 ->
  let z := ((a * 256 + b) * 256 + c) * 256 + d in
  octet z 3 = a /\ octet z 2 = b /\ octet z 1 = c /\ octet z 0 = d.
Proof. intros Ha Hb Hc Hd z. subst z. rewrite !octet_eq by lia. cbn [Z.pow Z.mul Z.pow_pos Pos.iter].
  repeat split; zdiv_lia.
Qed.

(** Printing an address and parsing it back gives the address. *)
Lemma ipv4_str_roundtrip z :
  0 <= z <= ALL_ONES -> ip_int_from_string (ipv4_str z) = Ok z.
Proof.
  intros Hz. unfold ip_int_from_string. rewrite ipv4_str_nonempty.
  pose proof (octet_range z 3) as R3. pose proof (octet_range z 2) as R2.
  pose proof (octet_range z 1) as R1. pose proof (octet_range z 0) as R0.
  unfold ipv4_str. rewrite split_on_dotted by (apply print_octet_lacks; lia).
  rewrite !print_parse_octet by lia. cbn [rbind]. f_equal. apply octets_recombine, Hz.
Qed.

Lemma ip_int_from_string_inv s z :
  ip_int_from_string s = Ok z ->
  exists a b c d va vb vc vd,
    split_on "." s = [a; b; c; d] /\
    parse_octet a = Ok va /\ parse_octet b = Ok vb /\
    parse_octet c = Ok vc /\ parse_octet d = Ok vd /\
    z = ((va * 256 + vb) * 256 + vc) * 256 + vd.
Proof.
  unfold ip_int_from_string. destruct (String.eqb s ""); [discriminate|].
  destruct (split_on "." s) as [|a [|b [|c [|d [|e l]]]]]; try discriminate.
  destruct (parse_octet a) as [va| |] eqn:Ha; try discriminate; cbn [rbind].
  destruct (parse_octet b) as [vb| |] eqn:Hb; try discriminate; cbn [rbind].
  destruct (parse_octet c) as [vc| |] eqn:Hc; try discriminate; cbn [rbind].
  destruct (parse_octet d) as [vd| |] eqn:Hd; try discriminate; cbn [rbind].
  intros H. injection H as <-. exists a, b, c, d, va, vb, vc, vd. auto 7.
Qed.

(** The strings [_ip_int_from_string] accepts are canonical. *)
Lemma ip_int_from_string_canonical s z :
  ip_int_from_string s = Ok z -> ipv4_str z = s.
Proof.
  intros H. pose proof (split_on_join "." s) as Hj.
  destruct (ip_int_from_string_inv s z H) as (a & b & c & d & va & vb & vc & vd & Hs & Ha & Hb & Hc & Hd & ->).
  rewrite Hs in Hj.
  destruct (octets_split va vb vc vd) as (E3 & E2 & E1 & E0); try (eapply parse_octet_range; eassumption).
  unfold ipv4_str. rewrite E3, E2, E1, E0.
  rewrite (parse_print_octet a va Ha), (parse_print_octet b vb Hb),
    (parse_print_octet c vc Hc), (parse_print_octet d vd Hd).
  exact Hj.
Qed.

(** A parsed address is a 32-bit unsigned integer. *)
Lemma ip_int_from_string_bounds s z :
  ip_int_from_string s = Ok z -> 0 <= z <= ALL_ONES.
Proof.
  intros H. unfold ALL_ONES.
  destruct (ip_int_from_string_inv s z H) as (a & b & c & d & va & vb & vc & vd & _ & Ha & Hb & Hc & Hd & ->).
  apply parse_octet_range in Ha, Hb, Hc, Hd. lia.
Qed.

Lemma ipv4_str_lacks_slash z : lacks "/" (ipv4_str z) = true.
Proof.
  assert (H : forall k, 0 <= k -> lacks "/" (print_octet (octet z k)) = true)
    by (intros k Hk; apply print_octet_lacks, octet_range, Hk).
  unfold ipv4_str. rewrite !lacks_app, !H by lia. reflexivity.
Qed.

(** ** Netmasks *)

(** [_ip_int_from_prefix] and [_prefix_from_ip_int], checked on the 33
    prefix lengths. *)
Definition prefix_ok (p : Z) : bool :=
  (ip_int_from_prefix p =? Z.shiftl (Z.ones p) (32 - p)) &&
  match prefix_from_ip_int (ip_int_from_prefix p) with Ok q => q =? p | _ => false end.

Lemma prefix_ok_all : forallb prefix_ok (map Z.of_nat (seq 0 33)) = true.
Proof. vm_compute. reflexivity. Qed.

(** The netmask of a prefix length [p] is [p] one bits followed by
    [32 - p] zero bits, and [_prefix_from_ip_int] recovers [p] from it. *)
Lemma netmask_prefix_roundtrip p :
  0 <= p <= 32 ->
  ip_int_from_prefix p = Z.shiftl (Z.ones p) (32 - p) /\
  prefix_from_ip_int (ip_int_from_prefix p) = Ok p.
Proof.
  intros Hp. pose proof prefix_ok_all as H. rewrite forallb_forall in H.
  specialize (H p ltac:(apply in_map_iff; exists (Z.to_nat p); split; [lia|apply in_seq; lia])).
  unfold prefix_ok in H. apply andb_prop in H as [H1 H2]. apply Z.eqb_eq in H1. split; [exact H1|].
  destruct (prefix_from_ip_int _) as [q| |]; try discriminate. apply Z.eqb_eq in H2. congruence.
Qed.

Lemma count_righthand_zero_bits_range n : 0 <= count_righthand_zero_bits n 32 <= 32.
Proof.
  unfold count_righthand_zero_bits, bit_length. destruct (n =? 0); [lia|].
  destruct (Z.land (Z.lnot n) (n - 1) =? 0); [lia|].
  pose proof (Z.log2_nonneg (Z.land (Z.lnot n) (n - 1))). lia.
Qed.

Lemma prefix_from_ip_int_range ip p : prefix_from_ip_int ip = Ok p -> 0 <= p <= 32.
Proof.
  unfold prefix_from_ip_int. pose proof (count_righthand_zero_bits_range ip) as Hr.
  destruct (_ =? _); intros H; [injection H as <-; lia|discriminate].
Qed.

Lemma prefix_from_ip_string_range m p : prefix_from_ip_string m = Ok p -> 0 <= p <= 32.
Proof.
  unfold prefix_from_ip_string. destruct (ip_int_from_string m) as [ip| |]; cbn [rbind]; try discriminate.
  destruct (prefix_from_ip_int ip) as [q| |] eqn:Hq; [|apply prefix_from_ip_int_range..].
  intros H. injection H as <-. eapply prefix_from_ip_int_range; eauto.
Qed.

Lemma prefix_from_prefix_string_range m p : prefix_from_prefix_string m = Ok p -> 0 <= p <= 32.
Proof.
  unfold prefix_from_prefix_string. destruct (negb (all_digits m)); [discriminate|].
  destruct ((0 <=? dec_value m) && (dec_value m <=? 32)) eqn:Hp; [|discriminate].
  intros H. injection H as <-. lia.
Qed.

Lemma make_netmask_spec m nm p :
  make_netmask m = Ok (nm, p) -> nm = ip_int_from_prefix p /\ 0 <= p <= 32.
Proof.
  unfold make_netmask.
  destruct (prefix_from_prefix_string m) as [q| |] eqn:Hq; cbn [rbind].
  - intros H. injection H as <- <-. eauto using prefix_from_prefix_string_range.
  - destruct (prefix_from_ip_string m) as [r| |] eqn:Hr; cbn [rbind]; try discriminate.
    intros H. injection H as <- <-. eauto using prefix_from_ip_string_range.
  - destruct (prefix_from_ip_string m) as [r| |] eqn:Hr; cbn [rbind]; try discriminate.
    intros H. injection H as <- <-. eauto using prefix_from_ip_string_range.
Qed.

(** What [IPv4Network(address)] yields: its network address is the
    address written before the ['/'], no host bit of it is set, and its
    netmask is the one of its prefix length, between 0 and 32. *)
Lemma IPv4Network_spec a net :
  IPv4Network a = Ok net ->
  ip_int_from_string (split_first "/" a) = Ok (network_address net) /\
  Z.land (network_address net) (netmask net) = network_address net /\
  netmask net = ip_int_from_prefix (prefixlen net) /\ 0 <= prefixlen net <= 32.
Proof.
  unfold IPv4Network. destruct (split_on "/" a) as [|x [|y [|w l]]] eqn:Hs;
    cbn [rbind]; try discriminate;
    rewrite (split_on_head _ _ _ _ Hs); cbn [fst snd];
    destruct (ip_int_from_string x) as [packed| |]; cbn [rbind fst snd]; try discriminate.
  - destruct (Z.land packed (ip_int_from_prefix 32) =? packed) eqn:Hl; cbn [negb]; [|discriminate].
    intros H. injection H as <-. cbn. apply Z.eqb_eq in Hl. repeat split; auto; lia.
  - destruct (make_netmask y) as [[nm p]| |] eqn:Hm; cbn [rbind fst snd]; try discriminate.
    destruct (Z.land packed nm =? packed) eqn:Hl; cbn [negb]; [|discriminate].
    intros H. injection H as <-. cbn. apply Z.eqb_eq in Hl.
    destruct (make_netmask_spec y nm p Hm). repeat split; auto; lia.
Qed.

(** [_ip_int_from_string] and [str] are inverse bijections between
    the 32-bit integers and the dotted quads it accepts: a string is
    accepted exactly when it is the canonical rendering of an unsigned
    32-bit integer, and then it denotes that integer. *)
Lemma ip_int_from_string_iff s z :
  ip_int_from_string s = Ok z <-> 0 <= z <= ALL_ONES /\ s = ipv4_str z.
Proof.
  split.
  - intros H. split; [eapply ip_int_from_string_bounds; eauto|].
    symmetry. apply ip_int_from_string_canonical, H.
  - intros [Hz ->]. apply ipv4_str_roundtrip, Hz.
Qed.

Example ip_int_from_string_10_9 : ip_int_from_string "10.9.0.0" = Ok 168361984.
Proof. reflexivity. Qed.
