(* ===== verification/Resolver.v ===== *)
(** * Resolver: network objects of the device

    src/firepower.py: [getNetworkObject] (173-177), [getDuplicateObject]
    (179-183), [createGateway] (194-198), [createNetwork] (200-209) and
    [createNetworkObject] (238-263).  [createNetworkObject] posts a new
    object; its [try] block reads the error code of the answer, and on
    "duplicateName" looks the object up by name instead; the [except
    KeyError] clause takes the new object's id, which is also how the
    ordinary success path ends (a created object has no ['error']).
    [createNetwork] normalises the route with [IPv4Network]. *)

From Stdlib Require Import String Ascii ZArith List Lia.
From stdpp Require Import base strings list.
From S2P Require Import Prelude Transport Device IPv4.
Import ListNotations.
Open Scope string_scope.
Open Scope py_scope.

Definition object_description : string := "Created by ISP Failover automation".

Definition host_data (name subtype address : string) : json :=
  JObj [("name", JStr name); ("description", JStr object_description);
        ("subType", JStr subtype); ("value", JStr address); ("type", JStr "networkobject")].

(** [json.loads(netobj)['error']['messages'][0]['code']] *)
Definition error_code (netobj : option json) : res json :=
  let? j := loads netobj in
  let? e := getitem_key "error" j in
  let? msgs := getitem_key "messages" e in
  let? m0 := getitem_idx 0 msgs in
  getitem_key "code" m0.

(** [json.loads(netobj)['id']] *)
Definition new_id (netobj : option json) : res json :=
  let? j := loads netobj in getitem_key "id" j.

(** The network part of the backup route as createNetwork sends it:
    [str(net.network_address) + "/" + str(net.netmask)]. *)
Definition network_value (address : string) : res string :=
  let? net := IPv4Network address in
  Ok (ipv4_str (network_address net) ++ "/" ++ ipv4_str (netmask net)).

Definition network_name (address : string) : string := "network_" ++ split_first "/"%char address.

Definition gateway_name (address : string) : string := "gateway_" ++ address.

Section Resolver.
Context {D : Type} `{Transport D}.
Variable opts : Options.

Definition getNetworkObject (fw : FirePower) (id : json) : PyM D json :=
  let* i := lift (as_str id) in
  let* netobj := getData opts fw ("/object/networks/" ++ i) in
  lift (let? j := loads netobj in getitem_key "value" j).

Definition getDuplicateObject (fw : FirePower) (name : string) : PyM D json :=
  let* netobj := getData opts fw ("/object/networks?filter=name%3A" ++ name) in
  lift (let? j := loads netobj in
        let? items := getitem_key "items" j in
        let? first := getitem_idx 0 items in
        getitem_key "id" first).

Definition createNetworkObject (fw : FirePower) (name subtype address : string) : PyM D json :=
  let* netobj := postData opts fw "/object/networks" (Some (host_data name subtype address)) in
  try_except_KeyError
    (let* code := lift (error_code netobj) in
     if json_eq_str code "duplicateName" then
       let* dupID := getDuplicateObject fw name in
       let* _ := lift (as_str dupID) in
       ret dupID
     else
       let* i := lift (new_id netobj) in
       let* _ := lift (as_str i) in
       lift (new_id netobj))
    (lift (new_id netobj)).

Definition createGateway (fw : FirePower) (address : string) : PyM D (json * string) :=
  let* gateway := createNetworkObject fw (gateway_name address) "HOST" address in
  ret (gateway, gateway_name address).

Definition createNetwork (fw : FirePower) (address : string) : PyM D (json * string) :=
  let host_name := network_name address in
  let* value := lift (network_value address) in
  let* netobj := createNetworkObject fw host_name "NETWORK" value in
  ret (netobj, host_name).
End Resolver.

(** ** The value createNetwork submits *)

Lemma network_value_shape a v :
  network_value a = Ok v ->
  exists p, 0 <= p <= 32 /\
    v = split_first "/" a ++ "/" ++ ipv4_str (Z.shiftl (Z.ones p) (32 - p)).
Proof.
  unfold network_value. destruct (IPv4Network a) as [net| |] eqn:E; cbn [rbind]; try discriminate.
  intros H. injection H as <-.
  destruct (IPv4Network_spec a net E) as (Ha & _ & Hm & Hp).
  exists (prefixlen net). split; [exact Hp|].
  rewrite (ip_int_from_string_canonical _ _ Ha), Hm.
  rewrite (proj1 (netmask_prefix_roundtrip _ Hp)). reflexivity.
Qed.

Lemma network_value_address a v :
  network_value a = Ok v -> split_first "/" v = split_first "/" a.
Proof.
  intros H. destruct (network_value_shape a v H) as (p & _ & ->).
  change ("/" ++ ?x) with (String "/" x). apply split_first_app_sep.
  unfold network_value in H. destruct (IPv4Network a) as [net| |] eqn:E; try discriminate.
  destruct (IPv4Network_spec a net E) as (Ha & _).
  rewrite <- (ip_int_from_string_canonical _ _ Ha). apply ipv4_str_lacks_slash.
Qed.

(** C25: the value createNetwork submits for the backup route is the
    route's own address text, a ['/'], and the full netmask ([p] one
    bits then zeros) of a prefix length [p] between 0 and 32, never CIDR
    notation; and its address part, as doesRouteExist reads it back with
    [value.split('/')[0]], is the address part of the configured route
    ([ROUTE.split('/')[0]]), so the two compare equal. *)
Theorem network_value_spec a v :
  network_value a = Ok v ->
  (exists p, 0 <= p <= 32 /\
     v = split_first "/" a ++ "/" ++ ipv4_str (Z.shiftl (Z.ones p) (32 - p))) /\
  split_first "/" v = split_first "/" a.
Proof. intros H. split; [apply network_value_shape, H|apply network_value_address, H]. Qed.

(** ** createNetworkObject on each kind of answer *)

Section ResolverTheory.
Context {D : Type} `{Transport D}.
Variable opts : Options.

(** C27: a created object: the answer has no ['error'] and an id; the
    [KeyError] of the error lookup sends the method to its [except]
    clause, which returns the new id. *)
Theorem createNetworkObject_created fw n st a s body s1 i :
  postData opts fw "/object/networks" (Some (host_data n st a)) s = (Ok (Some body), s1) ->
  getitem_key "error" body = Raise KeyError ->
  getitem_key "id" body = Ok (JStr i) ->
  createNetworkObject opts fw n st a s = (Ok (JStr i), s1).
Proof.
  intros Hp He Hi. unfold createNetworkObject, bind. rewrite Hp.
  unfold try_except_KeyError, error_code, new_id, lift. cbn [loads rbind].
  rewrite He, Hi. reflexivity.
Qed.

(** C26: a name conflict: the answer carries the code "duplicateName";
    the method then returns what the lookup by name finds, and creates
    nothing. *)
Theorem createNetworkObject_duplicate fw n st a s body s1 i s2 :
  postData opts fw "/object/networks" (Some (host_data n st a)) s = (Ok (Some body), s1) ->
  error_code (Some body) = Ok (JStr "duplicateName") ->
  getDuplicateObject opts fw n s1 = (Ok (JStr i), s2) ->
  createNetworkObject opts fw n st a s = (Ok (JStr i), s2).
Proof.
  intros Hp He Hd. unfold createNetworkObject, bind. rewrite Hp.
  unfold try_except_KeyError, lift. rewrite He. cbn [json_eq_str String.eqb Ascii.eqb Bool.eqb andb].
  unfold bind. rewrite Hd. reflexivity.
Qed.

(** C28: any other error answer (a code other than "duplicateName", and
    no id) ends in [KeyError]: the [except] clause reads the missing id
    again.  The failure is surfaced, as an exception. *)
Theorem createNetworkObject_other_error fw n st a s body s1 c :
  postData opts fw "/object/networks" (Some (host_data n st a)) s = (Ok (Some body), s1) ->
  error_code (Some body) = Ok (JStr c) -> c <> "duplicateName" ->
  getitem_key "id" body = Raise KeyError ->
  createNetworkObject opts fw n st a s = (Raise KeyError, s1).
Proof.
  intros Hp He Hc Hi. unfold createNetworkObject, bind. rewrite Hp.
  unfold try_except_KeyError, lift, new_id. rewrite He. cbn [json_eq_str loads rbind].
  destruct (String.eqb_spec c "duplicateName") as [->|_]; [contradiction|].
  rewrite Hi. reflexivity.
Qed.

(** An answer that is neither 200 nor 422 makes [postData] return
    [None], and [json.loads(None)] raises [TypeError], which the
    [except KeyError] does not catch. *)
Lemma createNetworkObject_post_failed fw n st a s s1 :
  postData opts fw "/object/networks" (Some (host_data n st a)) s = (Ok None, s1) ->
  createNetworkObject opts fw n st a s = (Raise TypeError, s1).
Proof. intros Hp. unfold createNetworkObject, bind. rewrite Hp. reflexivity. Qed.
End ResolverTheory.

(** ** Concrete runs against the reference device *)

Definition gw_data : json := host_data (gateway_name "192.168.1.1") "HOST" "192.168.1.1".
Definition gw_obj : json := with_id "obj0" gw_data.
Definition dev_gw : device := set_objects [gw_obj] dev0.

Lemma network_value_spec_witness :
  network_value "10.9.0.0/16" = Ok "10.9.0.0/255.255.0.0" /\
  (exists p, 0 <= p <= 32 /\
     "10.9.0.0/255.255.0.0" = split_first "/" "10.9.0.0/16" ++ "/" ++ ipv4_str (Z.shiftl (Z.ones p) (32 - p))) /\
  split_first "/" "10.9.0.0/255.255.0.0" = split_first "/" "10.9.0.0/16".
Proof. split; [reflexivity|]. apply network_value_spec. reflexivity. Defined.

Lemma createNetworkObject_created_witness :
  createNetworkObject opts0 fw0 (gateway_name "192.168.1.1") "HOST" "192.168.1.1" dev0 =
    (Ok (JStr "obj0"), dev_gw).
Proof. apply (createNetworkObject_created opts0 fw0 _ _ _ dev0 gw_obj); reflexivity. Defined.

Lemma createNetworkObject_duplicate_witness :
  createNetworkObject opts0 fw0 (gateway_name "192.168.1.1") "HOST" "192.168.1.1" dev_gw =
    (Ok (JStr "obj0"), dev_gw).
Proof. apply (createNetworkObject_duplicate opts0 fw0 _ _ _ dev_gw duplicate_name_error dev_gw); reflexivity. Defined.

Lemma createNetworkObject_other_error_witness :
  createNetworkObject opts0 fw0 "network_bad" "NETWORK" "" dev0 = (Raise KeyError, dev0).
Proof.
  apply (createNetworkObject_other_error opts0 fw0 _ _ _ dev0 invalid_value_error dev0 "invalidValue");
    try reflexivity. discriminate.
Defined.

Definition fw_badtoken : FirePower := mk_fp (JStr "expired") (Some (JStr "vr1")).

Lemma createNetworkObject_post_failed_witness :
  createNetworkObject opts0 fw_badtoken (gateway_name "192.168.1.1") "HOST" "192.168.1.1" dev0 =
    (Raise TypeError, dev0).
Proof. apply createNetworkObject_post_failed. reflexivity. Defined.

(** Object reuse (spec 8): two createGateway calls for the same address
    resolve to the same object, and the device holds one object. *)
Example createGateway_twice :
  (let* g1 := createGateway opts0 fw0 "192.168.1.1" in
   let* g2 := createGateway opts0 fw0 "192.168.1.1" in
   ret (g1, g2)) dev0 =
  (Ok ((JStr "obj0", "gateway_192.168.1.1"), (JStr "obj0", "gateway_192.168.1.1")), dev_gw).
Proof. reflexivity. Qed.
