(* ===== verification/Reconciler.v ===== *)
(** * Reconciler: the backup route on the device

    src/firepower.py: [getRoutes] (265-270), [doesRouteExist] (156-171),
    [getFailoverInterface] (185-192), [createRouteObject] (211-236),
    [addRoute] (70-100) and [delRoute] (102-125).  The routing state
    (primary or failover) is never stored: each call of [addRoute] or
    [delRoute] re-reads the route table and matches its entries by the
    gateway object's value and the destination object's address.

    [find_route] is the [for] loop of [doesRouteExist];
    [route_gateway_ref] and [route_network_ref] are the two accessor
    expressions of its body. *)

From Stdlib Require Import String Ascii ZArith List Lia.
From stdpp Require Import base strings list.
From S2P Require Import Prelude Transport Device Deploy IPv4 Resolver.
Import ListNotations.
Open Scope string_scope.
Open Scope py_scope.

(** [route['gateway']['id']] *)
Definition route_gateway_ref (route : json) : res json :=
  let? g := getitem_key "gateway" route in getitem_key "id" g.

(** [route['networks'][0]['id']] *)
Definition route_network_ref (route : json) : res json :=
  let? ns := getitem_key "networks" route in
  let? n0 := getitem_idx 0 ns in
  getitem_key "id" n0.

(** [x.split('/')[0]] on a JSON value: only a string has [split]. *)
Definition json_split_slash (j : json) : res string :=
  match j with JStr s => Ok (split_first "/" s) | _ => Raise AttributeError end.

(** The [for] loop of [getFailoverInterface]: the first interface whose
    hardware name matches; [None] when the loop ends. *)
Fixpoint find_iface (name : string) (ifaces : list json) : res (option (json * json)) :=
  match ifaces with
  | [] => Ok None
  | iface :: rest =>
      let? hw := getitem_key "hardwareName" iface in
      if json_eq_str hw name then
        let? i := getitem_key "id" iface in
        let? n := getitem_key "name" iface in
        Ok (Some (i, n))
      else find_iface name rest
  end.

(** The dict [createRouteObject] builds, keys in insertion order. *)
Definition route_fields (iface_ID iface_name network_ID : json) (network_name : string)
    (gateway_ID : json) (gateway_name : string) : list (string * json) :=
  [("name", JStr "route_BACKUP");
        ("description", JStr "Created by ISP Failover automation");
        ("iface", JObj [("id", iface_ID); ("type", JStr "physicalinterface"); ("name", iface_name)]);
        ("networks", JList [JObj [("id", network_ID); ("type", JStr "networkobject");
                                  ("name", JStr network_name)]]);
        ("gateway", JObj [("id", gateway_ID); ("type", JStr "networkobject");
                          ("name", JStr gateway_name)]);
        ("metricValue", JNum 1);
        ("ipType", JStr "IPv4");
        ("type", JStr "staticrouteentry")].

Definition route_json (iface_ID iface_name network_ID : json) (network_name : string)
    (gateway_ID : json) (gateway_name : string) : json :=
  JObj (route_fields iface_ID iface_name network_ID network_name gateway_ID gateway_name).

Definition route_entry_url (vr rid : string) : string :=
  "/devices/default/routing/virtualrouters/" ++ vr ++ "/staticrouteentries/" ++ rid.

Section Reconciler.
Context {D : Type} `{Transport D}.
Variable opts : Options.

Definition getRoutes (fw : FirePower) : PyM D json :=
  let* vr := lift (vr_id fw) in
  let* route_data := getData opts fw (routes_url vr) in
  lift (let? j := loads route_data in getitem_key "items" j).

(** One iteration of the loop of [doesRouteExist]: the two object
    lookups, then the comparison. *)
Definition route_matches (fw : FirePower) (route : json) : PyM D bool :=
  let* gw_id := lift (route_gateway_ref route) in
  let* gateway := getNetworkObject opts fw gw_id in
  let* net_id := lift (route_network_ref route) in
  let* dest := getNetworkObject opts fw net_id in
  let* dest_network := lift (json_split_slash dest) in
  ret (json_eq_str gateway (GATEWAY opts) &&
       String.eqb dest_network (split_first "/" (ROUTE opts))).

Fixpoint find_route (fw : FirePower) (routes : list json) : PyM D (option json) :=
  match routes with
  | [] => ret None
  | route :: rest =>
      let* m := route_matches fw route in
      if m then ret (Some route) else find_route fw rest
  end.

(** [None] is the [False] the method returns when nothing matches. *)
Definition doesRouteExist (fw : FirePower) : PyM D (option json) :=
  let* current_routes := getRoutes fw in
  match current_routes with
  | JList [] => ret None
  | _ => let* routes := lift (py_iter current_routes) in find_route fw routes
  end.

Definition getFailoverInterface (fw : FirePower) (failover_interface : string)
    : PyM D (option (json * json)) :=
  let* ifaceList := getData opts fw "/devices/default/interfaces" in
  lift (let? j := loads ifaceList in
        let? items := getitem_key "items" j in
        let? ifaces := py_iter items in
        find_iface failover_interface ifaces).

Definition createRouteObject (fw : FirePower) : PyM D json :=
  let* iface := getFailoverInterface fw (FO_INTERFACE opts) in
  let* iface_pair := match iface with Some p => ret p | None => raise TypeError end in
  let* network := createNetwork opts fw (ROUTE opts) in
  let* gateway := createGateway opts fw (GATEWAY opts) in
  ret (route_json (fst iface_pair) (snd iface_pair) (fst network) (snd network)
                  (fst gateway) (snd gateway)).

(** The route is posted and the answer is not looked at; the result is
    the deployment's. *)
Definition addRoute (fuel : nat) (fw : FirePower) : PyM D bool :=
  let* route := doesRouteExist fw in
  if match route with Some r => truthy r | None => false end then ret false
  else
    let* route_data := createRouteObject fw in
    let* vr := lift (vr_id fw) in
    let* _ := postData opts fw (routes_url vr) (Some route_data) in
    deployPolicy opts fuel fw.

(** [Some b] is the boolean [b] returned; [None] is the [None] of
    falling off the end of the method when the DELETE fails. *)
Definition delRoute (fuel : nat) (fw : FirePower) : PyM D (option bool) :=
  let* route := doesRouteExist fw in
  match route with
  | None => ret (Some false)
  | Some r =>
      let* vr := lift (vr_id fw) in
      let* rid := lift (let? i := getitem_key "id" r in as_str i) in
      let* deleted := deleteData opts fw (route_entry_url vr rid) in
      if deleted then
        let* ok := deployPolicy opts fuel fw in ret (Some ok)
      else ret None
  end.
End Reconciler.

(** ** Reading the route table changes nothing *)

Section ReadOnly.
Context {D : Type} `{TransportLaws D}.
Variable opts : Options.

Lemma getNetworkObject_read_only fw i : read_only (getNetworkObject opts fw i).
Proof. unfold getNetworkObject. auto with py. Qed.

Lemma getDuplicateObject_read_only fw n : read_only (getDuplicateObject opts fw n).
Proof. unfold getDuplicateObject. auto with py. Qed.

Lemma getRoutes_read_only fw : read_only (getRoutes opts fw).
Proof. unfold getRoutes. auto with py. Qed.

Lemma route_matches_read_only fw r : read_only (route_matches opts fw r).
Proof. unfold route_matches. auto 10 using getNetworkObject_read_only with py. Qed.

Lemma find_route_read_only fw rs : read_only (find_route opts fw rs).
Proof.
  induction rs as [|r rs IH]; cbn [find_route]; [auto with py|].
  apply read_only_bind; [apply route_matches_read_only|]. intros []; auto with py.
Qed.

Lemma doesRouteExist_read_only fw : read_only (doesRouteExist opts fw).
Proof.
  unfold doesRouteExist. apply read_only_bind; [apply getRoutes_read_only|].
  intros j. assert (Hg : read_only (let* routes := lift (py_iter j) in find_route opts fw routes))
    by (apply read_only_bind; auto using find_route_read_only with py).
  destruct j as [| | | |[|]|]; auto with py.
Qed.

Lemma getFailoverInterface_read_only fw n : read_only (getFailoverInterface opts fw n).
Proof. unfold getFailoverInterface. auto with py. Qed.

(** Reading with a read-only method: the state is unchanged. *)
Lemma read_only_eq {A} (c : PyM D A) s r s' : read_only c -> c s = (r, s') -> s' = s.
Proof. intros Hc Hs. specialize (Hc s). rewrite Hs in Hc. exact Hc. Qed.
End ReadOnly.

#[export] Hint Resolve getNetworkObject_read_only getDuplicateObject_read_only getRoutes_read_only
  route_matches_read_only find_route_read_only doesRouteExist_read_only
  getFailoverInterface_read_only : py.

(** ** addRoute and delRoute *)

Section ReconcilerTheory.
Context {D : Type} `{TransportLaws D}.
Variable opts : Options.

Lemma doesRouteExist_state fw s o s1 : doesRouteExist opts fw s = (o, s1) -> s1 = s.
Proof. apply read_only_eq. auto with py. Qed.

(** C17: idempotence of the failover: when the backup route is already in
    the route table, addRoute returns [False] and leaves the device as
    it was. *)
Theorem addRoute_already_failed_over fuel fw s r s1 :
  doesRouteExist opts fw s = (Ok (Some r), s1) -> truthy r = true ->
  addRoute opts fuel fw s = (Ok false, s).
Proof.
  intros He Ht. pose proof (doesRouteExist_state _ _ _ _ He) as ->.
  unfold addRoute, bind. rewrite He, Ht. reflexivity.
Qed.

(** C18: idempotence of the restoration: with no backup route in the
    table, delRoute returns [False] and leaves the device as it was. *)
Theorem delRoute_already_primary fuel fw s s1 :
  doesRouteExist opts fw s = (Ok None, s1) ->
  delRoute opts fuel fw s = (Ok (Some false), s).
Proof.
  intros He. pose proof (doesRouteExist_state _ _ _ _ He) as ->.
  unfold delRoute, bind. rewrite He. reflexivity.
Qed.

(** C16: [addRoute] returns [False] only in its no-op branch: since the
    deployment waiter never returns [False], a [False] from addRoute
    always means the backup route was already present, and the device
    is unchanged; "Deployment error" is never the cause. *)
Theorem addRoute_false_only_noop fuel fw s s' :
  addRoute opts fuel fw s = (Ok false, s') ->
  s' = s /\ exists r, doesRouteExist opts fw s = (Ok (Some r), s) /\ truthy r = true.
Proof.
  intros Ha. apply bind_ok_inv in Ha as (o & s1 & He & Hk).
  pose proof (doesRouteExist_state _ _ _ _ He) as ->.
  destruct (match o with Some r => truthy r | None => false end) eqn:Ht.
  - injection Hk as <-. split; [reflexivity|].
    destruct o as [r|]; [|discriminate]. eauto.
  - apply bind_ok_inv in Hk as (rd & s2 & _ & Hk). apply bind_ok_inv in Hk as (vr & s3 & _ & Hk).
    apply bind_ok_inv in Hk as (pr & s4 & _ & Hk).
    exfalso. apply (deployPolicy_never_false opts fuel fw s4). rewrite Hk. reflexivity.
Qed.

(** C19: the same for delRoute: [False] only when no backup route was
    present, with the device unchanged. *)
Theorem delRoute_false_only_noop fuel fw s s' :
  delRoute opts fuel fw s = (Ok (Some false), s') ->
  s' = s /\ doesRouteExist opts fw s = (Ok None, s).
Proof.
  intros Hd. apply bind_ok_inv in Hd as (o & s1 & He & Hk).
  pose proof (doesRouteExist_state _ _ _ _ He) as ->.
  destruct o as [r|].
  - apply bind_ok_inv in Hk as (vr & s2 & _ & Hk). apply bind_ok_inv in Hk as (rid & s3 & _ & Hk).
    apply bind_ok_inv in Hk as (del & s4 & _ & Hk). destruct del; [|discriminate].
    apply bind_ok_inv in Hk as (ok & s5 & Hp & Hk). injection Hk as -> <-.
    exfalso. apply (deployPolicy_never_false opts fuel fw s4). rewrite Hp. reflexivity.
  - injection Hk as <-. auto.
Qed.

(** On the add path, the answer to the route creation is never
    looked at: whatever the POST returns, even [None] for a rejected
    route, addRoute's result is the deployment's. *)
Lemma addRoute_ignores_post_answer fuel fw s s1 rd s2 vr pr s3 :
  doesRouteExist opts fw s = (Ok None, s1) ->
  createRouteObject opts fw s1 = (Ok rd, s2) -> vr_id fw = Ok vr ->
  postData opts fw (routes_url vr) (Some rd) s2 = (Ok pr, s3) ->
  addRoute opts fuel fw s = deployPolicy opts fuel fw s3.
Proof.
  intros He Hc Hv Hp. unfold addRoute, bind, lift. rewrite He. cbv beta iota. rewrite Hc.
  cbv beta iota. rewrite Hv. cbv beta iota. rewrite Hp. reflexivity.
Qed.

(** When the DELETE is refused, delRoute falls off the end of its
    body and returns [None], neither [True] nor [False]. *)
Lemma delRoute_delete_failed fuel fw s r s1 vr rid s2 :
  doesRouteExist opts fw s = (Ok (Some r), s1) -> vr_id fw = Ok vr ->
  getitem_key "id" r = Ok (JStr rid) ->
  deleteData opts fw (route_entry_url vr rid) s1 = (Ok false, s2) ->
  delRoute opts fuel fw s = (Ok None, s2).
Proof.
  intros He Hv Hi Hd. unfold delRoute, bind, lift. rewrite He. cbv beta iota. rewrite Hv.
  cbv beta iota. rewrite Hi. cbv beta iota delta [rbind as_str]. rewrite Hd. reflexivity.
Qed.
End ReconcilerTheory.

(** ** Matching the backup route *)

Section MatchTheory.
Context {D : Type} `{TransportLaws D}.
Variable opts : Options.

(** C24: the comparison doesRouteExist makes for one route entry: it
    succeeds exactly when the entry's gateway object has the configured
    gateway as its value and its first destination object has the
    configured route's address before its ['/'] (the prefix length is
    not compared). *)
Theorem route_matches_spec fw r s :
  route_matches opts fw r s = (Ok true, s) <->
  exists gid nid d,
    route_gateway_ref r = Ok gid /\ getNetworkObject opts fw gid s = (Ok (JStr (GATEWAY opts)), s) /\
    route_network_ref r = Ok nid /\ getNetworkObject opts fw nid s = (Ok (JStr d), s) /\
    split_first "/" d = split_first "/" (ROUTE opts).
Proof.
  split.
  - intros Hm. apply bind_ok_inv in Hm as (gid & s1 & Hg & Hm). injection Hg as Hg <-.
    apply bind_ok_inv in Hm as (gw & s2 & Hgw & Hm).
    pose proof (read_only_eq _ _ _ _ (getNetworkObject_read_only opts fw gid) Hgw) as ->.
    apply bind_ok_inv in Hm as (nid & s3 & Hn & Hm). injection Hn as Hn <-.
    apply bind_ok_inv in Hm as (dst & s4 & Hd & Hm).
    pose proof (read_only_eq _ _ _ _ (getNetworkObject_read_only opts fw nid) Hd) as ->.
    apply bind_ok_inv in Hm as (dn & s5 & Hs & Hm). injection Hm as Hb <-.
    apply andb_prop in Hb as [Hb1 Hb2]. apply json_eq_str_spec in Hb1 as ->.
    apply String.eqb_eq in Hb2.
    destruct dst as [| | | d | |]; try discriminate. injection Hs as <-.
    exists gid, nid, d. auto 6.
  - intros (gid & nid & d & Hg & Hgw & Hn & Hd & Hs).
    unfold route_matches, bind, lift. rewrite Hg. cbv beta iota. rewrite Hgw.
    cbv beta iota. rewrite Hn. cbv beta iota. rewrite Hd. cbv beta iota delta [json_split_slash ret].
    rewrite Hs. cbn [json_eq_str]. rewrite !String.eqb_refl. reflexivity.
Qed.

Lemma route_matches_state fw r s m s1 : route_matches opts fw r s = (m, s1) -> s1 = s.
Proof. apply read_only_eq. auto with py. Qed.

(** doesRouteExist's loop returns the first matching entry: the
    entries before it do not match, the device is unchanged. *)
Lemma find_route_first fw rs s r s' :
  find_route opts fw rs s = (Ok (Some r), s') ->
  s' = s /\ exists pre post, rs = (pre ++ r :: post)%list /\
    Forall (fun r' => route_matches opts fw r' s = (Ok false, s)) pre /\
    route_matches opts fw r s = (Ok true, s).
Proof.
  revert s'. induction rs as [|r0 rs IH]; intros s' Hf; [discriminate|].
  apply bind_ok_inv in Hf as (m & s1 & Hm & Hk).
  pose proof (route_matches_state _ _ _ _ _ Hm) as ->.
  destruct m.
  - injection Hk as <- <-. split; [reflexivity|]. exists [], rs. auto.
  - destruct (IH s' Hk) as (-> & pre & post & -> & Hpre & Hr). split; [reflexivity|].
    exists (r0 :: pre), post. split; [reflexivity|]. split; [constructor; assumption|exact Hr].
Qed.

(** The loop returns "not found" when no entry matches. *)
Lemma find_route_none fw rs s :
  Forall (fun r => route_matches opts fw r s = (Ok false, s)) rs ->
  find_route opts fw rs s = (Ok None, s).
Proof.
  induction 1 as [|r rs Hr _ IH]; [reflexivity|].
  cbn [find_route]. unfold bind. rewrite Hr. exact IH.
Qed.

(** C29: when the interface is not found, createRouteObject fails before
    creating any object: unpacking [None] raises [TypeError], and the
    device is unchanged. *)
Theorem createRouteObject_no_iface fw s s1 :
  getFailoverInterface opts fw (FO_INTERFACE opts) s = (Ok None, s1) ->
  createRouteObject opts fw s = (Raise TypeError, s).
Proof.
  intros Hg. pose proof (read_only_eq _ _ _ _ (getFailoverInterface_read_only opts fw _) Hg) as ->.
  unfold createRouteObject, bind. rewrite Hg. reflexivity.
Qed.
End MatchTheory.

(** ** The interface lookup *)

(** A network interface as the device lists it. *)
Record iface : Type := mk_iface { hardwareName : string; iface_id : string; iface_name : string }.

Definition iface_to_json (i : iface) : json :=
  JObj [("hardwareName", JStr (hardwareName i)); ("id", JStr (iface_id i)); ("name", JStr (iface_name i))].

(** C30: on a well-formed interface list, the loop of getFailoverInterface
    is [List.find] on the hardware name, returning the id and the name. *)
Theorem find_iface_spec name l :
  find_iface name (map iface_to_json l) =
    Ok (option_map (fun i => (JStr (iface_id i), JStr (iface_name i)))
                   (List.find (fun i => String.eqb (hardwareName i) name) l)).
Proof.
  induction l as [|i l IH]; [reflexivity|]. cbn [map find_iface List.find].
  change (getitem_key "hardwareName" (iface_to_json i)) with (Ok (JStr (hardwareName i))).
  cbn [rbind json_eq_str]. destruct (String.eqb (hardwareName i) name); [reflexivity|exact IH].
Qed.

(** ** Concrete runs against the reference device *)

(** [dev0] after a successful failover. *)
Definition dev_failover : device := snd (addRoute opts0 5 fw0 dev0).

Definition backup_route : json :=
  match fst (doesRouteExist opts0 fw0 dev_failover) with Ok (Some r) => r | _ => JNull end.

Definition lock (s : device) : device :=
  mk_device (dev_base s) (dev_user s) (dev_pass s) (dev_token s) (dev_vrs s) (dev_ifaces s)
    (dev_objects s) (dev_routes s) (dev_tasks s) (dev_next s) (dev_stall s) true.

(** A device holding a stale "route_BACKUP" through another gateway,
    left by an earlier configuration. *)
Definition old_gw : json := with_id "obj0" (host_data (gateway_name "192.168.1.254") "HOST" "192.168.1.254").
Definition old_net : json := with_id "obj1" (host_data "network_10.9.0.0" "NETWORK" "10.9.0.0/255.255.0.0").
Definition old_route : json :=
  with_id "route2" (route_json (JStr "if1") (JStr "outside2") (JStr "obj1") "network_10.9.0.0"
                               (JStr "obj0") (gateway_name "192.168.1.254")).
Definition dev_stale : device :=
  mk_device (dev_base dev0) (dev_user dev0) (dev_pass dev0) (dev_token dev0) (dev_vrs dev0)
    (dev_ifaces dev0) [old_gw; old_net] [old_route] [] 3 false false.

Definition stale_route_data : json :=
  match fst (createRouteObject opts0 fw0 dev_stale) with Ok r => r | _ => JNull end.
Definition dev_stale_objects : device := snd (createRouteObject opts0 fw0 dev_stale).

Lemma addRoute_already_failed_over_witness :
  addRoute opts0 5 fw0 dev_failover = (Ok false, dev_failover).
Proof. apply (addRoute_already_failed_over opts0 5 fw0 dev_failover backup_route dev_failover); reflexivity. Defined.

Lemma delRoute_already_primary_witness : delRoute opts0 5 fw0 dev0 = (Ok (Some false), dev0).
Proof. apply (delRoute_already_primary opts0 5 fw0 dev0 dev0). reflexivity. Defined.

Lemma addRoute_false_only_noop_witness :
  dev_failover = dev_failover /\
  exists r, doesRouteExist opts0 fw0 dev_failover = (Ok (Some r), dev_failover) /\ truthy r = true.
Proof. apply (addRoute_false_only_noop opts0 5 fw0). reflexivity. Defined.

Lemma delRoute_false_only_noop_witness :
  dev0 = dev0 /\ doesRouteExist opts0 fw0 dev0 = (Ok None, dev0).
Proof. apply (delRoute_false_only_noop opts0 5 fw0). reflexivity. Defined.

(** The stale route does not match, the new "route_BACKUP" is refused by
    the device (422), and addRoute still reports success. *)
Lemma addRoute_ignores_post_answer_witness :
  addRoute opts0 5 fw0 dev_stale = deployPolicy opts0 5 fw0 dev_stale_objects /\
  fst (addRoute opts0 5 fw0 dev_stale) = Ok true /\
  dev_routes (snd (addRoute opts0 5 fw0 dev_stale)) = [old_route].
Proof.
  split; [|split; reflexivity].
  apply (addRoute_ignores_post_answer opts0 5 fw0 dev_stale dev_stale stale_route_data
           dev_stale_objects "vr1" (Some duplicate_name_error)); reflexivity.
Defined.

Lemma delRoute_delete_failed_witness :
  delRoute opts0 5 fw0 (lock dev_failover) = (Ok None, lock dev_failover).
Proof.
  apply (delRoute_delete_failed opts0 5 fw0 (lock dev_failover) backup_route (lock dev_failover)
           "vr1" "route2"); reflexivity.
Defined.

Lemma route_matches_spec_witness :
  route_matches opts0 fw0 backup_route dev_failover = (Ok true, dev_failover).
Proof.
  apply route_matches_spec. exists (JStr "obj1"), (JStr "obj0"), "10.9.0.0/255.255.0.0".
  repeat split; reflexivity.
Defined.

Lemma find_route_first_witness :
  dev_failover = dev_failover /\ exists pre post, [backup_route] = (pre ++ backup_route :: post)%list /\
    Forall (fun r' => route_matches opts0 fw0 r' dev_failover = (Ok false, dev_failover)) pre /\
    route_matches opts0 fw0 backup_route dev_failover = (Ok true, dev_failover).
Proof. apply find_route_first. reflexivity. Defined.

Lemma find_route_none_witness : find_route opts0 fw0 [old_route] dev_stale = (Ok None, dev_stale).
Proof. apply find_route_none. constructor; [reflexivity|constructor]. Defined.

Definition opts_badif : Options :=
  mk_options "admin" "secret" "fdm.example" "10.9.0.0/16" "192.168.1.1" "GigabitEthernet0/7".

Lemma createRouteObject_no_iface_witness :
  createRouteObject opts_badif fw0 dev0 = (Raise TypeError, dev0).
Proof. apply (createRouteObject_no_iface opts_badif fw0 dev0 dev0). reflexivity. Defined.

Example addRoute_dev0 :
  addRoute opts0 5 fw0 dev0 = (Ok true, dev_failover) /\
  addRoute opts0 5 fw0 dev_failover = (Ok false, dev_failover) /\
  dev_routes dev_failover = [backup_route] /\
  fst (delRoute opts0 5 fw0 dev_failover) = Ok (Some true) /\
  dev_routes (snd (delRoute opts0 5 fw0 dev_failover)) = [].
Proof. repeat split; reflexivity. Qed.
