(* ===== verification/Health.v ===== *)
(** * Health: the path monitor's measurements

    src/pathmonitor.py: the ["pingtest"] options (8-16), [doPing]
    (19-36), [calculateLoss] (39-51) and [checkMetrics] (54-61).  The
    probe itself ([pythonping.ping]) is outside the repository: its
    result enters as [probe_outcome], the rendering [str(packet)] of
    each response and the average round-trip time, or the
    [PermissionError] raised without a raw socket.  Python floats are
    modelled as exact rationals [Q]; the comparisons of [checkMetrics]
    are the only use made of them. *)

From Stdlib Require Import String ZArith QArith List Lia.
From S2P Require Import Prelude.
Import ListNotations.
Open Scope string_scope.
Open Scope Z_scope.

(** The ["pingtest"] section of options.json. *)
Record Pingtest : Type := mk_pingtest {
  DEFAULT_DESTINATION : string;
  PING_COUNT : Z;
  MAX_LATENCY : Q;
  MAX_LOSS : Q
}.

Inductive probe_outcome : Type :=
| ProbeResult (packets : list string) (rtt_avg_ms : Q)
| ProbePermissionError.

(** [lost += 1] for each packet whose text has no "Reply from". *)
Definition count_lost (packets : list string) : Z :=
  fold_left (fun lost packet => if str_contains "Reply from" packet then lost else (lost + 1)%Z)
    packets 0%Z.

Definition calculateLoss (cfg : Pingtest) (packets : list string) : res Q :=
  let lost := count_lost packets in
  if negb (Z.eqb lost 0) then
    if Z.eqb (PING_COUNT cfg) 0 then Raise ZeroDivisionError
    else Ok (inject_Z (100 * lost)%Z / inject_Z (PING_COUNT cfg))%Q
  else Ok 0%Q.

(** [response >= MAX_LATENCY or loss >= MAX_LOSS] *)
Definition checkMetrics (cfg : Pingtest) (response loss : Q) : bool :=
  Qle_bool (MAX_LATENCY cfg) response || Qle_bool (MAX_LOSS cfg) loss.

(** The [except PermissionError] clause calls [sys.exit(0)]. *)
Definition doPing (cfg : Pingtest) (probe : probe_outcome) : res (Q * Q) :=
  match probe with
  | ProbePermissionError => Raise (SystemExit 0)
  | ProbeResult packets rtt =>
      let? loss := calculateLoss cfg packets in
      Ok (rtt, loss)
  end.

Definition reply (ms : string) : string := "Reply from 10.0.0.1, 2 bytes in " ++ ms ++ "ms".
Definition timeout : string := "Request timed out".

Definition cfg0 : Pingtest := mk_pingtest "8.8.8.8" 10 100 20.

Example calculateLoss_four_replies :
  calculateLoss cfg0 (repeat (reply "15") 4 ++ repeat timeout 6) = Ok (600 # 10)%Q.
Proof. reflexivity. Qed.

(** ** Loss and thresholds *)

Definition is_reply (packet : string) : bool := str_contains "Reply from" packet.

Lemma count_lost_acc packets acc :
  fold_left (fun lost packet => if str_contains "Reply from" packet then lost else (lost + 1)%Z)
    packets acc = acc + Z.of_nat (length (filter (fun p => negb (is_reply p)) packets)).
Proof.
  revert acc. induction packets as [|p ps IH]; intros acc; cbn [fold_left filter length]; [lia|].
  rewrite IH. unfold is_reply. destruct (str_contains "Reply from" p); cbn [negb length]; lia.
Qed.

(** The [for] loop of calculateLoss counts the packets whose text has
    no "Reply from". *)
Lemma count_lost_filter packets :
  count_lost packets = Z.of_nat (length (filter (fun p => negb (is_reply p)) packets)).
Proof. unfold count_lost. rewrite count_lost_acc. lia. Qed.

Lemma calculateLoss_eq cfg packets :
  PING_COUNT cfg <> 0 ->
  exists l, calculateLoss cfg packets = Ok l /\
    (l == inject_Z (100 * count_lost packets) / inject_Z (PING_COUNT cfg))%Q.
Proof.
  intros Hc. unfold calculateLoss. destruct (Z.eqb_spec (count_lost packets) 0) as [E|E]; cbn [negb].
  - exists 0%Q. split; [reflexivity|]. rewrite E. change (inject_Z (100 * 0)) with 0%Q.
    unfold Qdiv. symmetry. apply Qmult_0_l.
  - destruct (Z.eqb_spec (PING_COUNT cfg) 0) as [E'|_]; [contradiction|]. eexists. split; reflexivity.
Qed.

(** C32: with a non-zero configured count, the loss is 100 times the
    number of packets whose text has no "Reply from", divided by
    [PING_COUNT] (zero when every packet got a reply): the configured
    count, not the number of packets the probe returned. *)
Theorem calculateLoss_value cfg packets :
  PING_COUNT cfg <> 0 ->
  exists l, calculateLoss cfg packets = Ok l /\
    (l == inject_Z (100 * Z.of_nat (length (filter (fun p => negb (is_reply p)) packets)))
          / inject_Z (PING_COUNT cfg))%Q.
Proof. intros Hc. rewrite <- count_lost_filter. apply calculateLoss_eq, Hc. Qed.

(** The health check: unhealthy exactly when the latency or the loss
    reaches its threshold, both thresholds inclusive. *)
Lemma checkMetrics_iff cfg response loss :
  checkMetrics cfg response loss = true <->
  (MAX_LATENCY cfg <= response)%Q \/ (MAX_LOSS cfg <= loss)%Q.
Proof. unfold checkMetrics. rewrite Bool.orb_true_iff, !Qle_bool_iff. reflexivity. Qed.

Lemma Qle_div_iff a b c : (0 < c)%Q -> (a <= b / c <-> a * c <= b)%Q.
Proof.
  intros Hc. split; intros H; [|apply Qle_shift_div_l; assumption].
  apply (Qmult_le_compat_r _ _ c) in H; [|apply Qlt_le_weak, Hc].
  rewrite (Qmult_comm (b / c)), Qmult_div_r in H; [exact H|].
  intros E. rewrite E in Hc. discriminate.
Qed.

(** C31: the verdict of one monitoring cycle on a probe that ran: with a
    positive configured count, doPing returns the probe's average
    round-trip time first and its loss second, and checkMetrics on them
    reports the path unhealthy exactly when the average reaches
    MAX_LATENCY or 100 times the number of packets without "Reply from"
    reaches MAX_LOSS times PING_COUNT (both inclusive). *)
Theorem doPing_verdict cfg packets rtt :
  0 < PING_COUNT cfg ->
  exists loss, doPing cfg (ProbeResult packets rtt) = Ok (rtt, loss) /\
    (checkMetrics cfg rtt loss = true <->
     (MAX_LATENCY cfg <= rtt)%Q \/
     (MAX_LOSS cfg * inject_Z (PING_COUNT cfg)
        <= inject_Z (100 * Z.of_nat (length (filter (fun p => negb (is_reply p)) packets))))%Q).
Proof.
  intros Hc. destruct (calculateLoss_eq cfg packets ltac:(lia)) as (l & Hv & Hq).
  exists l. cbn [doPing]. rewrite Hv. split; [reflexivity|].
  rewrite checkMetrics_iff, Hq, Qle_div_iff, count_lost_filter; [reflexivity|].
  unfold Qlt; cbn. lia.
Qed.

(** ** Concrete runs *)

Definition sixty_percent_loss : list string := repeat (reply "15") 4 ++ repeat timeout 6.

Lemma calculateLoss_value_witness :
  exists l, calculateLoss cfg0 sixty_percent_loss = Ok l /\
    (l == inject_Z (100 * Z.of_nat (length (filter (fun p => negb (is_reply p)) sixty_percent_loss)))
          / inject_Z (PING_COUNT cfg0))%Q.
Proof. apply calculateLoss_value. discriminate. Defined.

(** The threshold cases of the spec: exactly at the latency threshold is
    unhealthy; one below both thresholds is healthy. *)
Example checkMetrics_at_threshold : checkMetrics cfg0 100 0 = true.
Proof. reflexivity. Qed.

Example checkMetrics_below_threshold : checkMetrics cfg0 99 19 = false.
Proof. reflexivity. Qed.

Example doPing_healthy :
  doPing cfg0 (ProbeResult (repeat (reply "15") 10) 15) = Ok (15%Q, 0%Q) /\
  checkMetrics cfg0 15 0 = false.
Proof. split; reflexivity. Qed.

Example doPing_sixty_percent :
  doPing cfg0 (ProbeResult sixty_percent_loss 15) = Ok (15%Q, (600 # 10)%Q) /\
  checkMetrics cfg0 15 (600 # 10) = true.
Proof. split; reflexivity. Qed.

Lemma doPing_verdict_witness :
  exists loss : Q, doPing cfg0 (ProbeResult sixty_percent_loss 15) = Ok (15%Q, loss) /\
    (checkMetrics cfg0 15 loss = true <->
     (MAX_LATENCY cfg0 <= 15)%Q \/
     (MAX_LOSS cfg0 * inject_Z (PING_COUNT cfg0)
        <= inject_Z (100 * Z.of_nat (length (filter (fun p => negb (is_reply p)) sixty_percent_loss))))%Q).
Proof. apply doPing_verdict. reflexivity. Defined.
