(* ===== verification/Config.v ===== *)
(** * Config: the option load of both modules

    firepower.py 11-20 and pathmonitor.py 8-16 read options.json at
    import: [json.load(opt)['firepower']] (resp. ['pingtest']), then one
    subscript per option, in the order of the code.  Reading the file and
    [json.load] are I/O: the model starts from the parsed document, a
    [json] value, in which a repeated key keeps its last binding as
    [json.load] does ([dict_get]).  [load_firepower] and [load_pingtest]
    return the [Options] and [Pingtest] records the rest of the
    development takes as parameters; [load_config] loads both in the
    order of a run of pathmonitor.py, whose first line imports
    [firepower].

    The records hold the types the code uses the values at (strings, an
    integer count, numeric thresholds): a value of another type is
    reported as [TypeError] after every subscript was made, where the
    code reports it at its first use (for [address], the [baseurl] line
    33, still at import).  JSON numbers are integers ([JNum]), so the
    thresholds loaded are whole numbers.

    The theorems: every document that holds the two sections, whatever
    else it holds, loads back the records they describe (round trip),
    and an absent option raises [KeyError] before anything else runs. *)

From Stdlib Require Import String ZArith QArith List.
From S2P Require Import Prelude Transport Device Health.
Import ListNotations.
Open Scope string_scope.
Open Scope py_scope.

(** firepower.py 12-20. *)
Definition load_firepower (doc : json) : res Options :=
  let? options := getitem_key "firepower" doc in
  let? username := getitem_key "username" options in
  let? password := getitem_key "password" options in
  let? address := getitem_key "address" options in
  let? route := getitem_key "failover_route" options in
  let? gateway := getitem_key "failover_gateway" options in
  let? iface := getitem_key "failover_interface" options in
  let? u := as_str username in let? p := as_str password in let? f := as_str address in
  let? r := as_str route in let? g := as_str gateway in let? i := as_str iface in
  Ok (mk_options u p f r g i).

(** pathmonitor.py 9-16. *)
Definition load_pingtest (doc : json) : res Pingtest :=
  let? options := getitem_key "pingtest" doc in
  let? target := getitem_key "target" options in
  let? count := getitem_key "count" options in
  let? max_latency := getitem_key "max_latency" options in
  let? max_loss := getitem_key "max_loss" options in
  let? t := as_str target in let? c := as_int count in
  let? l := as_int max_latency in let? m := as_int max_loss in
  Ok (mk_pingtest t c (inject_Z l) (inject_Z m)).

(** pathmonitor.py 1: [import firepower] runs the module's option load
    first; lines 8-16 then load the monitor's own section. *)
Definition load_config (doc : json) : res (Pingtest * Options) :=
  let? opts := load_firepower doc in
  let? cfg := load_pingtest doc in
  Ok (cfg, opts).

(** ** The sections that describe given records *)

Definition firepower_keys : list string :=
  ["username"; "password"; "address"; "failover_route"; "failover_gateway"; "failover_interface"].

Definition pingtest_keys : list string := ["target"; "count"; "max_latency"; "max_loss"].

Definition firepower_section (o : Options) : list (string * json) :=
  [("username", JStr (USERNAME o)); ("password", JStr (PASSWORD o)); ("address", JStr (FDM o));
   ("failover_route", JStr (ROUTE o)); ("failover_gateway", JStr (GATEWAY o));
   ("failover_interface", JStr (FO_INTERFACE o))].

(** A pingtest section with a count and two whole-number thresholds. *)
Definition pingtest_section (target : string) (count latency loss : Z) : list (string * json) :=
  [("target", JStr target); ("count", JNum count); ("max_latency", JNum latency); ("max_loss", JNum loss)].

(** ** Lemmas *)

(** Looking up a key of a section placed after other bindings. *)
Lemma getitem_section k other sec v :
  dict_get k sec = Some v -> getitem_key k (JObj (other ++ sec)) = Ok v.
Proof. intros H. cbn [getitem_key]. rewrite dict_get_app, H. reflexivity. Qed.

(** A subscript of an object either succeeds or raises [KeyError]. *)
Lemma getitem_obj k kv : getitem_key k (JObj kv) = match dict_get k kv with Some v => Ok v | None => Raise KeyError end.
Proof. reflexivity. Qed.

(** Run a loader over sections placed after other bindings: each
    subscript is read off the section, the conversions computed. *)
Ltac load_simp :=
  repeat (rewrite ?getitem_obj, ?dict_get_app;
    cbn [dict_get fold_left String.eqb Ascii.eqb Bool.eqb andb rbind as_str as_int firepower_section
         pingtest_section USERNAME PASSWORD FDM ROUTE GATEWAY FO_INTERFACE]).

(** Resolve each subscript of a section: the absent one raises, the
    others either raise [KeyError] too or pass. *)
Ltac missing_key Hk :=
  rewrite ?getitem_obj, Hk;
  repeat match goal with |- context [dict_get ?k ?kv] => destruct (dict_get k kv) end;
  reflexivity.

Lemma load_firepower_missing doc kv k :
  getitem_key "firepower" doc = Ok (JObj kv) -> In k firepower_keys -> dict_get k kv = None ->
  load_firepower doc = Raise KeyError.
Proof.
  intros Hs Hin Hk. unfold load_firepower. rewrite Hs. cbn [rbind].
  cbn [firepower_keys In] in Hin.
  repeat (destruct Hin as [<-|Hin]; [missing_key Hk|]). contradiction.
Qed.

Lemma load_pingtest_missing doc kv k :
  getitem_key "pingtest" doc = Ok (JObj kv) -> In k pingtest_keys -> dict_get k kv = None ->
  load_pingtest doc = Raise KeyError.
Proof.
  intros Hs Hin Hk. unfold load_pingtest. rewrite Hs. cbn [rbind].
  cbn [pingtest_keys In] in Hin.
  repeat (destruct Hin as [<-|Hin]; [missing_key Hk|]). contradiction.
Qed.

(** ** Theorems *)

(** C14: round trip: a document that holds, after any other bindings, a
    firepower section describing [o] and a pingtest section (each after
    any other bindings of its own) loads back [o] and the pingtest
    record with the section's values, whatever else it holds. *)
Theorem load_config_roundtrip o t c l m pre fw_other pt_other :
  load_config (JObj (pre ++ [("firepower", JObj (fw_other ++ firepower_section o));
                             ("pingtest", JObj (pt_other ++ pingtest_section t c l m))]))
  = Ok (mk_pingtest t c (inject_Z l) (inject_Z m), o).
Proof. destruct o. unfold load_config, load_firepower, load_pingtest. load_simp. reflexivity. Qed.

(** C15: an absent option raises [KeyError] while the modules load, before
    any probe or request: one of the six firepower options (loaded first,
    by the import), or one of the four pingtest options once the firepower
    section loaded. *)
Theorem load_config_missing doc k :
  (exists kv, getitem_key "firepower" doc = Ok (JObj kv) /\ In k firepower_keys /\ dict_get k kv = None) \/
  (exists o kv, load_firepower doc = Ok o /\ getitem_key "pingtest" doc = Ok (JObj kv) /\
                In k pingtest_keys /\ dict_get k kv = None) ->
  load_config doc = Raise KeyError.
Proof.
  unfold load_config. intros [(kv & Hs & Hin & Hk)|(o & kv & Ho & Hs & Hin & Hk)].
  - rewrite (load_firepower_missing doc kv k Hs Hin Hk). reflexivity.
  - rewrite Ho. cbn [rbind]. rewrite (load_pingtest_missing doc kv k Hs Hin Hk). reflexivity.
Qed.

(** ** Concrete documents *)

(** The options.json of the reference runs ([opts0], [cfg0]). *)
Definition options_json0 : json :=
  JObj [("firepower", JObj (firepower_section opts0)); ("pingtest", JObj (pingtest_section "8.8.8.8" 10 100 20))].

Example load_config_options_json0 : load_config options_json0 = Ok (cfg0, opts0).
Proof. reflexivity. Qed.

(** A firepower section without its failover interface. *)
Definition options_json_noiface : json :=
  JObj [("firepower", JObj (removelast (firepower_section opts0)));
        ("pingtest", JObj (pingtest_section "8.8.8.8" 10 100 20))].

Lemma load_config_missing_witness :
  getitem_key "firepower" options_json_noiface = Ok (JObj (removelast (firepower_section opts0))) /\
  In "failover_interface" firepower_keys /\
  dict_get "failover_interface" (removelast (firepower_section opts0)) = None /\
  load_config options_json_noiface = Raise KeyError.
Proof.
  assert (H1 : getitem_key "firepower" options_json_noiface = Ok (JObj (removelast (firepower_section opts0))))
    by reflexivity.
  assert (H2 : In "failover_interface" firepower_keys) by (cbn; tauto).
  assert (H3 : dict_get "failover_interface" (removelast (firepower_section opts0)) = None) by reflexivity.
  split; [exact H1|]. split; [exact H2|]. split; [exact H3|].
  apply (load_config_missing options_json_noiface "failover_interface"). left. exists (removelast (firepower_section opts0)).
  split; [exact H1|]. split; [exact H2|exact H3].
Defined.
