(* ===== verification/Controller.v ===== *)
(** * Controller: one monitoring cycle, [pathmonitor.run]

    src/pathmonitor.py 64-81.  The cycle probes, classifies the path with
    [checkMetrics], builds the [FirePower] client (authentication and
    the virtual router lookup happen in its constructor, after the
    probe), and then takes the add branch or the delete branch.  [cycle]
    records the branch taken and the value [result] the branch
    obtained; [report] is the line [run] prints for it. *)

From Stdlib Require Import String ZArith QArith List Lia.
From stdpp Require Import base strings list.
From S2P Require Import Prelude Transport Device Deploy IPv4 Resolver Reconciler Health.
Import ListNotations.
Open Scope string_scope.
Open Scope py_scope.

Inductive cycle : Type :=
| AddPath (result : bool)            (** [failover is True]: [result = fw.addRoute()] *)
| DelPath (result : option bool).    (** [failover is False]: [result = fw.delRoute()] *)

Definition report (c : cycle) : option string :=
  match c with
  | AddPath true => Some "TRAFFIC SUCCESSFULLY FAILED OVER TO BACKUP CONNECTION"
  | DelPath (Some true) => Some "TRAFFIC SUCCESSFULLY ROUTED BACK TO PRIMARY CONNECTION"
  | _ => None
  end.

Section Controller.
Context {D : Type} `{Transport D}.
Variables (cfg : Pingtest) (opts : Options).

Definition run (fuel : nat) (probe : probe_outcome) : PyM D cycle :=
  let* m := lift (doPing cfg probe) in
  let failover := checkMetrics cfg (fst m) (snd m) in
  let* fw := init opts in
  if failover then
    let* result := addRoute opts fuel fw in ret (AddPath result)
  else
    let* result := delRoute opts fuel fw in ret (DelPath result).

(** pathmonitor.py 84-85: run as a script, the monitor runs one cycle
    and exits. *)
Definition pathmonitor_main (fuel : nat) (probe : probe_outcome) : PyM D unit :=
  let* _ := run fuel probe in ret tt.

(** firepower.py 319-320: run as a script, the module only builds the
    client (login and virtual router lookup). *)
Definition firepower_main : PyM D unit :=
  let* _ := init opts in ret tt.
End Controller.

Section ControllerTheory.
Context {D : Type} `{Transport D}.
Variables (cfg : Pingtest) (opts : Options).

(** An unhealthy measurement sends the cycle down the add branch,
    after the client is built. *)
Lemma run_unhealthy fuel probe s rtt loss fw s1 :
  doPing cfg probe = Ok (rtt, loss) -> checkMetrics cfg rtt loss = true ->
  init opts s = (Ok fw, s1) ->
  run cfg opts fuel probe s = bind (addRoute opts fuel fw) (fun r => ret (AddPath r)) s1.
Proof.
  intros Hp Hc Hi. unfold run, bind at 1, lift. rewrite Hp. cbn [fst snd]. rewrite Hc.
  unfold bind at 1. rewrite Hi. reflexivity.
Qed.

(** A healthy measurement sends it down the delete branch. *)
Lemma run_healthy fuel probe s rtt loss fw s1 :
  doPing cfg probe = Ok (rtt, loss) -> checkMetrics cfg rtt loss = false ->
  init opts s = (Ok fw, s1) ->
  run cfg opts fuel probe s = bind (delRoute opts fuel fw) (fun r => ret (DelPath r)) s1.
Proof.
  intros Hp Hc Hi. unfold run, bind at 1, lift. rewrite Hp. cbn [fst snd]. rewrite Hc.
  unfold bind at 1. rewrite Hi. reflexivity.
Qed.

(** Without the privilege to open a raw socket the cycle ends in
    [sys.exit(0)] (exit status 0), before the device is contacted. *)
Lemma run_permission_error fuel s :
  run cfg opts fuel ProbePermissionError s = (Raise (SystemExit 0), s).
Proof. reflexivity. Qed.
End ControllerTheory.

Section ControllerLevel.
Context {D : Type} `{TransportLaws D}.
Variables (cfg : Pingtest) (opts : Options).

(** The controller is level-triggered: an unhealthy cycle that finds
    the backup route already installed changes nothing on the device
    after the client's construction, and reports no failover. *)
Lemma run_unhealthy_already_failed_over fuel probe s rtt loss fw s1 r s2 :
  doPing cfg probe = Ok (rtt, loss) -> checkMetrics cfg rtt loss = true ->
  init opts s = (Ok fw, s1) ->
  doesRouteExist opts fw s1 = (Ok (Some r), s2) -> truthy r = true ->
  run cfg opts fuel probe s = (Ok (AddPath false), s1) /\ report (AddPath false) = None.
Proof.
  intros Hp Hc Hi He Ht. split; [|reflexivity].
  pose proof (doesRouteExist_state opts fw s1 _ s2 He) as ->.
  unfold run, bind at 1, lift. rewrite Hp. cbn [fst snd]. rewrite Hc.
  unfold bind at 1. rewrite Hi. unfold addRoute, bind. rewrite He, Ht. reflexivity.
Qed.

(** A healthy cycle with no backup route changes nothing either. *)
Lemma run_healthy_already_primary fuel probe s rtt loss fw s1 s2 :
  doPing cfg probe = Ok (rtt, loss) -> checkMetrics cfg rtt loss = false ->
  init opts s = (Ok fw, s1) ->
  doesRouteExist opts fw s1 = (Ok None, s2) ->
  run cfg opts fuel probe s = (Ok (DelPath (Some false)), s1).
Proof.
  intros Hp Hc Hi He.
  pose proof (doesRouteExist_state opts fw s1 _ s2 He) as ->.
  unfold run, bind at 1, lift. rewrite Hp. cbn [fst snd]. rewrite Hc.
  unfold bind at 1. rewrite Hi. unfold delRoute, bind. rewrite He. reflexivity.
Qed.
End ControllerLevel.

(** ** Session setup inside the cycle *)

Section SessionTheory.
Context {D : Type} `{Transport D}.
Variable opts : Options.

(** C34: a rejected login is not reported as such: [authRequest] returns
    [None], and the constructor then fails with [TypeError] on the first
    authenticated request (["Bearer " + None]). *)
Theorem init_auth_failed s r s1 :
  request POST (baseurl opts ++ "/fdm/token") headers (Some (oauth_data opts)) s = (r, s1) ->
  status_code r <> 200 ->
  init opts s = (Raise TypeError, s1).
Proof.
  intros Hr Hs. unfold init, authRequest, send, bind. rewrite Hr.
  destruct (Z.eqb_spec (status_code r) 200) as [E|_]; [contradiction|]. reflexivity.
Qed.

(** C35: only the first virtual router is examined: when it is not named
    "Global" the attribute [globalVR] stays unassigned, whatever the
    rest of the list holds, and every later use raises
    [AttributeError]. *)
Theorem getGlobalVR_first_only fw s v0 rest n s1 :
  getData opts fw vr_url s = (Ok (Some (JObj [("items", JList (v0 :: rest))])), s1) ->
  getitem_key "name" v0 = Ok (JStr n) -> n <> "Global" ->
  getGlobalVR opts fw s = (Ok fw, s1).
Proof.
  intros Hg Hn Hne. unfold getGlobalVR, bind, lift. rewrite Hg. cbv beta iota.
  cbn [loads rbind getitem_key dict_get fold_left String.eqb Ascii.eqb Bool.eqb andb getitem_idx nth_error].
  rewrite Hn. cbn [rbind json_eq_str]. destruct (String.eqb_spec n "Global"); [contradiction|reflexivity].
Qed.
End SessionTheory.

(** ** Concrete cycles against the reference device *)

Definition probe_healthy : probe_outcome := ProbeResult (repeat (reply "15") 10) 15.
Definition probe_lossy : probe_outcome := ProbeResult sixty_percent_loss 15.

Lemma run_unhealthy_witness :
  run cfg0 opts0 5 probe_lossy dev0 = bind (addRoute opts0 5 fw0) (fun r => ret (AddPath r)) dev0.
Proof. apply (run_unhealthy cfg0 opts0 5 probe_lossy dev0 15 (600 # 10)); reflexivity. Defined.

Lemma run_healthy_witness :
  run cfg0 opts0 5 probe_healthy dev_failover =
    bind (delRoute opts0 5 fw0) (fun r => ret (DelPath r)) dev_failover.
Proof. apply (run_healthy cfg0 opts0 5 probe_healthy dev_failover 15 0); reflexivity. Defined.

Lemma run_unhealthy_already_failed_over_witness :
  run cfg0 opts0 5 probe_lossy dev_failover = (Ok (AddPath false), dev_failover) /\
  report (AddPath false) = None.
Proof.
  apply (run_unhealthy_already_failed_over cfg0 opts0 5 probe_lossy dev_failover 15 (600 # 10)
           fw0 dev_failover backup_route dev_failover); reflexivity.
Defined.

Lemma run_healthy_already_primary_witness :
  run cfg0 opts0 5 probe_healthy dev0 = (Ok (DelPath (Some false)), dev0).
Proof. apply (run_healthy_already_primary cfg0 opts0 5 probe_healthy dev0 15 0 fw0 dev0 dev0); reflexivity. Defined.

Definition opts_badpass : Options :=
  mk_options "admin" "wrong" "fdm.example" "10.9.0.0/16" "192.168.1.1" "GigabitEthernet0/1".

Lemma init_auth_failed_witness : init opts_badpass dev0 = (Raise TypeError, dev0).
Proof. apply (init_auth_failed opts_badpass dev0 (mk_response 400 JNull)); [reflexivity|discriminate]. Defined.

Definition vr_other : json := JObj [("name", JStr "Management"); ("id", JStr "vr0")].
Definition dev_two_vrs : device :=
  mk_device (dev_base dev0) (dev_user dev0) (dev_pass dev0) (dev_token dev0)
    [vr_other; JObj [("name", JStr "Global"); ("id", JStr "vr1")]]
    (dev_ifaces dev0) [] [] [] 0 false false.

Lemma getGlobalVR_first_only_witness :
  getGlobalVR opts0 (mk_fp (JStr "tok1") None) dev_two_vrs = (Ok (mk_fp (JStr "tok1") None), dev_two_vrs).
Proof.
  apply (getGlobalVR_first_only opts0 _ dev_two_vrs vr_other [JObj [("name", JStr "Global"); ("id", JStr "vr1")]] "Management");
    [reflexivity|reflexivity|discriminate].
Defined.

(** The spec's scenarios: ten replies at 15 ms keep the primary path
    (delete branch, nothing to delete); 60% loss fails over, and the
    network object created for the backup route holds the network
    address with its full netmask. *)
Example cycle_healthy_dev0 : run cfg0 opts0 5 probe_healthy dev0 = (Ok (DelPath (Some false)), dev0).
Proof. reflexivity. Qed.

Example cycle_lossy_dev0 :
  run cfg0 opts0 5 probe_lossy dev0 = (Ok (AddPath true), dev_failover) /\
  report (AddPath true) = Some "TRAFFIC SUCCESSFULLY FAILED OVER TO BACKUP CONNECTION" /\
  dev_objects dev_failover =
    [with_id "obj0" (host_data "network_10.9.0.0" "NETWORK" "10.9.0.0/255.255.0.0");
     with_id "obj1" (host_data "gateway_192.168.1.1" "HOST" "192.168.1.1")].
Proof. repeat split; reflexivity. Qed.

Example cycle_restore_dev0 :
  fst (run cfg0 opts0 5 probe_healthy dev_failover) = Ok (DelPath (Some true)) /\
  dev_routes (snd (run cfg0 opts0 5 probe_healthy dev_failover)) = [].
Proof. split; reflexivity. Qed.
