(* ===== verification/Fuel.v ===== *)
(** * Fuel: the bound on the polling loop is only a bound

    The [while] of [deployPolicy] (firepower.py 134-154) is modelled by
    [deploy_loop] with fuel, and every method that deploys ([addRoute],
    [delRoute], and [run] above them) takes that fuel.  As for the
    fuel-indexed interpreter of cdf-mech-sem's Divergence.v, the model is
    monotone in the fuel: once a run with [n] iterations has an outcome
    (a value or an exception, not [Stuck]), every larger fuel gives the
    same outcome and the same device.  So [Stuck] for one fuel means
    "needs more iterations", [Stuck] for every fuel means the loop of the
    code does not end, and the choice of a fuel in the other theorems
    loses nothing.  This holds for every device ([Transport]). *)

From Stdlib Require Import String ZArith List Lia.
From stdpp Require Import base strings list.
From S2P Require Import Prelude Transport Device Deploy Resolver Reconciler Health Controller.
Import ListNotations.
Open Scope py_scope.

Create HintDb fuel discriminated.

Section FuelMono.
Context {D : Type} `{Transport D}.

(** A computation indexed by a fuel is monotone: an outcome obtained
    with [n] is the outcome with every [m >= n]. *)
Definition fuel_mono {A} (f : nat -> PyM D A) : Prop :=
  forall n m s, (n <= m)%nat -> fst (f n s) <> Stuck -> f m s = f n s.

Lemma fuel_mono_const {A} (c : PyM D A) : fuel_mono (fun _ => c).
Proof. intros n m s _ _. reflexivity. Qed.

Lemma fuel_mono_bind {A B} (f : nat -> PyM D A) (g : nat -> A -> PyM D B) :
  fuel_mono f -> (forall a, fuel_mono (fun n => g n a)) -> fuel_mono (fun n => bind (f n) (g n)).
Proof.
  intros Hf Hg n m s Hle Hn. unfold bind in *.
  destruct (f n s) as [[a|e|] s1] eqn:E.
  - rewrite (Hf n m s Hle) by (rewrite E; discriminate). rewrite E. apply Hg; assumption.
  - rewrite (Hf n m s Hle) by (rewrite E; discriminate). rewrite E. reflexivity.
  - contradiction.
Qed.

Lemma fuel_mono_if {A} (b : bool) (f g : nat -> PyM D A) :
  fuel_mono f -> fuel_mono g -> fuel_mono (fun n => if b then f n else g n).
Proof. destruct b; auto. Qed.

Lemma fuel_mono_option {A B} (o : option A) (f : A -> nat -> PyM D B) (g : nat -> PyM D B) :
  (forall a, fuel_mono (f a)) -> fuel_mono g ->
  fuel_mono (fun n => match o with Some a => f a n | None => g n end).
Proof. destruct o; auto. Qed.
End FuelMono.

#[export] Hint Resolve fuel_mono_const fuel_mono_bind fuel_mono_if fuel_mono_option : fuel.

(** Close a [fuel_mono] goal on a method whose only use of the fuel is
    through calls already known to be monotone. *)
Ltac fuel_mono_tac :=
  repeat match goal with
  | |- fuel_mono (fun _ => bind _ _) => apply fuel_mono_bind; [|intros ?]
  | |- forall _, _ => intros ?
  | |- fuel_mono (fun _ => if ?b then _ else _) => apply (fuel_mono_if b)
  | |- fuel_mono (fun _ => match ?o with Some _ => _ | None => _ end) =>
      apply (fuel_mono_option o); [intros ?|]
  | |- fuel_mono (fun _ => ?c) => apply fuel_mono_const
  | _ => solve [auto with fuel]
  end.

Section Methods.
Context {D : Type} `{Transport D}.
Variables (cfg : Pingtest) (opts : Options).

Lemma deploy_loop_mono fw i : fuel_mono (fun n => deploy_loop opts n fw i).
Proof.
  intros n. induction n as [|n IH]; intros m s Hle Hn; [contradiction|].
  destruct m as [|m]; [lia|]. rewrite deploy_loop_S in Hn. rewrite !deploy_loop_S.
  destruct (poll opts fw i s) as [[[]| |] s1]; try reflexivity.
  apply IH; [lia|exact Hn].
Qed.

Lemma deployPolicy_mono fw : fuel_mono (fun n => deployPolicy opts n fw).
Proof.
  unfold deployPolicy. apply fuel_mono_bind; [apply fuel_mono_const|intros r].
  apply fuel_mono_bind; [apply fuel_mono_const|intros i]. apply deploy_loop_mono.
Qed.
#[local] Hint Resolve deployPolicy_mono : fuel.

Lemma addRoute_mono fw : fuel_mono (fun n => addRoute opts n fw).
Proof. unfold addRoute. fuel_mono_tac. Qed.

Lemma delRoute_mono fw : fuel_mono (fun n => delRoute opts n fw).
Proof.
  unfold delRoute. apply fuel_mono_bind; [apply fuel_mono_const|intros [r|]]; [|apply fuel_mono_const].
  fuel_mono_tac.
Qed.
#[local] Hint Resolve addRoute_mono delRoute_mono : fuel.

Lemma run_mono probe : fuel_mono (fun n => run cfg opts n probe).
Proof. unfold run. fuel_mono_tac. Qed.
End Methods.

(** For every device, a monitoring cycle that has an outcome (a
    value or an exception) with [n] iterations of the polling loop has
    the same outcome and leaves the same device with any larger number
    of iterations: the fuel of the model only bounds the loop. *)
Lemma run_fuel_mono {D} `{Transport D} cfg opts probe n m (s : D) :
  (n <= m)%nat -> fst (run cfg opts n probe s) <> Stuck ->
  run cfg opts m probe s = run cfg opts n probe s.
Proof. apply run_mono. Qed.
