(* ===== verification/DeviceFacts.v ===== *)
(** * DeviceFacts: the client's HTTP helpers against the reference device

    General lemmas, for every state of the reference device [Device]
    whose API base and token are the client's ([connected]): what
    [getData], [postData] and [deleteData] of src/firepower.py (272-316)
    return for each path the client uses, and what [deployPolicy]
    (127-154) does when the device deploys.  They are the steps out of
    which [Failover] composes whole calls of [addRoute], [delRoute] and
    [run] on an arbitrary device state. *)

From Stdlib Require Import String Ascii ZArith List Lia.
From stdpp Require Import base strings list pretty.
From S2P Require Import Prelude Transport Device Deploy Resolver Reconciler.
Import ListNotations.
Open Scope string_scope.
Open Scope py_scope.

(** The client object is connected to the device: its token is the one
    the device issued, and the options name the device's API base. *)
Definition connected (opts : Options) (fw : FirePower) (s : device) : Prop :=
  dev_base s = baseurl opts /\ token fw = JStr (dev_token s).

(** The answer body as [getData] and [postData] hand it on. *)
Definition get_body (r : response) : option json :=
  if Z.eqb (status_code r) 200 then Some (resp_text r) else None.

Definition post_body (r : response) : option json :=
  if Z.eqb (status_code r) 200 then Some (resp_text r)
  else if Z.eqb (status_code r) 422 then Some (resp_text r) else None.

(** ** Strings of the API paths *)

Lemma strip_prefix_app p s : strip_prefix p (p ++ s) = Some s.
Proof.
  induction p as [|a p IH]; [reflexivity|].
  rewrite str_app_cons. cbn [strip_prefix]. rewrite Ascii.eqb_refl. exact IH.
Qed.

Lemma fresh_id_inj pre (m n : nat) : pre ++ pretty m = pre ++ pretty n -> m = n.
Proof.
  induction pre as [|a pre IH]; rewrite ?str_app_nil_l, ?str_app_cons; [apply (inj pretty)|].
  intros H. injection H. exact IH.
Qed.

Lemma authorized_bearer s :
  authorized s [("Content-Type", "application/json"); ("Authorization", "Bearer " ++ dev_token s)] = true.
Proof. unfold authorized. cbn. apply String.eqb_refl. Qed.

(** ** The helpers on a connected device *)

Section Connected.
Variables (opts : Options) (fw : FirePower).

Lemma connected_hdrs s :
  connected opts fw s ->
  auth_headers fw = Ok [("Content-Type", "application/json"); ("Authorization", "Bearer " ++ dev_token s)].
Proof. intros [_ Ht]. unfold auth_headers. rewrite Ht. reflexivity. Qed.

Lemma getData_dev s p :
  connected opts fw s -> getData opts fw p s = (Ok (get_body (get_path s p)), s).
Proof.
  intros Hc. unfold getData, bind, lift. rewrite (connected_hdrs s Hc).
  unfold send, ret. cbn [request device_transport]. unfold dev_get.
  destruct Hc as [-> _]. rewrite strip_prefix_app, authorized_bearer.
  unfold get_body. destruct (Z.eqb _ 200); reflexivity.
Qed.

Lemma postData_dev s p body :
  connected opts fw s -> String.eqb p "/fdm/token" = false ->
  postData opts fw p body s =
    (Ok (post_body (fst (post_path s p body))), snd (post_path s p body)).
Proof.
  intros Hc Hp. unfold postData, bind, lift. rewrite (connected_hdrs s Hc).
  unfold send, ret. cbn [request device_transport]. unfold dev_post.
  destruct Hc as [-> _]. rewrite strip_prefix_app, Hp, authorized_bearer. cbn [negb].
  unfold post_body. destruct (post_path s p body) as [r s'].
  destruct (Z.eqb _ 200); [reflexivity|]. destruct (Z.eqb _ 422); reflexivity.
Qed.

Lemma deleteData_dev s vr p :
  connected opts fw s -> global_vr s = Some vr ->
  deleteData opts fw p s =
    (Ok (Z.eqb (status_code (fst (delete_path s vr p))) 204), snd (delete_path s vr p)).
Proof.
  intros Hc Hv. unfold deleteData, bind, lift. rewrite (connected_hdrs s Hc).
  unfold send, ret. cbn [request device_transport]. unfold dev_delete.
  destruct Hc as [-> _]. rewrite strip_prefix_app, Hv, authorized_bearer.
  cbn [negb]. destruct (delete_path s vr p); reflexivity.
Qed.
End Connected.

(** ** The paths the client uses *)

Section Paths.
Variable s : device.

Lemma get_path_object i :
  get_path s ("/object/networks/" ++ i) =
    match find (has_id i) (dev_objects s) with Some o => ok o | None => not_found end.
Proof. reflexivity. Qed.

Lemma get_path_filter n :
  get_path s ("/object/networks?filter=name%3A" ++ n) = ok (items (List.filter (has_name n) (dev_objects s))).
Proof. reflexivity. Qed.

Lemma get_path_interfaces : get_path s "/devices/default/interfaces" = ok (items (dev_ifaces s)).
Proof. reflexivity. Qed.

Lemma get_path_vrs : get_path s vr_url = ok (items (dev_vrs s)).
Proof. reflexivity. Qed.

Lemma get_path_tasks : get_path s deploy_url = ok (items (map task_to_json (dev_tasks s))).
Proof. reflexivity. Qed.

Lemma get_path_routes vr :
  global_vr s = Some vr -> lacks "/" vr = true ->
  get_path s (routes_url vr) = ok (items (dev_routes s)).
Proof.
  intros Hv Hl. unfold routes_url.
  change (get_path s ("/devices/default/routing/virtualrouters/" ++ vr ++ "/staticrouteentries"))
    with (match split_on "/" (vr ++ "/staticrouteentries") with
          | [vr'; "staticrouteentries"] =>
              if bool_decide (global_vr s = Some vr') then ok (items (dev_routes s)) else not_found
          | _ => not_found end).
  unfold split_on. rewrite (split_on_aux_app_sep "/" vr "staticrouteentries" "" Hl).
  rewrite str_app_nil_l. cbn. rewrite bool_decide_eq_true_2 by exact Hv. reflexivity.
Qed.

Lemma post_path_object o : post_path s "/object/networks" (Some o) = post_object s o.
Proof. reflexivity. Qed.

Lemma post_path_deploy : post_path s deploy_url None = post_deploy s.
Proof. reflexivity. Qed.

Lemma post_path_route vr r :
  global_vr s = Some vr -> post_path s (routes_url vr) (Some r) = post_route s r.
Proof.
  intros Hv. unfold post_path. cbn -[String.append].
  change (String.eqb (routes_url vr) deploy_url) with false.
  change (String.eqb (routes_url vr) "/object/networks") with false. cbv iota.
  rewrite Hv. unfold routes_url. rewrite String.eqb_refl. reflexivity.
Qed.
Lemma delete_path_route vr rid :
  dev_locked s = false ->
  delete_path s vr (route_entry_url vr rid) =
    if existsb (has_id rid) (dev_routes s)
    then (mk_response 204 JNull,
          set_routes (List.filter (fun r => negb (has_id rid r)) (dev_routes s)) false s)
    else (not_found, s).
Proof.
  intros Hl. unfold delete_path, route_entry_url. rewrite Hl.
  replace ("/devices/default/routing/virtualrouters/" ++ vr ++ "/staticrouteentries/" ++ rid)
    with (("/devices/default/routing/virtualrouters/" ++ vr ++ "/staticrouteentries/") ++ rid)
    by (rewrite !str_app_assoc; reflexivity).
  rewrite strip_prefix_app. reflexivity.
Qed.

(** A locked configuration refuses every DELETE with 409. *)
Lemma delete_path_locked vr p : dev_locked s = true -> delete_path s vr p = (mk_response 409 JNull, s).
Proof. intros Hl. unfold delete_path. rewrite Hl. reflexivity. Qed.
End Paths.

(** ** A deployment on the device *)

Lemma advance_id t : task_id (advance t) = task_id t.
Proof. unfold advance. destruct (String.eqb _ "QUEUED"); [|destruct (String.eqb _ "DEPLOYING")]; reflexivity. Qed.

Lemma sleep_tasks n s : dev_stall s = false -> dev_tasks (sleep n s) = map advance (dev_tasks s).
Proof. intros Hs. cbn [sleep device_transport]. rewrite Hs. reflexivity. Qed.

Lemma advance_queued i : advance (mk_task i "QUEUED") = mk_task i "DEPLOYING".
Proof. reflexivity. Qed.

Lemma advance_deploying i : advance (mk_task i "DEPLOYING") = mk_task i "DEPLOYED".
Proof. reflexivity. Qed.

(** A task QUEUED before three sleeps is DEPLOYED after them, whatever
    was queued after it. *)
Lemma queued_deployed_after_three i ts x :
  In (mk_task i "QUEUED") ts -> existsb (task_deployed i) (map advance (map advance (map advance (ts ++ x)))) = true.
Proof.
  intros H. apply existsb_exists. exists (mk_task i "DEPLOYED"). split.
  - rewrite !map_map. apply in_map_iff. exists (mk_task i "QUEUED"). split; [reflexivity|apply in_or_app; left; exact H].
  - unfold task_deployed. cbn [task_id task_state]. rewrite String.eqb_refl. reflexivity.
Qed.

(** A stalled device does not move while the client sleeps. *)
Lemma sleep_stalled n s : dev_stall s = true -> sleep n s = s.
Proof. intros Hs. cbn [sleep device_transport]. rewrite Hs. reflexivity. Qed.

Lemma sleep_stall n s : dev_stall (sleep n s) = dev_stall s.
Proof. cbn [sleep device_transport]. destruct (dev_stall s) eqn:E; [exact E|exact E]. Qed.

Lemma sleep_routes n s : dev_routes (sleep n s) = dev_routes s.
Proof. cbn [sleep device_transport]. destruct (dev_stall s); reflexivity. Qed.

Lemma sleep_locked n s : dev_locked (sleep n s) = dev_locked s.
Proof. cbn [sleep device_transport]. destruct (dev_stall s); reflexivity. Qed.

Lemma sleep_objects n s : dev_objects (sleep n s) = dev_objects s.
Proof. cbn [sleep device_transport]. destruct (dev_stall s); reflexivity. Qed.

Lemma sleep_token n s : dev_token (sleep n s) = dev_token s.
Proof. cbn [sleep device_transport]. destruct (dev_stall s); reflexivity. Qed.

Lemma connected_sleep opts fw n s : connected opts fw s -> connected opts fw (sleep n s).
Proof. intros Hc. cbn [sleep device_transport]. destruct (dev_stall s); exact Hc. Qed.

(** No task of the list is the deployment [i]: the scan does not see it. *)
Lemma existsb_deployed_other i ts :
  Forall (fun t => task_id t <> i) ts -> existsb (task_deployed i) ts = false.
Proof.
  induction 1 as [|t ts Ht _ IH]; [reflexivity|]. cbn [existsb]. rewrite IH, orb_false_r.
  unfold task_deployed. destruct (String.eqb_spec (task_id t) i); [contradiction|reflexivity].
Qed.

Lemma Forall_advance (P : string -> Prop) ts :
  Forall (fun t => P (task_id t)) ts -> Forall (fun t => P (task_id t)) (map advance ts).
Proof. intros H. apply Forall_map. eapply Forall_impl; [exact H|]. intros t. rewrite advance_id. auto. Qed.

Section DeployDev.
Variables (opts : Options) (fw : FirePower).

Lemma poll_dev i s :
  connected opts fw s ->
  poll opts fw i s = (Ok (existsb (task_deployed i) (dev_tasks (sleep 8 s))), sleep 8 s).
Proof.
  intros Hc. unfold poll, bind at 1, do_sleep. cbv beta iota.
  unfold bind. rewrite (getData_dev opts fw _ _ (connected_sleep opts fw 8 s Hc)).
  rewrite get_path_tasks. unfold lift. cbn [get_body ok status_code resp_text Z.eqb Pos.eqb].
  cbn [loads rbind items getitem_key dict_get fold_left String.eqb Ascii.eqb Bool.eqb andb py_iter].
  rewrite scan_tasks_existsb. reflexivity.
Qed.

(** The device deploys on the second poll: a [deployPolicy] with fuel
    at least 2 returns [True], after two sleeps, when the new task's id
    is not already on the list. *)
Lemma deployPolicy_dev s fuel :
  connected opts fw s -> dev_stall s = false ->
  Forall (fun t => task_id t <> fresh_id "deploy" s) (dev_tasks s) -> 2 <= fuel ->
  deployPolicy opts fuel fw s = (Ok true, sleep 8 (sleep 8 (snd (post_deploy s)))).
Proof.
  intros Hc Hs Hf Hfuel.
  rewrite (deployPolicy_submitted opts fuel fw s (JObj [("id", JStr (fresh_id "deploy" s))])
             (snd (post_deploy s)) (fresh_id "deploy" s)).
  2:{ rewrite (postData_dev opts fw s _ _ Hc) by reflexivity. reflexivity. }
  2:{ reflexivity. }
  destruct fuel as [|[|fuel]]; [lia|lia|].
  assert (Hc1 : connected opts fw (snd (post_deploy s))) by exact Hc.
  rewrite deploy_loop_S, (poll_dev _ _ Hc1), sleep_tasks by exact Hs.
  cbn [post_deploy snd dev_tasks set_tasks]. rewrite map_app, existsb_app.
  rewrite (existsb_deployed_other _ _ (Forall_advance (fun x => x <> fresh_id "deploy" s) _ Hf)).
  cbn [map existsb]. rewrite advance_queued. unfold task_deployed at 1.
  rewrite String.eqb_refl. cbn [andb orb task_state String.eqb Ascii.eqb Bool.eqb].
  rewrite deploy_loop_S, (poll_dev _ _ (connected_sleep opts fw 8 _ Hc1)), !sleep_tasks
    by (rewrite ?sleep_stall; exact Hs).
  unfold post_deploy. cbn [snd dev_tasks set_tasks]. rewrite !map_app, existsb_app. cbn [map existsb].
  rewrite advance_queued, advance_deploying. unfold task_deployed at 2.
  rewrite String.eqb_refl, orb_true_r. reflexivity.
Qed.

(** A loop whose task is seen DEPLOYED at its first poll returns [True]
    after one sleep. *)
Lemma deploy_loop_first_poll i s fuel :
  connected opts fw s -> dev_stall s = false -> existsb (task_deployed i) (map advance (dev_tasks s)) = true ->
  (1 <= fuel)%nat -> deploy_loop opts fuel fw i s = (Ok true, sleep 8 s).
Proof.
  intros Hc Hs Hd Hf. destruct fuel as [|fuel]; [lia|].
  rewrite deploy_loop_S, (poll_dev i s Hc), (sleep_tasks 8 s Hs), Hd. reflexivity.
Qed.

(** On a stalled device the new task stays QUEUED: every poll sees it
    pending and [deployPolicy] has no outcome, whatever the fuel. *)
Lemma deployPolicy_stalled s fuel :
  connected opts fw s -> dev_stall s = true ->
  Forall (fun t => task_id t <> fresh_id "deploy" s) (dev_tasks s) ->
  fst (deployPolicy opts fuel fw s) = Stuck.
Proof.
  intros Hc Hs Hf.
  rewrite (deployPolicy_submitted opts fuel fw s (JObj [("id", JStr (fresh_id "deploy" s))])
             (snd (post_deploy s)) (fresh_id "deploy" s)).
  2:{ rewrite (postData_dev opts fw s _ _ Hc) by reflexivity. reflexivity. }
  2:{ reflexivity. }
  assert (Hc1 : connected opts fw (snd (post_deploy s))) by exact Hc.
  apply (deploy_loop_pending opts fw _ (fun s0 => s0 = snd (post_deploy s))); [reflexivity|].
  intros s0 ->. exists (snd (post_deploy s)). split; [|reflexivity].
  rewrite (poll_dev _ _ Hc1), (sleep_stalled 8 (snd (post_deploy s)) Hs).
  cbn [post_deploy snd dev_tasks set_tasks]. rewrite existsb_app, (existsb_deployed_other _ _ Hf).
  cbn [existsb]. unfold task_deployed. rewrite String.eqb_refl. reflexivity.
Qed.
End DeployDev.

(** ** Network objects on the device *)

(** The value of the object stored under id [j] (the first one, as
    the device's GET answers). *)
Definition obj_value (os : list json) (j : string) : option string :=
  match find (has_id j) os with
  | Some o => match getitem_key "value" o with Ok (JStr v) => Some v | _ => None end
  | None => None
  end.

(** What [createNetworkObject] leaves on the device: the id of the first
    object already named [n], or a new object. *)
Definition ensure_object (s : device) (n st v : string) : option (string * device) :=
  match List.filter (has_name n) (dev_objects s) with
  | o :: _ => match getitem_key "id" o with Ok (JStr j) => Some (j, s) | _ => None end
  | [] => let j := fresh_id "obj" s in
          Some (j, set_objects (dev_objects s ++ [with_id j (host_data n st v)]) s)
  end.

Lemma existsb_filter {A} (f : A -> bool) l :
  existsb f l = match List.filter f l with [] => false | _ => true end.
Proof. induction l as [|a l IH]; [reflexivity|]. cbn. destruct (f a); [reflexivity|exact IH]. Qed.

Section ObjectsDev.
Variables (opts : Options) (fw : FirePower).

Lemma getNetworkObject_dev s j o :
  connected opts fw s -> find (has_id j) (dev_objects s) = Some o ->
  getNetworkObject opts fw (JStr j) s = (getitem_key "value" o, s).
Proof.
  intros Hc Hf. unfold getNetworkObject, bind, lift. cbn [as_str].
  rewrite (getData_dev opts fw _ _ Hc), get_path_object, Hf. reflexivity.
Qed.

(** An id with no object: the GET answers 404, [getData] returns [None]
    and [json.loads(None)] raises [TypeError]. *)
Lemma getNetworkObject_missing s j :
  connected opts fw s -> find (has_id j) (dev_objects s) = None ->
  getNetworkObject opts fw (JStr j) s = (Raise TypeError, s).
Proof.
  intros Hc Hf. unfold getNetworkObject, bind, lift. cbn [as_str].
  rewrite (getData_dev opts fw _ _ Hc), get_path_object, Hf. reflexivity.
Qed.

Lemma getDuplicateObject_dev s n o rest :
  connected opts fw s -> List.filter (has_name n) (dev_objects s) = o :: rest ->
  getDuplicateObject opts fw n s = (getitem_key "id" o, s).
Proof.
  intros Hc Hf. unfold getDuplicateObject, bind, lift.
  rewrite (getData_dev opts fw _ _ Hc), get_path_filter, Hf. reflexivity.
Qed.

(** [createNetworkObject] on the device, for a non-empty value: the
    existing object of that name is reused, or a new one is created. *)
Lemma getNetworkObject_value s j v :
  connected opts fw s -> obj_value (dev_objects s) j = Some v ->
  getNetworkObject opts fw (JStr j) s = (Ok (JStr v), s).
Proof.
  unfold obj_value. intros Hc Hv. destruct (find (has_id j) (dev_objects s)) as [o|] eqn:Hf; [|discriminate].
  rewrite (getNetworkObject_dev s j o Hc Hf).
  destruct (getitem_key "value" o) as [[| | |v'| |]| |]; try discriminate. injection Hv as ->. reflexivity.
Qed.

Lemma createNetworkObject_dev s n st v j s' :
  connected opts fw s -> v <> "" -> ensure_object s n st v = Some (j, s') ->
  createNetworkObject opts fw n st v s = (Ok (JStr j), s').
Proof.
  intros Hc Hv He. unfold createNetworkObject, bind at 1.
  rewrite (postData_dev opts fw _ _ _ Hc) by reflexivity. rewrite post_path_object.
  unfold post_object. cbn [getitem_key host_data dict_get fold_left String.eqb Ascii.eqb Bool.eqb andb].
  replace (json_eq_str (JStr v) "") with false
    by (symmetry; apply String.eqb_neq; exact Hv).
  rewrite existsb_filter. unfold ensure_object in He.
  destruct (List.filter (has_name n) (dev_objects s)) as [|o rest] eqn:Hf.
  - injection He as <- <-. reflexivity.
  - destruct (getitem_key "id" o) as [[| | |j'| |]| |] eqn:Hi; try discriminate.
    injection He as <- <-. cbn [fst snd post_body ok status_code resp_text Z.eqb Pos.eqb].
    unfold try_except_KeyError, lift, bind, error_code. cbn.
    rewrite (getDuplicateObject_dev s n o rest Hc Hf), Hi. reflexivity.
Qed.
End ObjectsDev.
