(* ===== verification/Invariant.v ===== *)
(** * Invariant: the device state the client works on

    The view of the reference device that the controller's theorems
    need, and the invariant [dev_inv] with its preservation by every
    change the client makes.  [routing_of] derives the routing state of
    spec 3 (PRIMARY or FAILOVER) from the route table the way
    [doesRouteExist] (firepower.py 156-171) would: FAILOVER when some
    entry's gateway object has the configured gateway as value and its
    first network object the configured route's address ([is_backup]).
    [built_route] is the entry [createRouteObject] (211-236) builds from
    the objects the device holds under the two names the code uses.

    [dev_inv] is the structural part: what the client needs of the
    device (its API base and credentials are the options', a Global
    router first, the failover interface present, every route entry
    readable), the value found under an object's name is the one the
    name promises, and the ids the device hands out are fresh.  [dev_ok]
    is the part the
    refinement needs besides: deployments progress, DELETE is accepted,
    at most one backup route, and an entry named route_BACKUP is the
    backup route.  Outside [dev_ok] the cycle does something else
    (Failover: [run_stalled_never_returns], [run_locked_partial],
    [run_stale_backup_name]).  Both are preserved by storing an object
    ([inv_add_object], [ensure_object_inv], [ok_ext]), storing a backup
    route when there is none ([inv_add_route], [ok_add_route]),
    deleting routes by id ([inv_delete], [ok_delete]), and a deployment
    ([inv_deployed], [ok_deployed]).  [dev_session] is the part of
    [dev_inv] the login and the read of the route table need. *)

From Stdlib Require Import String Ascii ZArith List Lia.
From stdpp Require Import base strings list pretty.
From S2P Require Import Prelude Transport Device Deploy IPv4 Resolver Reconciler DeviceFacts.
Import ListNotations.
Open Scope string_scope.
Open Scope py_scope.
Open Scope list_scope.

(** The derived routing state of spec 3. *)
Inductive routing : Type := PRIMARY | FAILOVER.

#[export] Instance routing_eq_dec : EqDecision routing.
Proof. solve_decision. Defined.

(** ** The device as the client sees it *)

Section View.
Variable opts : Options.

(** [doesRouteExist]'s comparison, on the objects of the device. *)
Definition is_backup (os : list json) (r : json) : bool :=
  match route_gateway_ref r, route_network_ref r with
  | Ok (JStr g), Ok (JStr m) =>
      match obj_value os g, obj_value os m with
      | Some gv, Some mv =>
          String.eqb gv (GATEWAY opts) && String.eqb (split_first "/" mv) (split_first "/" (ROUTE opts))
      | _, _ => false
      end
  | _, _ => false
  end.

Definition routing_of (s : device) : routing :=
  if existsb (is_backup (dev_objects s)) (dev_routes s) then FAILOVER else PRIMARY.

(** A route entry the loop of [doesRouteExist] can read: both object
    references resolve to objects with a string value, and it has an
    id. *)
Definition route_wf (os : list json) (r : json) : Prop :=
  (exists g gv, route_gateway_ref r = Ok (JStr g) /\ obj_value os g = Some gv) /\
  (exists m mv, route_network_ref r = Ok (JStr m) /\ obj_value os m = Some mv) /\
  (exists rid, getitem_key "id" r = Ok (JStr rid)).

(** The object [getDuplicateObject] finds for the name [n] has a string
    id and a value satisfying [P]. *)
Definition named_ok (os : list json) (n : string) (P : string -> Prop) : Prop :=
  match List.filter (has_name n) os with
  | o :: _ => exists j v, getitem_key "id" o = Ok (JStr j) /\ obj_value os j = Some v /\ P v
  | [] => True
  end.

(** The id [getDuplicateObject] returns for the name [n]. *)
Definition name_id (os : list json) (n : string) : option string :=
  match List.filter (has_name n) os with
  | o :: _ => match getitem_key "id" o with Ok (JStr j) => Some j | _ => None end
  | [] => None
  end.

(** The route entry [createRouteObject] builds from the objects the
    device holds under the two names. *)
Definition built_route (ifc : json * json) (os : list json) : option json :=
  match name_id os (network_name (ROUTE opts)), name_id os (gateway_name (GATEWAY opts)) with
  | Some nid, Some gid =>
      Some (route_json (fst ifc) (snd ifc) (JStr nid) (network_name (ROUTE opts))
                       (JStr gid) (gateway_name (GATEWAY opts)))
  | _, _ => None
  end.

(** No id of [j] is one the device will still hand out. *)
Definition fresh_for (pre : string) (n : nat) (j : json) : Prop :=
  forall k : nat, has_id (pre ++ pretty k)%string j = true -> (k < n)%nat.

Definition task_fresh (n : nat) (t : task) : Prop :=
  forall k : nat, task_id t = ("deploy" ++ pretty k)%string -> (k < n)%nat.

Record dev_inv (vr : string) (ifc : json * json) (s : device) : Prop := {
  inv_base : dev_base s = baseurl opts;
  inv_user : dev_user s = USERNAME opts;
  inv_pass : dev_pass s = PASSWORD opts;
  inv_vr : exists v rest, dev_vrs s = v :: rest /\ getitem_key "name" v = Ok (JStr "Global") /\
                          getitem_key "id" v = Ok (JStr vr);
  inv_vr_slash : lacks "/" vr = true;
  inv_iface : find_iface (FO_INTERFACE opts) (dev_ifaces s) = Ok (Some ifc);
  inv_routes : Forall (route_wf (dev_objects s)) (dev_routes s);
  inv_gw : named_ok (dev_objects s) (gateway_name (GATEWAY opts)) (fun v => v = GATEWAY opts);
  inv_net : named_ok (dev_objects s) (network_name (ROUTE opts))
              (fun v => split_first "/" v = split_first "/" (ROUTE opts));
  inv_fresh_obj : Forall (fresh_for "obj" (dev_next s)) (dev_objects s);
  inv_fresh_route : Forall (fresh_for "route" (dev_next s)) (dev_routes s);
  inv_fresh_task : Forall (task_fresh (dev_next s)) (dev_tasks s)
}.

(** The conditions under which the controller follows the state machine
    of spec 4.6: deployments progress, the configuration is not locked,
    there is at most one backup route, and an entry named route_BACKUP
    is the backup route (no stale one through another gateway). *)
Record dev_ok (s : device) : Prop := {
  ok_stall : dev_stall s = false;
  ok_locked : dev_locked s = false;
  ok_single : (length (List.filter (is_backup (dev_objects s)) (dev_routes s)) <= 1)%nat;
  ok_name : Forall (fun r => has_name "route_BACKUP" r = true -> is_backup (dev_objects s) r = true)
              (dev_routes s)
}.

(** What the login and the route table read need of the device: the
    part of [dev_inv] that [__init__] and [getRoutes] depend on. *)
Record dev_session (vr : string) (s : device) : Prop := {
  ses_base : dev_base s = baseurl opts;
  ses_user : dev_user s = USERNAME opts;
  ses_pass : dev_pass s = PASSWORD opts;
  ses_vr : exists v rest, dev_vrs s = v :: rest /\ getitem_key "name" v = Ok (JStr "Global") /\
                          getitem_key "id" v = Ok (JStr vr);
  ses_vr_slash : lacks "/" vr = true
}.
End View.

Lemma inv_session opts vr ifc s : dev_inv opts vr ifc s -> dev_session opts vr s.
Proof. intros []. constructor; assumption. Qed.

(** ** Growing the object store *)

Lemma find_app {A} (f : A -> bool) l l' :
  find f (l ++ l') = match find f l with Some x => Some x | None => find f l' end.
Proof. induction l as [|a l IH]; [reflexivity|]. cbn. destruct (f a); [reflexivity|exact IH]. Qed.

Lemma obj_value_app os new j v : obj_value os j = Some v -> obj_value (os ++ new) j = Some v.
Proof.
  unfold obj_value. rewrite find_app. destruct (find (has_id j) os); [tauto|discriminate].
Qed.

Lemma route_wf_app os new r : route_wf os r -> route_wf (os ++ new) r.
Proof.
  intros ((g & gv & Hg & Hgv) & (m & mv & Hm & Hmv) & Hid).
  split; [|split]; [exists g, gv | exists m, mv | exact Hid]; auto using obj_value_app.
Qed.

Lemma is_backup_app opts os new r : route_wf os r -> is_backup opts (os ++ new) r = is_backup opts os r.
Proof.
  intros ((g & gv & Hg & Hgv) & (m & mv & Hm & Hmv) & _). unfold is_backup. rewrite Hg, Hm.
  rewrite Hgv, Hmv, (obj_value_app _ _ _ _ Hgv), (obj_value_app _ _ _ _ Hmv). reflexivity.
Qed.

Lemma filter_backup_app opts os new rs :
  Forall (route_wf os) rs -> List.filter (is_backup opts (os ++ new)) rs = List.filter (is_backup opts os) rs.
Proof.
  induction 1 as [|r rs Hr _ IH]; [reflexivity|]. cbn. rewrite (is_backup_app _ _ _ _ Hr), IH. reflexivity.
Qed.

Lemma fresh_for_mono pre n m j : (n <= m)%nat -> fresh_for pre n j -> fresh_for pre m j.
Proof. intros Hle Hf k Hk. specialize (Hf k Hk). lia. Qed.

Lemma Forall_fresh_mono pre n m js :
  (n <= m)%nat -> Forall (fresh_for pre n) js -> Forall (fresh_for pre m) js.
Proof. intros Hle. apply List.Forall_impl. intros j. apply fresh_for_mono, Hle. Qed.

Lemma task_fresh_mono n m t : (n <= m)%nat -> task_fresh n t -> task_fresh m t.
Proof. intros Hle Hf k Hk. specialize (Hf k Hk). lia. Qed.

(** The object the device has just stored under [pre ++ pretty n]. *)
Lemma fresh_for_new pre n kv :
  fresh_for pre (S n) (with_id (pre ++ pretty n)%string (JObj kv)).
Proof.
  intros k. unfold has_id, with_id, getitem_key. rewrite dict_get_app_last. cbn [json_eq_str].
  intros Hk. apply String.eqb_eq, fresh_id_inj in Hk. lia.
Qed.

(** No object of the store has the id the device hands out next. *)
(** An id the device handed out before [n]. *)
Lemma fresh_for_id pre n j m :
  getitem_key "id" j = Ok (JStr (pre ++ pretty m)%string) -> (m < n)%nat -> fresh_for pre n j.
Proof.
  intros Hj Hm k Hk. unfold has_id in Hk. rewrite Hj in Hk.
  apply String.eqb_eq in Hk. first [apply fresh_id_inj in Hk|symmetry in Hk; apply fresh_id_inj in Hk]; lia.
Qed.

Lemma find_fresh_none pre n js :
  Forall (fresh_for pre n) js -> find (has_id (pre ++ pretty n)%string) js = None.
Proof.
  induction 1 as [|j js Hj _ IH]; [reflexivity|]. cbn.
  destruct (has_id _ j) eqn:E; [|exact IH]. specialize (Hj n E). lia.
Qed.

Lemma has_name_host N j n st v : has_name N (with_id j (host_data n st v)) = String.eqb n N.
Proof. reflexivity. Qed.

Lemma obj_value_new os j n st v :
  find (has_id j) os = None -> obj_value (os ++ [with_id j (host_data n st v)]) j = Some v.
Proof.
  intros Hn. unfold obj_value. rewrite find_app, Hn. cbn [find].
  replace (has_id j (with_id j (host_data n st v))) with true
    by (symmetry; apply String.eqb_refl). reflexivity.
Qed.

Lemma named_ok_add os j n st v N (P : string -> Prop) :
  find (has_id j) os = None -> named_ok os N P -> (n = N -> P v) ->
  named_ok (os ++ [with_id j (host_data n st v)]) N P.
Proof.
  unfold named_ok. intros Hn Hok HP. rewrite List.filter_app.
  destruct (List.filter (has_name N) os) as [|o rest].
  - cbn [List.filter app]. rewrite has_name_host.
    destruct (String.eqb_spec n N) as [E|_]; [|exact I].
    exists j, v. split; [reflexivity|]. split; [apply obj_value_new, Hn|]. exact (HP E).
  - destruct Hok as (j' & v' & Hi & Hv & Hp). exists j', v'. split; [exact Hi|].
    split; [apply obj_value_app, Hv|exact Hp].
Qed.

Lemma name_id_app os new n j : name_id os n = Some j -> name_id (os ++ new) n = Some j.
Proof.
  unfold name_id. rewrite List.filter_app. destruct (List.filter (has_name n) os); [discriminate|tauto].
Qed.

Lemma name_id_add os j n st v :
  List.filter (has_name n) os = [] -> name_id (os ++ [with_id j (host_data n st v)]) n = Some j.
Proof.
  intros Hn. unfold name_id. rewrite List.filter_app, Hn. cbn [List.filter app].
  rewrite has_name_host, String.eqb_refl. reflexivity.
Qed.

(** ** Steps of the client that only add objects *)

(** [s'] is [s] with more objects, nothing else the client sees
    changed. *)
Record obj_ext (s s' : device) : Prop := {
  ext_objs : exists new, dev_objects s' = dev_objects s ++ new;
  ext_routes : dev_routes s' = dev_routes s;
  ext_tasks : dev_tasks s' = dev_tasks s;
  ext_token : dev_token s' = dev_token s;
  ext_stall : dev_stall s' = dev_stall s;
  ext_locked : dev_locked s' = dev_locked s
}.

Lemma obj_ext_refl s : obj_ext s s.
Proof. constructor; [exists []; symmetry; apply app_nil_r|reflexivity..]. Qed.

Lemma obj_ext_trans s1 s2 s3 : obj_ext s1 s2 -> obj_ext s2 s3 -> obj_ext s1 s3.
Proof.
  intros [(n1 & H1) R1 T1 K1 S1 L1] [(n2 & H2) R2 T2 K2 S2 L2]. constructor; [|congruence..].
  exists (n1 ++ n2). rewrite H2, H1, app_assoc. reflexivity.
Qed.

Lemma obj_ext_add s o : obj_ext s (set_objects (dev_objects s ++ [o]) s).
Proof. constructor; [exists [o]|..]; reflexivity. Qed.

(** The client object [__init__] builds against the device. *)
Definition client (s : device) (vr : string) : FirePower := mk_fp (JStr (dev_token s)) (Some (JStr vr)).

(** ** The invariant under each change the client makes *)

(** Reduce the fields of a device built by one of its setters. *)
Ltac dev_proj := cbn [set_objects set_routes set_tasks dev_base dev_user dev_pass dev_token dev_vrs
  dev_ifaces dev_stall dev_locked dev_objects dev_routes dev_tasks dev_next].

Section Invariant.
Variables (opts : Options) (vr : string) (ifc : json * json).


Lemma Forall_route_wf_app os new rs :
  Forall (route_wf os) rs -> Forall (route_wf (os ++ new)) rs.
Proof. apply List.Forall_impl. intros r. apply route_wf_app. Qed.

Lemma Forall_backup_name_app os new rs :
  Forall (route_wf os) rs ->
  Forall (fun r => has_name "route_BACKUP" r = true -> is_backup opts os r = true) rs ->
  Forall (fun r => has_name "route_BACKUP" r = true -> is_backup opts (os ++ new) r = true) rs.
Proof.
  induction 1 as [|r rs Hr _ IH]; intros Hn; [constructor|]. inversion Hn as [|? ? Hn1 Hn2]; subst.
  constructor; [rewrite is_backup_app by exact Hr; exact Hn1|exact (IH Hn2)].
Qed.

(** Storing a new object named [n] keeps the invariant, when an object
    named like the gateway or the network has the value they need. *)
Lemma inv_add_object s n st v :
  dev_inv opts vr ifc s ->
  (n = gateway_name (GATEWAY opts) -> v = GATEWAY opts) ->
  (n = network_name (ROUTE opts) -> split_first "/" v = split_first "/" (ROUTE opts)) ->
  dev_inv opts vr ifc (set_objects (dev_objects s ++ [with_id (fresh_id "obj" s) (host_data n st v)]) s).
Proof.
  intros Hi Hg Hn. pose proof (find_fresh_none _ _ _ (inv_fresh_obj _ _ _ _ Hi)) as Hnone.
  destruct Hi; constructor; dev_proj; try assumption.
  - apply Forall_route_wf_app; assumption.
  - apply named_ok_add; assumption.
  - apply named_ok_add; assumption.
  - apply Forall_app. split; [apply (Forall_fresh_mono _ (dev_next s)); [lia|assumption]|].
    constructor; [apply fresh_for_new|constructor].
  - apply (Forall_fresh_mono _ (dev_next s)); [lia|assumption].
  - eapply List.Forall_impl; [|eassumption]. intros t. apply task_fresh_mono. lia.
Qed.

(** What [createNetworkObject] leaves behind: an object whose value
    satisfies what the name promises, found by the id it returns. *)
Lemma ensure_object_inv s n st v (P : string -> Prop) :
  dev_inv opts vr ifc s -> named_ok (dev_objects s) n P -> P v ->
  (n = gateway_name (GATEWAY opts) -> v = GATEWAY opts) ->
  (n = network_name (ROUTE opts) -> split_first "/" v = split_first "/" (ROUTE opts)) ->
  exists j s', ensure_object s n st v = Some (j, s') /\ dev_inv opts vr ifc s' /\ obj_ext s s' /\
    (exists x, obj_value (dev_objects s') j = Some x /\ P x) /\
    name_id (dev_objects s') n = Some j /\
    (forall j0, name_id (dev_objects s) n = Some j0 -> j = j0 /\ s' = s).
Proof.
  intros Hi Hok Hv Hg Hn. unfold ensure_object. unfold named_ok in Hok.
  destruct (List.filter (has_name n) (dev_objects s)) as [|o rest] eqn:Hf.
  - do 2 eexists. split; [reflexivity|]. split; [apply inv_add_object; assumption|].
    split; [apply obj_ext_add|]. split; [exists v; split; [|exact Hv]|].
    { apply obj_value_new, find_fresh_none, (inv_fresh_obj _ _ _ _ Hi). }
    split; [apply name_id_add, Hf|]. intros j0 H0. unfold name_id in H0. rewrite Hf in H0. discriminate.
  - destruct Hok as (j & x & Hj & Hx & Hp).
    assert (Hid : name_id (dev_objects s) n = Some j) by (unfold name_id; rewrite Hf, Hj; reflexivity).
    rewrite Hj. do 2 eexists. split; [reflexivity|]. split; [exact Hi|]. split; [apply obj_ext_refl|].
    split; [eauto|]. split; [exact Hid|]. intros j0 H0. rewrite Hid in H0. injection H0 as <-. auto.
Qed.

(** New objects leave the backup routes what they were. *)
Lemma ok_ext s s' : dev_inv opts vr ifc s -> obj_ext s s' -> dev_ok opts s -> dev_ok opts s'.
Proof.
  intros Hi [(new & Ho) Hr _ _ Hs Hl] [Hs0 Hl0 Hsg Hn]. pose proof (inv_routes _ _ _ _ Hi) as Hw.
  constructor; rewrite ?Hs, ?Hl, ?Ho, ?Hr; try assumption.
  - rewrite filter_backup_app by exact Hw. exact Hsg.
  - apply Forall_backup_name_app; assumption.
Qed.
End Invariant.

Lemma Forall_filter_sub {A} (P : A -> Prop) f l : Forall P l -> Forall P (List.filter f l).
Proof. induction 1 as [|x l Hx _ IH]; cbn; [constructor|]. destruct (f x); [constructor|]; assumption. Qed.

Lemma length_filter_filter {A} (f g : A -> bool) l :
  (length (List.filter f (List.filter g l)) <= length (List.filter f l))%nat.
Proof.
  induction l as [|x l IH]; cbn; [lia|].
  destruct (g x), (f x) eqn:E; cbn; rewrite ?E; cbn; lia.
Qed.

Lemma filter_nil_existsb {A} (f : A -> bool) l : existsb f l = false -> List.filter f l = [].
Proof. rewrite existsb_filter. destruct (List.filter f l); [reflexivity|discriminate]. Qed.

Section InvariantRoutes.
Variables (opts : Options) (vr : string) (ifc : json * json).

(** Storing a route entry under a fresh id keeps the invariant. *)
Lemma inv_add_route s kv :
  dev_inv opts vr ifc s ->
  route_wf (dev_objects s) (with_id (fresh_id "route" s) (JObj kv)) ->
  dev_inv opts vr ifc (set_routes (dev_routes s ++ [with_id (fresh_id "route" s) (JObj kv)]) true s).
Proof.
  intros Hi Hwf. destruct Hi; constructor; dev_proj; try assumption.
  - apply Forall_app. split; [assumption|constructor; [exact Hwf|constructor]].
  - apply (Forall_fresh_mono _ (dev_next s)); [lia|assumption].
  - apply Forall_app. split; [apply (Forall_fresh_mono _ (dev_next s)); [lia|assumption]|].
    constructor; [apply fresh_for_new|constructor].
  - eapply List.Forall_impl; [|eassumption]. intros t. apply task_fresh_mono. lia.
Qed.

(** An entry added under an id the device did not hand out (by hand)
    keeps the invariant when it is readable. *)
Lemma inv_add_entry s e :
  dev_inv opts vr ifc s -> route_wf (dev_objects s) e -> fresh_for "route" (dev_next s) e ->
  dev_inv opts vr ifc (set_routes (dev_routes s ++ [e]) false s).
Proof.
  intros Hi Hw Hf. destruct Hi; constructor; dev_proj; try assumption;
    apply Forall_app; (split; [assumption|constructor; [assumption|constructor]]).
Qed.

(** Storing the backup route when there is none keeps the conditions. *)
Lemma ok_add_route s r :
  dev_ok opts s -> existsb (is_backup opts (dev_objects s)) (dev_routes s) = false ->
  is_backup opts (dev_objects s) r = true ->
  dev_ok opts (set_routes (dev_routes s ++ [r]) true s).
Proof.
  intros [Hs Hl _ Hn] Hno Hb. pose proof (filter_nil_existsb _ _ Hno) as Hnil.
  constructor; dev_proj; try assumption.
  - rewrite List.filter_app, Hnil. cbn [List.filter app]. rewrite Hb. cbn. lia.
  - apply Forall_app. split; [assumption|constructor; [intros _; exact Hb|constructor]].
Qed.

(** Deleting the routes with a given id keeps both. *)
Lemma inv_delete s rid :
  dev_inv opts vr ifc s ->
  dev_inv opts vr ifc (set_routes (List.filter (fun r => negb (has_id rid r)) (dev_routes s)) false s).
Proof.
  intros Hi. destruct Hi; constructor; dev_proj; try assumption; apply Forall_filter_sub; assumption.
Qed.

Lemma ok_delete s rid :
  dev_ok opts s -> dev_ok opts (set_routes (List.filter (fun r => negb (has_id rid r)) (dev_routes s)) false s).
Proof.
  intros [Hs Hl Hsg Hn]. constructor; dev_proj; try assumption; [|apply Forall_filter_sub; assumption].
  etransitivity; [apply length_filter_filter|assumption].
Qed.

Lemma inv_sleep n s : dev_inv opts vr ifc s -> dev_inv opts vr ifc (sleep n s).
Proof.
  intros Hi. cbn [sleep device_transport]. destruct (dev_stall s); [exact Hi|].
  destruct Hi; constructor; dev_proj; try assumption.
  apply (Forall_advance (fun x => forall k : nat, x = ("deploy" ++ pretty k)%string -> (k < dev_next s)%nat)).
  assumption.
Qed.

Lemma inv_post_deploy s : dev_inv opts vr ifc s -> dev_inv opts vr ifc (snd (post_deploy s)).
Proof.
  intros Hi. unfold post_deploy. cbn [snd].
  destruct Hi; constructor; dev_proj; try assumption.
  - apply (Forall_fresh_mono _ (dev_next s)); [lia|assumption].
  - apply (Forall_fresh_mono _ (dev_next s)); [lia|assumption].
  - apply Forall_app. split.
    + eapply List.Forall_impl; [|eassumption]. intros t. apply task_fresh_mono. lia.
    + constructor; [|constructor]. intros k Hk. apply fresh_id_inj in Hk. cbn in Hk. lia.
Qed.

Lemma inv_deployed s :
  dev_inv opts vr ifc s -> dev_inv opts vr ifc (sleep 8 (sleep 8 (snd (post_deploy s)))).
Proof. intros Hi. apply inv_sleep, inv_sleep, inv_post_deploy, Hi. Qed.

(** A state with the same routes, objects and modes keeps the conditions. *)
Lemma ok_frame s s' :
  dev_routes s' = dev_routes s -> dev_objects s' = dev_objects s -> dev_stall s' = dev_stall s ->
  dev_locked s' = dev_locked s -> dev_ok opts s -> dev_ok opts s'.
Proof. intros Hr Ho Hs Hl [Hs0 Hl0 Hsg Hn]. constructor; rewrite ?Hr, ?Ho, ?Hs, ?Hl; assumption. Qed.

Lemma ok_deployed s : dev_ok opts s -> dev_ok opts (sleep 8 (sleep 8 (snd (post_deploy s)))).
Proof.
  apply ok_frame; rewrite ?sleep_routes, ?sleep_objects, ?sleep_stall, ?sleep_locked; reflexivity.
Qed.
End InvariantRoutes.

