(* ===== verification/Failover.v ===== *)
(** * Failover: the controller's state machine and its refinement

    Spec 4.6 describes the controller as a two-state machine, PRIMARY
    and FAILOVER, derived on each cycle from the device's route table:
    an unhealthy sample moves PRIMARY to FAILOVER and reports the
    failover, a healthy one moves FAILOVER back to PRIMARY and reports
    the restoration, and in the other two cases nothing happens.
    [spec_cycle] is that machine.  This file proves that
    [Controller.run] (pathmonitor.py 64-81), with [addRoute] and
    [delRoute] of firepower.py underneath, refines it on the reference
    device: from every device state satisfying [dev_inv] and [dev_ok],
    one cycle ends in a state satisfying both again, whose derived
    routing state and whose outcome are the ones [spec_cycle] gives.

    [routing_of] (file [Invariant]) is the abstraction, [dev_inv] and
    [dev_ok] the invariant.  The lemmas [addRoute_posted],
    [addRoute_dev], [delRoute_deleting], [delRoute_dev] and their no-op
    counterparts give the exact device each method leaves, composed
    from [DeviceFacts]; [run_dev_cycle] and [run_dev] put them together
    for one cycle.  The claims follow: the refinement, the properties of
    spec 8 (idempotence, round trip, object reuse), the invariant over
    the states [reachable] by cycles, and what a cycle does on a device
    outside [dev_ok]: with a stalled deployment it never returns
    ([addRoute_stalled]), with the configuration locked it reports a
    partial failure ([delRoute_locked]), with a stale entry named
    route_BACKUP it reports a failover that did not happen
    ([addRoute_stale]), with two backup entries a restoration that did
    not happen ([delRoute_two_backups_dev]), and with a route to a
    network group it raises before any change
    ([doesRouteExist_dangling]).  Two overlapping cycles are composed
    at the point where one of them starts polling its deployment
    ([addRoute_until_polling]): the race of spec 5.  The concrete runs apply them to [dev0], to the
    state after one unhealthy cycle, and to [Reconciler.dev_stale]. *)

From Stdlib Require Import String Ascii ZArith QArith List Lia.
From stdpp Require Import base strings list pretty.
From S2P Require Import Prelude Transport Device Deploy IPv4 Resolver Reconciler Health Controller DeviceFacts Invariant.
Import ListNotations.
Open Scope string_scope.
Open Scope py_scope.
Open Scope list_scope.

(** ** The abstract machine (spec 4.6) *)

(** The report of a cycle (spec 6, exit surface). *)
Inductive outcome : Type := NoopPrimary | NoopFailover | FailedOver | Restored | PartialFailure.

#[export] Instance outcome_eq_dec : EqDecision outcome.
Proof. solve_decision. Defined.

Definition spec_cycle (unhealthy : bool) (r : routing) : routing * outcome :=
  match unhealthy, r with
  | true, PRIMARY => (FAILOVER, FailedOver)
  | true, FAILOVER => (FAILOVER, NoopFailover)
  | false, FAILOVER => (PRIMARY, Restored)
  | false, PRIMARY => (PRIMARY, NoopPrimary)
  end.

(** What a cycle of [run] reports, read off the value its branch got. *)
Definition classify (c : cycle) : outcome :=
  match c with
  | AddPath true => FailedOver
  | AddPath false => NoopFailover
  | DelPath (Some true) => Restored
  | DelPath (Some false) => NoopPrimary
  | DelPath None => PartialFailure
  end.

(** The machine over a sequence of health verdicts. *)
Fixpoint spec_trace (verdicts : list bool) (r : routing) : routing * list outcome :=
  match verdicts with
  | [] => (r, [])
  | v :: vs => let '(r1, o) := spec_cycle v r in
               let '(r2, os) := spec_trace vs r1 in (r2, o :: os)
  end.

(** Monitoring cycles run one after the other by the external scheduler
    (spec 5: one cycle completes before the next begins). *)
Fixpoint run_cycles {D} `{Transport D} (cfg : Pingtest) (opts : Options) (fuel : nat)
    (probes : list probe_outcome) : PyM D (list cycle) :=
  match probes with
  | [] => ret []
  | p :: ps => let* c := run cfg opts fuel p in
               let* cs := run_cycles cfg opts fuel ps in
               ret (c :: cs)
  end.

(** The verdict of [checkMetrics] on the sample of a probe. *)
Definition verdict (cfg : Pingtest) (p : probe_outcome) : bool :=
  match doPing cfg p with Ok (rtt, loss) => checkMetrics cfg rtt loss | _ => false end.

(** ** The client's calls on a device satisfying the invariant *)

Lemma route_refs_built i a b c d e f :
  route_gateway_ref (with_id i (route_json a b c d e f)) = Ok e /\
  route_network_ref (with_id i (route_json a b c d e f)) = Ok c /\
  getitem_key "id" (with_id i (route_json a b c d e f)) = Ok (JStr i) /\
  getitem_key "name" (route_json a b c d e f) = Ok (JStr "route_BACKUP").
Proof. repeat split. Qed.

Lemma network_value_nonempty a v : network_value a = Ok v -> v <> "".
Proof.
  intros H. destruct (network_value_shape a v H) as (p & _ & ->).
  destruct (split_first "/" a); discriminate.
Qed.

Lemma gateway_network_names a b : gateway_name a <> network_name b.
Proof. discriminate. Qed.

Section Client.
Variables (opts : Options) (vr : string) (ifc : json * json) (fw : FirePower).
Hypothesis Hvr : vr_id fw = Ok vr.

Lemma session_global_vr s : dev_session opts vr s -> global_vr s = Some vr.
Proof.
  intros Hs. destruct (ses_vr _ _ _ Hs) as (v & rest & Hv & _ & Hid).
  unfold global_vr. rewrite Hv, Hid. reflexivity.
Qed.

Lemma inv_global_vr s : dev_inv opts vr ifc s -> global_vr s = Some vr.
Proof. intros Hi. apply session_global_vr, (inv_session _ _ _ _ Hi). Qed.

Lemma route_matches_dev s r :
  connected opts fw s -> route_wf (dev_objects s) r ->
  route_matches opts fw r s = (Ok (is_backup opts (dev_objects s) r), s).
Proof.
  intros Hc ((g & gv & Hg & Hgv) & (m & mv & Hm & Hmv) & _).
  unfold route_matches, bind, lift. rewrite Hg. cbv beta iota.
  rewrite (getNetworkObject_value opts fw s g gv Hc Hgv), Hm. cbv beta iota.
  rewrite (getNetworkObject_value opts fw s m mv Hc Hmv).
  unfold is_backup. rewrite Hg, Hm, Hgv, Hmv. reflexivity.
Qed.

Lemma find_route_dev s rs :
  connected opts fw s -> Forall (route_wf (dev_objects s)) rs ->
  find_route opts fw rs s = (Ok (find (is_backup opts (dev_objects s)) rs), s).
Proof.
  intros Hc. induction 1 as [|r rs Hr _ IH]; [reflexivity|].
  cbn [find_route find]. unfold bind at 1. rewrite (route_matches_dev s r Hc Hr).
  destruct (is_backup opts (dev_objects s) r); [reflexivity|exact IH].
Qed.

(** An entry whose first destination is not a network object (a
    network group, say) makes the lookup of the loop raise [TypeError]. *)
Lemma route_matches_dangling s r g gv m :
  connected opts fw s -> route_gateway_ref r = Ok (JStr g) -> obj_value (dev_objects s) g = Some gv ->
  route_network_ref r = Ok (JStr m) -> find (has_id m) (dev_objects s) = None ->
  route_matches opts fw r s = (Raise TypeError, s).
Proof.
  intros Hc Hg Hgv Hm Hmn. unfold route_matches, bind, lift. rewrite Hg. cbv beta iota.
  rewrite (getNetworkObject_value opts fw s g gv Hc Hgv), Hm. cbv beta iota.
  rewrite (getNetworkObject_missing opts fw s m Hc Hmn). reflexivity.
Qed.

(** Readable entries that do not match are passed over. *)
Lemma find_route_skip s pre rs :
  connected opts fw s -> Forall (route_wf (dev_objects s)) pre ->
  Forall (fun q => is_backup opts (dev_objects s) q = false) pre ->
  find_route opts fw (pre ++ rs) s = find_route opts fw rs s.
Proof.
  intros Hc Hw. induction Hw as [|q pre Hq _ IH]; intros Hn; [reflexivity|].
  apply Forall_cons_iff in Hn as [Hq' Hn].
  cbn [app find_route]. unfold bind at 1. rewrite (route_matches_dev s q Hc Hq), Hq'. exact (IH Hn).
Qed.

(** [doesRouteExist] reads the table and runs its loop over it. *)
Lemma doesRouteExist_table s :
  dev_session opts vr s -> connected opts fw s ->
  doesRouteExist opts fw s = find_route opts fw (dev_routes s) s.
Proof.
  intros Hs Hc. unfold doesRouteExist, getRoutes, bind, lift. rewrite Hvr. cbv beta iota.
  rewrite (getData_dev opts fw s _ Hc).
  rewrite (get_path_routes s vr (session_global_vr s Hs) (ses_vr_slash _ _ _ Hs)).
  cbn [get_body ok status_code resp_text Z.eqb Pos.eqb loads rbind items getitem_key dict_get fold_left
       String.eqb Ascii.eqb Bool.eqb andb].
  destruct (dev_routes s) as [|r rs]; reflexivity.
Qed.

(** [doesRouteExist] returns the first backup route of the table. *)
Lemma doesRouteExist_dev s :
  dev_inv opts vr ifc s -> connected opts fw s ->
  doesRouteExist opts fw s = (Ok (find (is_backup opts (dev_objects s)) (dev_routes s)), s).
Proof.
  intros Hi Hc. rewrite (doesRouteExist_table s (inv_session _ _ _ _ Hi) Hc).
  exact (find_route_dev s _ Hc (inv_routes _ _ _ _ Hi)).
Qed.

(** A dangling destination reached before any backup route makes
    [doesRouteExist] raise [TypeError]. *)
Lemma doesRouteExist_dangling s pre r post g gv m :
  dev_session opts vr s -> connected opts fw s -> dev_routes s = pre ++ r :: post ->
  Forall (route_wf (dev_objects s)) pre -> Forall (fun q => is_backup opts (dev_objects s) q = false) pre ->
  route_gateway_ref r = Ok (JStr g) -> obj_value (dev_objects s) g = Some gv ->
  route_network_ref r = Ok (JStr m) -> find (has_id m) (dev_objects s) = None ->
  doesRouteExist opts fw s = (Raise TypeError, s).
Proof.
  intros Hs Hc Hr Hw Hn Hg Hgv Hm Hmn.
  rewrite (doesRouteExist_table s Hs Hc), Hr, (find_route_skip s pre _ Hc Hw Hn).
  cbn [find_route]. unfold bind at 1. rewrite (route_matches_dangling s r g gv m Hc Hg Hgv Hm Hmn). reflexivity.
Qed.
End Client.

Section Build.
Variables (opts : Options) (vr : string) (ifc : json * json) (fw : FirePower) (nv : string).
Hypothesis Hvr : vr_id fw = Ok vr.
Hypothesis HG : GATEWAY opts <> "".
Hypothesis HR : network_value (ROUTE opts) = Ok nv.

Lemma getFailoverInterface_dev s :
  dev_inv opts vr ifc s -> connected opts fw s ->
  getFailoverInterface opts fw (FO_INTERFACE opts) s = (Ok (Some ifc), s).
Proof.
  intros Hi Hc. unfold getFailoverInterface, bind, lift.
  rewrite (getData_dev opts fw s _ Hc), get_path_interfaces. cbn -[find_iface].
  exact (f_equal (fun r => (r, s)) (inv_iface _ _ _ _ Hi)).
Qed.

Lemma built_route_name os rd :
  built_route opts ifc os = Some rd -> getitem_key "name" rd = Ok (JStr "route_BACKUP").
Proof.
  unfold built_route.
  destruct (name_id os (network_name (ROUTE opts))), (name_id os (gateway_name (GATEWAY opts)));
    try discriminate.
  intros H. injection H as <-. reflexivity.
Qed.

(** [createRouteObject] on the device: it resolves the two objects,
    reusing those named like them, keeps the invariant, and returns the
    entry [built_route] reads off the new object store, which, stored
    under any id, is a backup route.  When both objects exist already,
    it changes nothing. *)
Lemma createRouteObject_dev s :
  dev_inv opts vr ifc s -> connected opts fw s ->
  exists rd s', createRouteObject opts fw s = (Ok rd, s') /\ dev_inv opts vr ifc s' /\ obj_ext s s' /\
    built_route opts ifc (dev_objects s') = Some rd /\
    (forall i, route_wf (dev_objects s') (with_id i rd) /\
               is_backup opts (dev_objects s') (with_id i rd) = true) /\
    (built_route opts ifc (dev_objects s) <> None -> s' = s).
Proof.
  intros Hi Hc. unfold createRouteObject, createNetwork, createGateway, bind, ret, lift.
  rewrite (getFailoverInterface_dev s Hi Hc), HR. cbv beta iota zeta.
  destruct (ensure_object_inv opts vr ifc s (network_name (ROUTE opts)) "NETWORK" nv _ Hi
              (inv_net _ _ _ _ Hi) (network_value_address _ _ HR)
              (fun E => False_ind _ (gateway_network_names _ _ (eq_sym E))) (fun _ => network_value_address _ _ HR))
    as (nid & s1 & He1 & Hi1 & Hx1 & (x1 & Hv1 & Hp1) & Hn1 & Hs1).
  rewrite (createNetworkObject_dev opts fw s _ _ _ _ _ Hc (network_value_nonempty _ _ HR) He1).
  assert (Hc1 : connected opts fw s1)
    by (destruct Hc; split; [apply (inv_base _ _ _ _ Hi1)|rewrite (ext_token _ _ Hx1); assumption]).
  cbv beta iota.
  destruct (ensure_object_inv opts vr ifc s1 (gateway_name (GATEWAY opts)) "HOST" (GATEWAY opts)
              (fun v => v = GATEWAY opts) Hi1 (inv_gw _ _ _ _ Hi1) eq_refl (fun _ => eq_refl)
              (fun E => False_ind _ (gateway_network_names _ _ E)))
    as (gid & s2 & He2 & Hi2 & Hx2 & (x2 & Hv2 & ->) & Hn2 & Hs2).
  rewrite (createNetworkObject_dev opts fw s1 _ _ _ _ _ Hc1 HG He2).
  destruct (ext_objs _ _ Hx2) as (new & Hnew).
  do 2 eexists. split; [reflexivity|]. split; [exact Hi2|]. split; [exact (obj_ext_trans _ _ _ Hx1 Hx2)|].
  cbn [fst snd]. split; [unfold built_route; rewrite Hn2, Hnew, (name_id_app _ _ _ _ Hn1); reflexivity|].
  split.
  - intros i.
    destruct (route_refs_built i (fst ifc) (snd ifc) (JStr nid) (network_name (ROUTE opts)) (JStr gid)
                (gateway_name (GATEWAY opts))) as (Hg & Hn & Hid & _).
    pose proof (obj_value_app _ new _ _ Hv1) as Hv1'. rewrite <- Hnew in Hv1'.
    split; [split; [exists gid, (GATEWAY opts)|split; [exists nid, x1|exists i]]; auto|].
    unfold is_backup. rewrite Hg, Hn, Hv2, Hv1', String.eqb_refl, Hp1, String.eqb_refl. reflexivity.
  - unfold built_route. intros Hb.
    destruct (name_id (dev_objects s) (network_name (ROUTE opts))) as [j1|] eqn:E1; [|contradiction].
    destruct (name_id (dev_objects s) (gateway_name (GATEWAY opts))) as [j2|] eqn:E2; [|contradiction].
    destruct (Hs1 j1 eq_refl) as [_ ->]. destruct (Hs2 j2 E2) as [_ ->]. reflexivity.
Qed.
End Build.

(** ** [addRoute] and [delRoute] on the device *)

(** The device after a deployment has run to DEPLOYED (two polls). *)
Definition deployed (s : device) : device := sleep 8 (sleep 8 (snd (post_deploy s))).

(** The device after it stored [rd] as a new route entry. *)
Definition stored_route (s : device) (rd : json) : device :=
  set_routes (dev_routes s ++ [with_id (fresh_id "route" s) rd]) true s.

(** The device after the DELETE of the route entries with id [rid]. *)
Definition deleted_route (s : device) (rid : string) : device :=
  set_routes (List.filter (fun r => negb (has_id rid r)) (dev_routes s)) false s.

Lemma deployed_routes s : dev_routes (deployed s) = dev_routes s.
Proof. unfold deployed. rewrite !sleep_routes. reflexivity. Qed.

Lemma deployed_objects s : dev_objects (deployed s) = dev_objects s.
Proof. unfold deployed. rewrite !sleep_objects. reflexivity. Qed.

Lemma deployed_token s : dev_token (deployed s) = dev_token s.
Proof. unfold deployed. rewrite !sleep_token. reflexivity. Qed.

Lemma routing_of_deployed opts s : routing_of opts (deployed s) = routing_of opts s.
Proof. unfold routing_of. rewrite deployed_routes, deployed_objects. reflexivity. Qed.

Lemma routing_of_stored opts s rd :
  is_backup opts (dev_objects s) (with_id (fresh_id "route" s) rd) = true ->
  routing_of opts (deployed (stored_route s rd)) = FAILOVER.
Proof.
  intros Hb. rewrite routing_of_deployed. unfold routing_of, stored_route. dev_proj.
  rewrite existsb_app. cbn [existsb]. rewrite Hb, orb_true_r. reflexivity.
Qed.

Lemma tasks_fresh_neq n ts :
  Forall (task_fresh n) ts -> Forall (fun t => task_id t <> ("deploy" ++ pretty n)%string) ts.
Proof. apply List.Forall_impl. intros t Ht E. specialize (Ht n E). lia. Qed.

Lemma truthy_getitem k r v : getitem_key k r = Ok v -> truthy r = true.
Proof. destruct r as [| | | | |[|kv l]]; try discriminate. reflexivity. Qed.

Lemma has_id_getitem rid r : getitem_key "id" r = Ok (JStr rid) -> has_id rid r = true.
Proof. intros H. unfold has_id. rewrite H. apply String.eqb_refl. Qed.

Lemma has_id_other rid i r : getitem_key "id" r = Ok (JStr i) -> i <> rid -> has_id rid r = false.
Proof. intros H Hne. unfold has_id. rewrite H. apply not_true_is_false. intros E%json_eq_str_spec. congruence. Qed.

(** Only one entry is selected by [f]: removing it leaves none. *)
Lemma existsb_filter_single {A} (f g : A -> bool) l x :
  (length (List.filter f l) <= 1)%nat -> In x l -> f x = true -> g x = false ->
  existsb f (List.filter g l) = false.
Proof.
  intros Hl Hx Hf Hg. apply not_true_is_false. intros H.
  apply existsb_exists in H as (y & Hy & Hfy). apply filter_In in Hy as [Hy Hgy].
  assert (Hx' : In x (List.filter f l)) by (apply filter_In; auto).
  assert (Hy' : In y (List.filter f l)) by (apply filter_In; auto).
  destruct (List.filter f l) as [|a [|b rest]]; cbn in *; [contradiction| |lia].
  destruct Hx' as [<-|[]], Hy' as [<-|[]]. congruence.
Qed.

Lemma find_existsb_false {A} (f : A -> bool) l : existsb f l = false -> find f l = None.
Proof. induction l as [|a l IH]; cbn; [reflexivity|]. destruct (f a); [discriminate|exact IH]. Qed.

Lemma existsb_name_backup n f rs :
  Forall (fun r => has_name n r = true -> f r = true) rs -> existsb f rs = false ->
  existsb (has_name n) rs = false.
Proof.
  induction 1 as [|r rs Hr _ IH]; cbn; [reflexivity|]. intros H.
  apply orb_false_iff in H as [H1 H2]. rewrite (IH H2), orb_false_r.
  destruct (has_name n r); [|reflexivity]. rewrite (Hr eq_refl) in H1. discriminate.
Qed.

Lemma built_route_obj opts ifc os rd : built_route opts ifc os = Some rd -> exists kv, rd = JObj kv.
Proof.
  unfold built_route.
  destruct (name_id os (network_name (ROUTE opts))), (name_id os (gateway_name (GATEWAY opts)));
    try discriminate.
  intros H. injection H as <-. eexists. reflexivity.
Qed.

Lemma post_route_token s r : dev_token (snd (post_route s r)) = dev_token s.
Proof. unfold post_route. destruct (existsb _ _); reflexivity. Qed.

Lemma post_route_stall s r : dev_stall (snd (post_route s r)) = dev_stall s.
Proof. unfold post_route. destruct (existsb _ _); reflexivity. Qed.

(** Whatever the device answers to the POST of a route, the invariant holds. *)
Lemma post_route_inv opts vr ifc s kv :
  dev_inv opts vr ifc s -> route_wf (dev_objects s) (with_id (fresh_id "route" s) (JObj kv)) ->
  dev_inv opts vr ifc (snd (post_route s (JObj kv))).
Proof. intros Hi Hw. unfold post_route. destruct (existsb _ _); [exact Hi|apply inv_add_route; assumption]. Qed.

Section Reconcile.
Variables (opts : Options) (vr : string) (ifc : json * json) (fw : FirePower) (nv tok : string).
Hypothesis Hvr : vr_id fw = Ok vr.
Hypothesis Htok : token fw = JStr tok.

Lemma connected_inv s : dev_inv opts vr ifc s -> dev_token s = tok -> connected opts fw s.
Proof. intros Hi Ht. split; [apply (inv_base _ _ _ _ Hi)|rewrite Htok, Ht; reflexivity]. Qed.

Lemma deployPolicy_inv s fuel :
  dev_inv opts vr ifc s -> dev_token s = tok -> dev_stall s = false -> (2 <= fuel)%nat ->
  deployPolicy opts fuel fw s = (Ok true, deployed s).
Proof.
  intros Hi Ht Hs Hf. apply deployPolicy_dev; [apply connected_inv; assumption|exact Hs| |exact Hf].
  apply tasks_fresh_neq, (inv_fresh_task _ _ _ _ Hi).
Qed.

(** In the failover state, [addRoute] is a no-op returning [False]. *)
Lemma addRoute_dev_noop s fuel :
  dev_inv opts vr ifc s -> dev_token s = tok -> routing_of opts s = FAILOVER ->
  addRoute opts fuel fw s = (Ok false, s).
Proof.
  intros Hi Ht Hr. unfold addRoute, bind at 1.
  rewrite (doesRouteExist_dev opts vr ifc fw Hvr s Hi (connected_inv s Hi Ht)).
  unfold routing_of in Hr. destruct (existsb _ _) eqn:E; [|discriminate].
  apply existsb_exists in E as (r0 & Hin & Hb).
  destruct (find (is_backup opts (dev_objects s)) (dev_routes s)) as [r|] eqn:Hf.
  - apply find_some in Hf as [Hr' _].
    destruct (proj1 (List.Forall_forall _ _) (inv_routes _ _ _ _ Hi) r Hr') as (_ & _ & rid & Hid).
    rewrite (truthy_getitem _ _ _ Hid). reflexivity.
  - exfalso. pose proof (find_none _ _ Hf r0 Hin). congruence.
Qed.
(** Whatever the polls see and however long the loop runs, the device
    it leaves satisfies the invariant. *)
Lemma deploy_loop_inv_any fuel i s :
  dev_inv opts vr ifc s -> dev_token s = tok ->
  dev_inv opts vr ifc (snd (deploy_loop opts fuel fw i s)) /\ dev_token (snd (deploy_loop opts fuel fw i s)) = tok.
Proof.
  revert s. induction fuel as [|fuel IH]; intros s Hi Ht; [split; assumption|].
  rewrite deploy_loop_S, (poll_dev opts fw i s (connected_inv s Hi Ht)).
  assert (Hi1 : dev_inv opts vr ifc (sleep 8 s)) by (apply inv_sleep, Hi).
  assert (Ht1 : dev_token (sleep 8 s) = tok) by (rewrite sleep_token; exact Ht).
  destruct (existsb _ _); [split; assumption|apply IH; assumption].
Qed.

Lemma deployPolicy_inv_any s fuel :
  dev_inv opts vr ifc s -> dev_token s = tok ->
  dev_inv opts vr ifc (snd (deployPolicy opts fuel fw s)) /\ dev_token (snd (deployPolicy opts fuel fw s)) = tok.
Proof.
  intros Hi Ht.
  rewrite (deployPolicy_submitted opts fuel fw s (JObj [("id", JStr (fresh_id "deploy" s))])
             (snd (post_deploy s)) (fresh_id "deploy" s)).
  - apply deploy_loop_inv_any; [apply inv_post_deploy, Hi|exact Ht].
  - rewrite (postData_dev opts fw s _ _ (connected_inv s Hi Ht)) by reflexivity. reflexivity.
  - reflexivity.
Qed.

Lemma delete_path_inv s p :
  dev_inv opts vr ifc s ->
  dev_inv opts vr ifc (snd (delete_path s vr p)) /\ dev_token (snd (delete_path s vr p)) = dev_token s.
Proof.
  intros Hi. unfold delete_path. destruct (dev_locked s); [split; [exact Hi|reflexivity]|].
  destruct (strip_prefix _ p) as [rid|]; [|split; [exact Hi|reflexivity]].
  destruct (existsb _ _); split; try reflexivity; [apply inv_delete|]; exact Hi.
Qed.

Section Add.
Hypothesis HG : GATEWAY opts <> "".
Hypothesis HR : network_value (ROUTE opts) = Ok nv.

(** In the primary state, [addRoute] builds the route (reusing objects
    named like its two objects), POSTs it, ignores the answer, and
    deploys from the device the POST left. *)
Lemma addRoute_posted s fuel :
  dev_inv opts vr ifc s -> dev_token s = tok -> routing_of opts s = PRIMARY ->
  exists rd s1, built_route opts ifc (dev_objects s1) = Some rd /\ obj_ext s s1 /\
    (built_route opts ifc (dev_objects s) <> None -> s1 = s) /\
    dev_inv opts vr ifc s1 /\ existsb (is_backup opts (dev_objects s1)) (dev_routes s1) = false /\
    route_wf (dev_objects s1) (with_id (fresh_id "route" s1) rd) /\
    is_backup opts (dev_objects s1) (with_id (fresh_id "route" s1) rd) = true /\
    getitem_key "name" rd = Ok (JStr "route_BACKUP") /\
    addRoute opts fuel fw s = deployPolicy opts fuel fw (snd (post_route s1 rd)).
Proof.
  intros Hi Ht Hr. pose proof (connected_inv s Hi Ht) as Hc.
  destruct (createRouteObject_dev opts vr ifc fw nv HG HR s Hi Hc)
    as (rd & s1 & Hcr & Hi1 & Hx1 & Hb1 & Hwf & Hsame).
  destruct (Hwf (fresh_id "route" s1)) as [Hw Hbk].
  assert (Hno0 : existsb (is_backup opts (dev_objects s)) (dev_routes s) = false)
    by (unfold routing_of in Hr; destruct (existsb _ _); [discriminate|reflexivity]).
  assert (Hno : existsb (is_backup opts (dev_objects s1)) (dev_routes s1) = false).
  { destruct (ext_objs _ _ Hx1) as (new & Hnew). rewrite Hnew, (ext_routes _ _ Hx1).
    rewrite existsb_filter, (filter_backup_app _ _ _ _ (inv_routes _ _ _ _ Hi)), <- existsb_filter.
    exact Hno0. }
  assert (Ht1 : dev_token s1 = tok) by (rewrite (ext_token _ _ Hx1); exact Ht).
  exists rd, s1. do 7 (split; [assumption|]). split; [eapply built_route_name; exact Hb1|].
  unfold addRoute, bind at 1.
  rewrite (doesRouteExist_dev opts vr ifc fw Hvr s Hi Hc), (find_existsb_false _ _ Hno0).
  cbv beta iota. unfold bind at 1. rewrite Hcr. unfold bind at 1, lift at 1. rewrite Hvr.
  cbv beta iota. unfold bind at 1.
  rewrite (postData_dev opts fw s1 _ _ (connected_inv s1 Hi1 Ht1)) by reflexivity.
  rewrite (post_path_route s1 vr rd (inv_global_vr opts vr ifc s1 Hi1)). reflexivity.
Qed.

(** When no entry of the table is named like the backup route, the
    POST stores it: [addRoute] returns [True] once the deployment is
    done, and the device holds the backup route. *)
Lemma addRoute_dev s fuel :
  dev_inv opts vr ifc s -> dev_ok opts s -> dev_token s = tok -> routing_of opts s = PRIMARY -> (2 <= fuel)%nat ->
  exists rd s1, built_route opts ifc (dev_objects s1) = Some rd /\ obj_ext s s1 /\
    (built_route opts ifc (dev_objects s) <> None -> s1 = s) /\
    dev_inv opts vr ifc s1 /\ existsb (is_backup opts (dev_objects s1)) (dev_routes s1) = false /\
    is_backup opts (dev_objects s1) (with_id (fresh_id "route" s1) rd) = true /\
    dev_inv opts vr ifc (deployed (stored_route s1 rd)) /\ dev_ok opts (deployed (stored_route s1 rd)) /\
    addRoute opts fuel fw s = (Ok true, deployed (stored_route s1 rd)).
Proof.
  intros Hi Ho Ht Hr Hf.
  destruct (addRoute_posted s fuel Hi Ht Hr) as (rd & s1 & Hb1 & Hx1 & Hsame & Hi1 & Hno & Hw & Hbk & Hname & Hadd).
  destruct (built_route_obj _ _ _ _ Hb1) as (kv & Hkv).
  assert (Hi2 : dev_inv opts vr ifc (stored_route s1 rd)) by (subst rd; apply inv_add_route; assumption).
  pose proof (ok_ext opts vr ifc s s1 Hi Hx1 Ho) as Ho1.
  assert (Ho2 : dev_ok opts (stored_route s1 rd)) by (apply ok_add_route; assumption).
  exists rd, s1. do 6 (split; [assumption|]).
  split; [apply inv_deployed, Hi2|]. split; [apply ok_deployed, Ho2|].
  rewrite Hadd. unfold post_route. rewrite Hname.
  rewrite (existsb_name_backup _ _ _ (ok_name _ _ Ho1) Hno). cbv beta iota zeta. cbn [snd].
  apply (deployPolicy_inv (stored_route s1 rd)); [exact Hi2| |apply (ok_stall _ _ Ho2)|exact Hf].
  exact (eq_trans (ext_token _ _ Hx1) Ht).
Qed.

(** In the primary state, [addRoute] stores the backup route, submits
    its deployment and starts polling: everything before the polling
    loop takes the device to [snd (post_deploy s2)], where [s2] holds the
    backup route. *)
Lemma addRoute_until_polling s fuel :
  dev_inv opts vr ifc s -> dev_ok opts s -> dev_token s = tok -> routing_of opts s = PRIMARY ->
  exists s2, dev_inv opts vr ifc s2 /\ dev_ok opts s2 /\ routing_of opts s2 = FAILOVER /\ dev_token s2 = tok /\
    addRoute opts fuel fw s = deploy_loop opts fuel fw (fresh_id "deploy" s2) (snd (post_deploy s2)).
Proof.
  intros Hi Ho Ht Hr.
  destruct (addRoute_posted s fuel Hi Ht Hr) as (rd & s1 & Hb1 & Hx1 & _ & Hi1 & Hno & Hw & Hbk & Hname & Hadd).
  destruct (built_route_obj _ _ _ _ Hb1) as (kv & Hkv).
  pose proof (ok_ext opts vr ifc s s1 Hi Hx1 Ho) as Ho1.
  assert (Ht2 : dev_token (stored_route s1 rd) = tok) by exact (eq_trans (ext_token _ _ Hx1) Ht).
  assert (Hi2 : dev_inv opts vr ifc (stored_route s1 rd)) by (subst rd; apply inv_add_route; assumption).
  exists (stored_route s1 rd). split; [exact Hi2|]. split; [apply ok_add_route; assumption|].
  split; [rewrite <- routing_of_deployed; apply routing_of_stored, Hbk|]. split; [exact Ht2|].
  rewrite Hadd. unfold post_route. rewrite Hname, (existsb_name_backup _ _ _ (ok_name _ _ Ho1) Hno).
  cbv beta iota zeta. cbn [snd].
  apply (deployPolicy_submitted opts fuel fw _ (JObj [("id", JStr (fresh_id "deploy" (stored_route s1 rd)))])).
  - rewrite (postData_dev opts fw _ _ _ (connected_inv _ Hi2 Ht2)) by reflexivity. reflexivity.
  - reflexivity.
Qed.

(** On a stalled device, [addRoute] in the primary state never returns:
    the route is posted and the deployment it starts stays QUEUED. *)
Lemma addRoute_stalled s fuel :
  dev_inv opts vr ifc s -> dev_token s = tok -> dev_stall s = true -> routing_of opts s = PRIMARY ->
  fst (addRoute opts fuel fw s) = Stuck.
Proof.
  intros Hi Ht Hs Hr.
  destruct (addRoute_posted s fuel Hi Ht Hr) as (rd & s1 & Hb1 & Hx1 & _ & Hi1 & _ & Hw & _ & _ & ->).
  destruct (built_route_obj _ _ _ _ Hb1) as (kv & ->).
  pose proof (post_route_inv opts vr ifc s1 kv Hi1 Hw) as Hi2.
  apply deployPolicy_stalled.
  - apply connected_inv; [exact Hi2|]. rewrite post_route_token, (ext_token _ _ Hx1). exact Ht.
  - rewrite post_route_stall, (ext_stall _ _ Hx1). exact Hs.
  - apply tasks_fresh_neq, (inv_fresh_task _ _ _ _ Hi2).
Qed.

(** When an entry of the table carries the backup route's name without
    being the backup route, the device refuses the POST (422, duplicate
    name); [addRoute] ignores the answer, deploys, and returns [True]
    with still no backup route on the device. *)
Lemma addRoute_stale s fuel :
  dev_inv opts vr ifc s -> dev_token s = tok -> dev_stall s = false -> routing_of opts s = PRIMARY ->
  existsb (has_name "route_BACKUP") (dev_routes s) = true -> (2 <= fuel)%nat ->
  exists s1, obj_ext s s1 /\ routing_of opts s1 = PRIMARY /\ dev_inv opts vr ifc s1 /\
    addRoute opts fuel fw s = (Ok true, deployed s1).
Proof.
  intros Hi Ht Hs Hr Hn Hf.
  destruct (addRoute_posted s fuel Hi Ht Hr) as (rd & s1 & _ & Hx1 & _ & Hi1 & Hno & _ & _ & Hname & ->).
  exists s1. split; [exact Hx1|]. split; [unfold routing_of; rewrite Hno; reflexivity|].
  split; [exact Hi1|].
  unfold post_route. rewrite Hname. cbv beta iota. rewrite (ext_routes _ _ Hx1), Hn. cbn [snd].
  apply deployPolicy_inv; [exact Hi1|rewrite (ext_token _ _ Hx1); exact Ht|rewrite (ext_stall _ _ Hx1); exact Hs|exact Hf].
Qed.
(** Whatever the device answers, [addRoute] leaves it satisfying the
    invariant. *)
Lemma addRoute_inv_any s fuel :
  dev_inv opts vr ifc s -> dev_token s = tok -> dev_inv opts vr ifc (snd (addRoute opts fuel fw s)).
Proof.
  intros Hi Ht. destruct (routing_of opts s) eqn:Hr.
  - destruct (addRoute_posted s fuel Hi Ht Hr) as (rd & s1 & Hb1 & Hx1 & _ & Hi1 & _ & Hw & _ & _ & ->).
    destruct (built_route_obj _ _ _ _ Hb1) as (kv & ->).
    eapply proj1, deployPolicy_inv_any; [apply post_route_inv; assumption|].
    rewrite post_route_token, (ext_token _ _ Hx1). exact Ht.
  - rewrite (addRoute_dev_noop s fuel Hi Ht Hr). exact Hi.
Qed.
End Add.

(** In the primary state, [delRoute] is a no-op returning [False]. *)
Lemma delRoute_dev_noop s fuel :
  dev_inv opts vr ifc s -> dev_token s = tok -> routing_of opts s = PRIMARY ->
  delRoute opts fuel fw s = (Ok (Some false), s).
Proof.
  intros Hi Ht Hr. unfold delRoute, bind at 1.
  rewrite (doesRouteExist_dev opts vr ifc fw Hvr s Hi (connected_inv s Hi Ht)).
  unfold routing_of in Hr. destruct (existsb _ _) eqn:E; [discriminate|].
  rewrite (find_existsb_false _ _ E). reflexivity.
Qed.

(** In the failover state, [delRoute] finds the backup route and sends
    the DELETE of its id; what follows depends on the answer. *)
Lemma delRoute_deleting s fuel :
  dev_inv opts vr ifc s -> dev_token s = tok -> routing_of opts s = FAILOVER ->
  exists r rid, find (is_backup opts (dev_objects s)) (dev_routes s) = Some r /\
    getitem_key "id" r = Ok (JStr rid) /\
    delRoute opts fuel fw s =
      (if Z.eqb (status_code (fst (delete_path s vr (route_entry_url vr rid)))) 204
       then bind (deployPolicy opts fuel fw) (fun ok => ret (Some ok)) else ret None)
      (snd (delete_path s vr (route_entry_url vr rid))).
Proof.
  intros Hi Ht Hr. pose proof (connected_inv s Hi Ht) as Hc.
  unfold routing_of in Hr. destruct (existsb _ _) eqn:E; [|discriminate].
  apply existsb_exists in E as (r0 & Hin0 & Hb0).
  destruct (find (is_backup opts (dev_objects s)) (dev_routes s)) as [r|] eqn:Hfind;
    [|exfalso; pose proof (find_none _ _ Hfind r0 Hin0); congruence].
  pose proof (find_some _ _ Hfind) as [Hin Hb].
  destruct (proj1 (List.Forall_forall _ _) (inv_routes _ _ _ _ Hi) r Hin) as (_ & _ & rid & Hid).
  exists r, rid. split; [reflexivity|]. split; [exact Hid|].
  unfold delRoute, bind at 1. rewrite (doesRouteExist_dev opts vr ifc fw Hvr s Hi Hc), Hfind.
  cbv beta iota. unfold bind at 1, lift at 1. rewrite Hvr. cbv beta iota.
  unfold bind at 1, lift at 1. rewrite Hid. cbn [rbind as_str]. cbv beta iota. unfold bind at 1.
  rewrite (deleteData_dev opts fw s vr _ Hc (inv_global_vr opts vr ifc s Hi)). reflexivity.
Qed.

(** When the device accepts the DELETE of an entry it holds, the rest of
    [delRoute] deploys and returns [True]. *)
Lemma delete_accepted s fuel r rid :
  dev_inv opts vr ifc s -> dev_token s = tok -> dev_stall s = false -> dev_locked s = false ->
  (2 <= fuel)%nat -> In r (dev_routes s) -> getitem_key "id" r = Ok (JStr rid) ->
  (if Z.eqb (status_code (fst (delete_path s vr (route_entry_url vr rid)))) 204
   then bind (deployPolicy opts fuel fw) (fun ok => ret (Some ok)) else ret None)
    (snd (delete_path s vr (route_entry_url vr rid))) = (Ok (Some true), deployed (deleted_route s rid)).
Proof.
  intros Hi Ht Hs Hl Hf Hin Hid. rewrite (delete_path_route s vr rid Hl).
  replace (existsb (has_id rid) (dev_routes s)) with true
    by (symmetry; apply existsb_exists; exists r; split; [exact Hin|apply has_id_getitem, Hid]).
  cbn [fst snd status_code Z.eqb Pos.eqb]. unfold bind.
  rewrite (deployPolicy_inv (deleted_route s rid)); [reflexivity|apply inv_delete, Hi|exact Ht|exact Hs|exact Hf].
Qed.

(** When the DELETE succeeds, [delRoute] deletes the backup route (every
    entry with its id), deploys, and returns [True]; the device is back
    in the primary state. *)
Lemma delRoute_dev s fuel :
  dev_inv opts vr ifc s -> dev_ok opts s -> dev_token s = tok -> routing_of opts s = FAILOVER -> (2 <= fuel)%nat ->
  exists r rid, find (is_backup opts (dev_objects s)) (dev_routes s) = Some r /\
    getitem_key "id" r = Ok (JStr rid) /\
    dev_inv opts vr ifc (deployed (deleted_route s rid)) /\ dev_ok opts (deployed (deleted_route s rid)) /\
    routing_of opts (deployed (deleted_route s rid)) = PRIMARY /\
    delRoute opts fuel fw s = (Ok (Some true), deployed (deleted_route s rid)).
Proof.
  intros Hi Ho Ht Hr Hf.
  destruct (delRoute_deleting s fuel Hi Ht Hr) as (r & rid & Hfind & Hid & Hdel).
  pose proof (find_some _ _ Hfind) as [Hin Hb].
  pose proof (inv_delete _ _ _ s rid Hi) as Hi1. pose proof (ok_delete _ s rid Ho) as Ho1.
  exists r, rid. split; [exact Hfind|]. split; [exact Hid|]. split; [apply inv_deployed, Hi1|].
  split; [apply ok_deployed, Ho1|].
  split.
  - rewrite routing_of_deployed. unfold routing_of, deleted_route. dev_proj.
    rewrite (existsb_filter_single _ _ _ r (ok_single _ _ Ho) Hin Hb)
      by (rewrite (has_id_getitem _ _ Hid); reflexivity).
    reflexivity.
  - rewrite Hdel. apply (delete_accepted s fuel r); try assumption; [apply (ok_stall _ _ Ho)|apply (ok_locked _ _ Ho)].
Qed.

(** With two backup entries under different ids, [delRoute] deletes the
    first one, deploys and returns [True], and the device still holds a
    backup route: it is still in the failover state. *)
Lemma delRoute_two_backups_dev s fuel r1 r2 rid1 rid2 :
  dev_inv opts vr ifc s -> dev_token s = tok -> dev_stall s = false -> dev_locked s = false ->
  (2 <= fuel)%nat -> In r1 (dev_routes s) -> In r2 (dev_routes s) ->
  is_backup opts (dev_objects s) r1 = true -> is_backup opts (dev_objects s) r2 = true ->
  getitem_key "id" r1 = Ok (JStr rid1) -> getitem_key "id" r2 = Ok (JStr rid2) -> rid1 <> rid2 ->
  exists rid, dev_inv opts vr ifc (deployed (deleted_route s rid)) /\
    routing_of opts (deployed (deleted_route s rid)) = FAILOVER /\
    delRoute opts fuel fw s = (Ok (Some true), deployed (deleted_route s rid)).
Proof.
  intros Hi Ht Hs Hl Hf H1 H2 Hb1 Hb2 Hid1 Hid2 Hne.
  assert (Hr : routing_of opts s = FAILOVER).
  { unfold routing_of. replace (existsb _ _) with true; [reflexivity|].
    symmetry. apply existsb_exists. exists r1. split; assumption. }
  destruct (delRoute_deleting s fuel Hi Ht Hr) as (r & rid & Hfind & Hid & Hdel).
  pose proof (find_some _ _ Hfind) as [Hin _].
  assert (Hk : exists rk, In rk (dev_routes s) /\ is_backup opts (dev_objects s) rk = true /\
                          has_id rid rk = false).
  { destruct (string_dec rid1 rid) as [<-|Hne1].
    - exists r2. split; [exact H2|]. split; [exact Hb2|]. apply (has_id_other _ rid2); [exact Hid2|congruence].
    - exists r1. split; [exact H1|]. split; [exact Hb1|]. apply (has_id_other _ rid1); assumption. }
  destruct Hk as (rk & Hk & Hbk & Hnk).
  exists rid. split; [apply inv_deployed, inv_delete, Hi|]. split.
  - rewrite routing_of_deployed. unfold routing_of, deleted_route. dev_proj.
    replace (existsb _ _) with true; [reflexivity|]. symmetry. apply existsb_exists.
    exists rk. split; [apply filter_In; split; [exact Hk|rewrite Hnk; reflexivity]|exact Hbk].
  - rewrite Hdel. apply (delete_accepted s fuel r); assumption.
Qed.

(** On a locked configuration the DELETE is refused: [delRoute] falls
    off the end of the method ([None]) and the device is unchanged. *)
Lemma delRoute_locked s fuel :
  dev_inv opts vr ifc s -> dev_token s = tok -> dev_locked s = true -> routing_of opts s = FAILOVER ->
  delRoute opts fuel fw s = (Ok None, s).
Proof.
  intros Hi Ht Hl Hr.
  destruct (delRoute_deleting s fuel Hi Ht Hr) as (r & rid & _ & _ & ->).
  rewrite (delete_path_locked s vr _ Hl). reflexivity.
Qed.

(** Whatever the device answers, [delRoute] leaves it satisfying the
    invariant. *)
Lemma delRoute_inv_any s fuel :
  dev_inv opts vr ifc s -> dev_token s = tok -> dev_inv opts vr ifc (snd (delRoute opts fuel fw s)).
Proof.
  intros Hi Ht. destruct (routing_of opts s) eqn:Hr.
  - rewrite (delRoute_dev_noop s fuel Hi Ht Hr). exact Hi.
  - destruct (delRoute_deleting s fuel Hi Ht Hr) as (r & rid & _ & _ & ->).
    destruct (delete_path_inv s (route_entry_url vr rid) Hi) as [Hi1 Ht1].
    destruct (Z.eqb _ 204); [rewrite snd_bind_ret|exact Hi1].
    eapply proj1, deployPolicy_inv_any; [exact Hi1|rewrite Ht1; exact Ht].
Qed.
End Reconcile.

(** [__init__] on the device: the login returns the device's token, the
    Global router's id is recorded. *)
Lemma init_dev opts vr s : dev_session opts vr s -> init opts s = (Ok (client s vr), s).
Proof.
  intros Hs. unfold init, authRequest, bind at 1, bind at 1, send.
  cbn [request device_transport]. unfold dev_post. rewrite (ses_base _ _ _ Hs), strip_prefix_app.
  cbn [String.eqb Ascii.eqb Bool.eqb andb]. unfold post_token.
  cbn [oauth_data getitem_key dict_get fold_left String.eqb Ascii.eqb Bool.eqb andb].
  rewrite (ses_user _ _ _ Hs), (ses_pass _ _ _ Hs). cbn [json_eq_str]. rewrite !String.eqb_refl.
  cbn. unfold getGlobalVR, bind at 1.
  rewrite (getData_dev opts (mk_fp (JStr (dev_token s)) None) s vr_url) by (split; [apply (ses_base _ _ _ Hs)|reflexivity]).
  rewrite get_path_vrs. destruct (ses_vr _ _ _ Hs) as (v & rest & Hv & Hn & Hid). rewrite Hv.
  unfold bind, lift. cbn. rewrite Hn. cbn. rewrite Hid. reflexivity.
Qed.

(** C33: [__init__] (firepower.py 38-42) against a device whose base URL
    and credentials are the configured ones and whose first virtual
    router is named "Global": the login stores the token the device
    issued, the Global router's id is recorded as [globalVR], and the
    token POST and the virtual-router GET leave the device as it was. *)
Theorem init_session opts vr s : dev_session opts vr s -> init opts s = (Ok (client s vr), s).
Proof. apply init_dev. Qed.

(** ** One cycle of [run] on the device *)

(** A cycle that obtains a measurement logs in and takes the branch
    its verdict selects, with the client of the device. *)
Lemma run_session_cycle cfg opts vr fuel probe rtt loss s :
  dev_session opts vr s -> doPing cfg probe = Ok (rtt, loss) ->
  run cfg opts fuel probe s =
    if checkMetrics cfg rtt loss
    then bind (addRoute opts fuel (client s vr)) (fun r => ret (AddPath r)) s
    else bind (delRoute opts fuel (client s vr)) (fun r => ret (DelPath r)) s.
Proof.
  intros Hs Hp. unfold run, bind at 1, lift at 1. rewrite Hp. cbv beta iota zeta. cbn [fst snd].
  unfold bind at 1. rewrite (init_dev _ _ _ Hs). cbv beta iota. destruct (checkMetrics cfg rtt loss); reflexivity.
Qed.

Lemma run_dev_cycle cfg opts vr ifc fuel probe rtt loss s :
  dev_inv opts vr ifc s -> doPing cfg probe = Ok (rtt, loss) ->
  run cfg opts fuel probe s =
    if checkMetrics cfg rtt loss
    then bind (addRoute opts fuel (client s vr)) (fun r => ret (AddPath r)) s
    else bind (delRoute opts fuel (client s vr)) (fun r => ret (DelPath r)) s.
Proof. intros Hi. apply run_session_cycle, (inv_session _ _ _ _ Hi). Qed.

Section Cycle.
Variables (cfg : Pingtest) (opts : Options) (vr : string) (ifc : json * json) (nv : string).
Hypothesis HG : GATEWAY opts <> "".
Hypothesis HR : network_value (ROUTE opts) = Ok nv.

Lemma run_dev fuel probe rtt loss s :
  dev_inv opts vr ifc s -> dev_ok opts s -> (2 <= fuel)%nat -> doPing cfg probe = Ok (rtt, loss) ->
  exists c s', run cfg opts fuel probe s = (Ok c, s') /\ dev_inv opts vr ifc s' /\ dev_ok opts s' /\
    (routing_of opts s', classify c) = spec_cycle (checkMetrics cfg rtt loss) (routing_of opts s).
Proof.
  intros Hi Ho Hf Hp. rewrite (run_dev_cycle _ _ _ _ _ _ _ _ _ Hi Hp).
  destruct (checkMetrics cfg rtt loss), (routing_of opts s) eqn:Hr; unfold bind.
  - destruct (addRoute_dev opts vr ifc (client s vr) nv (dev_token s) eq_refl eq_refl HG HR s fuel Hi Ho
                eq_refl Hr Hf) as (rd & s1 & _ & _ & _ & _ & _ & Hbk & Hi' & Ho' & ->).
    do 2 eexists. split; [reflexivity|]. do 2 (split; [eassumption|]). rewrite (routing_of_stored _ _ _ Hbk). reflexivity.
  - rewrite (addRoute_dev_noop opts vr ifc (client s vr) (dev_token s) eq_refl eq_refl s fuel Hi eq_refl Hr).
    do 2 eexists. split; [reflexivity|]. do 2 (split; [eassumption|]). rewrite Hr. reflexivity.
  - rewrite (delRoute_dev_noop opts vr ifc (client s vr) (dev_token s) eq_refl eq_refl s fuel Hi eq_refl Hr).
    do 2 eexists. split; [reflexivity|]. do 2 (split; [eassumption|]). rewrite Hr. reflexivity.
  - destruct (delRoute_dev opts vr ifc (client s vr) (dev_token s) eq_refl eq_refl s fuel Hi Ho eq_refl Hr Hf)
      as (r & rid & _ & _ & Hi' & Ho' & Hr' & ->).
    do 2 eexists. split; [reflexivity|]. do 2 (split; [eassumption|]). rewrite Hr'. reflexivity.
Qed.
End Cycle.

(** ** Adding then deleting the backup route *)

Lemma stored_routes s rd :
  dev_routes (deployed (stored_route s rd)) = dev_routes s ++ [with_id (fresh_id "route" s) rd].
Proof. rewrite deployed_routes. reflexivity. Qed.

Lemma stored_objects s rd : dev_objects (deployed (stored_route s rd)) = dev_objects s.
Proof. rewrite deployed_objects. reflexivity. Qed.

Lemma deleted_objects s rid : dev_objects (deployed (deleted_route s rid)) = dev_objects s.
Proof. rewrite deployed_objects. reflexivity. Qed.

(** Deleting by an id the device has not handed out yet removes nothing. *)
Lemma filter_fresh_id pre n rs :
  Forall (fresh_for pre n) rs -> List.filter (fun r => negb (has_id (pre ++ pretty n)%string r)) rs = rs.
Proof.
  induction 1 as [|r rs Hr _ IH]; [reflexivity|]. cbn.
  destruct (has_id _ r) eqn:E; [specialize (Hr n E); lia|]. cbn. rewrite IH. reflexivity.
Qed.

Lemma built_route_id opts ifc os rd i :
  built_route opts ifc os = Some rd -> getitem_key "id" (with_id i rd) = Ok (JStr i).
Proof.
  unfold built_route.
  destruct (name_id os (network_name (ROUTE opts))), (name_id os (gateway_name (GATEWAY opts)));
    try discriminate.
  intros H. injection H as <-. reflexivity.
Qed.

(** After the route was stored, the first backup route is the new one. *)
Lemma find_after_add opts s1 rd :
  existsb (is_backup opts (dev_objects s1)) (dev_routes s1) = false ->
  is_backup opts (dev_objects s1) (with_id (fresh_id "route" s1) rd) = true ->
  find (is_backup opts (dev_objects (deployed (stored_route s1 rd))))
       (dev_routes (deployed (stored_route s1 rd))) = Some (with_id (fresh_id "route" s1) rd).
Proof.
  intros Hno Hb. rewrite stored_routes, stored_objects, find_app, (find_existsb_false _ _ Hno).
  cbn [find]. rewrite Hb. reflexivity.
Qed.

Section AddDel.
Variables (opts : Options) (vr : string) (ifc : json * json) (nv : string).
Hypothesis HG : GATEWAY opts <> "".
Hypothesis HR : network_value (ROUTE opts) = Ok nv.

(** [addRoute] then [delRoute] with the same client, from the primary
    state: what each returns and the device they leave. *)
Lemma add_del_dev fuel s :
  dev_inv opts vr ifc s -> dev_ok opts s -> routing_of opts s = PRIMARY -> (2 <= fuel)%nat ->
  exists rd s1, built_route opts ifc (dev_objects s1) = Some rd /\ obj_ext s s1 /\
    (built_route opts ifc (dev_objects s) <> None -> s1 = s) /\
    addRoute opts fuel (client s vr) s = (Ok true, deployed (stored_route s1 rd)) /\
    delRoute opts fuel (client s vr) (deployed (stored_route s1 rd)) =
      (Ok (Some true), deployed (deleted_route (deployed (stored_route s1 rd)) (fresh_id "route" s1))) /\
    dev_inv opts vr ifc (deployed (deleted_route (deployed (stored_route s1 rd)) (fresh_id "route" s1))) /\
    dev_ok opts (deployed (deleted_route (deployed (stored_route s1 rd)) (fresh_id "route" s1))) /\
    routing_of opts (deployed (deleted_route (deployed (stored_route s1 rd)) (fresh_id "route" s1))) = PRIMARY /\
    dev_routes (deployed (deleted_route (deployed (stored_route s1 rd)) (fresh_id "route" s1))) = dev_routes s.
Proof.
  intros Hi Ho Hr Hf.
  destruct (addRoute_dev opts vr ifc (client s vr) nv (dev_token s) eq_refl eq_refl HG HR s fuel Hi Ho
              eq_refl Hr Hf) as (rd & s1 & Hb & Hx & Hsame & Hi1 & Hno & Hbk & Hi' & Ho' & Hadd).
  assert (Ht : dev_token (deployed (stored_route s1 rd)) = dev_token s)
    by (rewrite deployed_token; exact (ext_token _ _ Hx)).
  destruct (delRoute_dev opts vr ifc (client s vr) (dev_token s) eq_refl eq_refl _ fuel Hi' Ho' Ht
              (routing_of_stored _ _ _ Hbk) Hf) as (r & rid & Hfind & Hid & Hi2 & Ho2 & Hr2 & Hdel).
  rewrite (find_after_add _ _ _ Hno Hbk) in Hfind. injection Hfind as <-.
  rewrite (built_route_id _ _ _ _ _ Hb) in Hid. injection Hid as <-.
  exists rd, s1. do 8 (split; [assumption|]).
  rewrite deployed_routes. unfold deleted_route. dev_proj. rewrite stored_routes, List.filter_app.
  unfold fresh_id at 1. rewrite (filter_fresh_id _ _ _ (inv_fresh_route _ _ _ _ Hi1)).
  cbn [List.filter]. rewrite (has_id_getitem _ _ (built_route_id _ _ _ _ _ Hb)). cbn [negb].
  rewrite app_nil_r. exact (ext_routes _ _ Hx).
Qed.
End AddDel.

(** ** Reachable states *)

(** The device states a sequence of monitoring cycles can lead to from
    [s0], whatever the probes measure, each cycle run with enough fuel
    for the deployment (the polling loop of the code is unbounded). *)
Inductive reachable (cfg : Pingtest) (opts : Options) (s0 : device) : device -> Prop :=
| reach_start : reachable cfg opts s0 s0
| reach_cycle s fuel probe r s' :
    reachable cfg opts s0 s -> (2 <= fuel)%nat -> run cfg opts fuel probe s = (r, s') ->
    reachable cfg opts s0 s'.

(** A probe that yields no measurement ends the cycle before the device
    is contacted. *)
Lemma run_no_sample {D} `{Transport D} cfg opts fuel probe (s : D) :
  (forall m, doPing cfg probe <> Ok m) -> snd (run cfg opts fuel probe s) = s.
Proof.
  intros Hp. unfold run, bind at 1, lift at 1.
  destruct (doPing cfg probe) as [m|e|]; [exfalso; exact (Hp m eq_refl)|reflexivity|reflexivity].
Qed.

Section Reach.
Variables (cfg : Pingtest) (opts : Options) (vr : string) (ifc : json * json) (nv : string).
Hypothesis HG : GATEWAY opts <> "".
Hypothesis HR : network_value (ROUTE opts) = Ok nv.

(** Every cycle, whatever it measures, however the device answers and
    whatever the fuel, keeps [dev_inv]. *)
Lemma run_inv_any fuel probe s : dev_inv opts vr ifc s -> dev_inv opts vr ifc (snd (run cfg opts fuel probe s)).
Proof.
  intros Hi. destruct (doPing cfg probe) as [[rtt loss]|e|] eqn:Hp.
  - rewrite (run_dev_cycle _ _ _ _ _ _ _ _ _ Hi Hp). destruct (checkMetrics cfg rtt loss); rewrite snd_bind_ret.
    + exact (addRoute_inv_any opts vr ifc (client s vr) nv (dev_token s) eq_refl eq_refl HG HR s fuel Hi eq_refl).
    + exact (delRoute_inv_any opts vr ifc (client s vr) (dev_token s) eq_refl eq_refl s fuel Hi eq_refl).
  - rewrite run_no_sample by (rewrite Hp; discriminate). exact Hi.
  - rewrite run_no_sample by (rewrite Hp; discriminate). exact Hi.
Qed.

Lemma reachable_inv_any s0 s : dev_inv opts vr ifc s0 -> reachable cfg opts s0 s -> dev_inv opts vr ifc s.
Proof.
  intros H0. induction 1 as [|s fuel probe r s' _ IH _ Hrun]; [exact H0|].
  pose proof (run_inv_any fuel probe s IH) as Hi. rewrite Hrun in Hi. exact Hi.
Qed.

Lemma reachable_dev_inv s0 s :
  dev_inv opts vr ifc s0 -> dev_ok opts s0 -> reachable cfg opts s0 s ->
  dev_inv opts vr ifc s /\ dev_ok opts s.
Proof.
  intros H0 O0. induction 1 as [|s fuel probe r s' _ IH Hf Hrun]; [split; assumption|].
  destruct IH as [Hi Ho]. destruct (doPing cfg probe) as [[rtt loss]|e|] eqn:Hp.
  - destruct (run_dev cfg opts vr ifc nv HG HR fuel probe rtt loss s Hi Ho Hf Hp) as (c & s'' & Hr & Hi' & Ho' & _).
    rewrite Hr in Hrun. injection Hrun as _ <-. split; assumption.
  - pose proof (run_no_sample cfg opts fuel probe s) as Hs. rewrite Hrun in Hs. cbn in Hs.
    rewrite Hs by (rewrite Hp; discriminate). split; assumption.
  - pose proof (run_no_sample cfg opts fuel probe s) as Hs. rewrite Hrun in Hs. cbn in Hs.
    rewrite Hs by (rewrite Hp; discriminate). split; assumption.
Qed.
End Reach.

(** ** The controller refines the state machine of spec 4.6 *)

Section Theorems.
Variables (cfg : Pingtest) (opts : Options) (vr : string) (ifc : json * json) (nv : string).
Hypothesis HG : GATEWAY opts <> "".
Hypothesis HR : network_value (ROUTE opts) = Ok nv.

(** C1: refinement, for options whose failover_gateway is non-empty and
    whose failover_route is accepted by createNetwork (the section's
    hypotheses [HG] and [HR]): from every device state satisfying [dev_inv] and
    [dev_ok] (deployments progress, DELETE accepted, at most one backup
    route, no other entry under its name), a monitoring cycle that
    obtains a measurement returns, with enough fuel for the deployment,
    and ends in a state satisfying both again;
    the routing state derived from the new route table and the outcome
    the cycle reports are those of [spec_cycle], the PRIMARY/FAILOVER
    machine of spec 4.6, applied to the health verdict and the routing
    state before the cycle. *)
Theorem run_refines fuel probe rtt loss s :
  dev_inv opts vr ifc s -> dev_ok opts s -> (2 <= fuel)%nat -> doPing cfg probe = Ok (rtt, loss) ->
  exists c s', run cfg opts fuel probe s = (Ok c, s') /\ dev_inv opts vr ifc s' /\ dev_ok opts s' /\
    (routing_of opts s', classify c) = spec_cycle (checkMetrics cfg rtt loss) (routing_of opts s).
Proof. exact (run_dev cfg opts vr ifc nv HG HR fuel probe rtt loss s). Qed.

(** C3: idempotence (spec 8): in the primary state, two [addRoute] calls
    in sequence return [True] then [False], the second leaving the
    device as the first left it, and the route table grows by exactly
    one entry. *)
Theorem addRoute_twice fuel s :
  dev_inv opts vr ifc s -> dev_ok opts s -> routing_of opts s = PRIMARY -> (2 <= fuel)%nat ->
  exists s1, addRoute opts fuel (client s vr) s = (Ok true, s1) /\
    addRoute opts fuel (client s vr) s1 = (Ok false, s1) /\
    length (dev_routes s1) = S (length (dev_routes s)).
Proof.
  intros Hi Ho Hr Hf.
  destruct (addRoute_dev opts vr ifc (client s vr) nv (dev_token s) eq_refl eq_refl HG HR s fuel Hi Ho
              eq_refl Hr Hf) as (rd & s1 & _ & Hx & _ & _ & _ & Hbk & Hi' & _ & Hadd).
  exists (deployed (stored_route s1 rd)). split; [exact Hadd|]. split.
  - apply (addRoute_dev_noop opts vr ifc (client s vr) (dev_token s) eq_refl eq_refl); [exact Hi'| |].
    + rewrite deployed_token. exact (ext_token _ _ Hx).
    + apply routing_of_stored, Hbk.
  - rewrite stored_routes, length_app, (ext_routes _ _ Hx). cbn. lia.
Qed.

(** C4: round trip (spec 8): in the primary state, [addRoute] followed
    by [delRoute] returns [True] twice and leaves the route table
    exactly as it was before [addRoute]. *)
Theorem addRoute_delRoute_roundtrip fuel s :
  dev_inv opts vr ifc s -> dev_ok opts s -> routing_of opts s = PRIMARY -> (2 <= fuel)%nat ->
  exists s1 s2, addRoute opts fuel (client s vr) s = (Ok true, s1) /\
    delRoute opts fuel (client s vr) s1 = (Ok (Some true), s2) /\ dev_routes s2 = dev_routes s.
Proof.
  intros Hi Ho Hr Hf.
  destruct (add_del_dev opts vr ifc nv HG HR fuel s Hi Ho Hr Hf) as (rd & s1 & _ & _ & _ & Hadd & Hdel & _ & _ & _ & Hrt).
  do 2 eexists. split; [exact Hadd|]. split; [exact Hdel|exact Hrt].
Qed.

(** C5: object reuse (spec 8): two failovers separated by a restoration
    store the same route entry, referring to the same gateway and
    network objects, and the second one creates no object. *)
Theorem addRoute_reuses_objects fuel s :
  dev_inv opts vr ifc s -> dev_ok opts s -> routing_of opts s = PRIMARY -> (2 <= fuel)%nat ->
  exists s1 s2 s3 rd i1 i2,
    addRoute opts fuel (client s vr) s = (Ok true, s1) /\
    delRoute opts fuel (client s vr) s1 = (Ok (Some true), s2) /\
    addRoute opts fuel (client s vr) s2 = (Ok true, s3) /\
    dev_routes s1 = dev_routes s ++ [with_id i1 rd] /\
    dev_routes s3 = dev_routes s ++ [with_id i2 rd] /\
    dev_objects s3 = dev_objects s1.
Proof.
  intros Hi Ho Hr Hf.
  destruct (add_del_dev opts vr ifc nv HG HR fuel s Hi Ho Hr Hf)
    as (rd & s1 & Hb & Hx & _ & Hadd & Hdel & Hi2 & Ho2' & Hr2 & Hrt).
  set (s2 := deployed (deleted_route (deployed (stored_route s1 rd)) (fresh_id "route" s1))) in *.
  assert (Ho2 : dev_objects s2 = dev_objects s1) by (unfold s2; rewrite deleted_objects, stored_objects; reflexivity).
  assert (Ht2 : dev_token s2 = dev_token s)
    by (unfold s2; rewrite deployed_token; change (dev_token (deployed (stored_route s1 rd)) = dev_token s);
        rewrite deployed_token; exact (ext_token _ _ Hx)).
  destruct (addRoute_dev opts vr ifc (client s vr) nv (dev_token s) eq_refl eq_refl HG HR s2 fuel Hi2
              Ho2' Ht2 Hr2 Hf) as (rd' & s3 & Hb' & Hx' & Hsame & _ & _ & _ & _ & _ & Hadd').
  rewrite Ho2, Hb in Hsame. specialize (Hsame ltac:(discriminate)). subst s3.
  rewrite Ho2, Hb in Hb'. injection Hb' as <-.
  exists (deployed (stored_route s1 rd)), s2, (deployed (stored_route s2 rd)), rd,
    (fresh_id "route" s1), (fresh_id "route" s2).
  do 3 (split; [assumption|]).
  rewrite !stored_routes, Hrt, (ext_routes _ _ Hx). split; [reflexivity|]. split; [reflexivity|].
  rewrite !stored_objects. exact Ho2.
Qed.

(** C6: invariant: every device state reachable by monitoring cycles
    (any probes, any device answers, enough fuel) from a state
    satisfying [dev_inv] satisfies it: every route entry is readable by
    [doesRouteExist], the object found under the gateway's or the
    network's name has the right value, and the ids are fresh, also when
    the device stalls, refuses a DELETE or holds stale entries; when the
    start state satisfies [dev_ok] too, so does every reachable state
    (at most one backup route, no other entry under its name). *)
Theorem reachable_inv s0 s :
  dev_inv opts vr ifc s0 -> reachable cfg opts s0 s ->
  dev_inv opts vr ifc s /\ (dev_ok opts s0 -> dev_ok opts s).
Proof.
  intros H0 Hr. split; [exact (reachable_inv_any cfg opts vr ifc nv HG HR s0 s H0 Hr)|].
  intros O0. exact (proj2 (reachable_dev_inv cfg opts vr ifc nv HG HR s0 s H0 O0 Hr)).
Qed.

(** C2: refinement of a sequence of cycles: from a state satisfying
    [dev_inv] and [dev_ok], cycles run one after the other on probes
    that each yield a measurement all return, keep both, and report the
    outcomes the spec 4.6 machine produces on the sequence of health
    verdicts, ending in the routing state it ends in. *)
Theorem run_cycles_refine fuel probes s :
  dev_inv opts vr ifc s -> dev_ok opts s -> (2 <= fuel)%nat ->
  Forall (fun p => exists m, doPing cfg p = Ok m) probes ->
  exists cs s', run_cycles cfg opts fuel probes s = (Ok cs, s') /\ dev_inv opts vr ifc s' /\ dev_ok opts s' /\
    (routing_of opts s', map classify cs) = spec_trace (map (verdict cfg) probes) (routing_of opts s).
Proof.
  intros Hi Ho Hf Hp. revert s Hi Ho. induction Hp as [|p ps [[rtt loss] Hm] _ IH]; intros s Hi Ho.
  - exists [], s. split; [reflexivity|]. do 2 (split; [assumption|]). reflexivity.
  - destruct (run_dev cfg opts vr ifc nv HG HR fuel p rtt loss s Hi Ho Hf Hm) as (c & s1 & Hr & Hi1 & Ho1 & Hsp).
    destruct (IH s1 Hi1 Ho1) as (cs & s' & Hrs & Hi' & Ho' & Htr).
    exists (c :: cs), s'. cbn [run_cycles]. unfold bind at 1. rewrite Hr. unfold bind. rewrite Hrs.
    split; [reflexivity|]. split; [exact Hi'|]. split; [exact Ho'|].
    cbn [map spec_trace]. unfold verdict at 1. rewrite Hm, <- Hsp, <- Htr. reflexivity.
Qed.

(** C7: in every reachable state, [doesRouteExist] raises no exception
    and changes nothing: every route entry is well typed for its loop
    (string object ids resolving to objects with string values), so it
    returns the first backup route of the table, or not-found. *)
Theorem reachable_doesRouteExist s0 s :
  dev_inv opts vr ifc s0 -> reachable cfg opts s0 s ->
  doesRouteExist opts (client s vr) s = (Ok (find (is_backup opts (dev_objects s)) (dev_routes s)), s).
Proof.
  intros H0 Hr. pose proof (reachable_inv_any cfg opts vr ifc nv HG HR s0 s H0 Hr) as Hi.
  apply (doesRouteExist_dev opts vr ifc (client s vr) eq_refl s Hi).
  split; [apply (inv_base _ _ _ _ Hi)|reflexivity].
Qed.
(** ** Devices outside [dev_ok]: what a cycle does there *)

(** C13: liveness fails on a device whose deployments never progress: an
    unhealthy cycle in the primary state posts the backup route and then
    polls for a deployment that stays QUEUED; whatever the fuel, the
    cycle has no outcome (the [while] of [deployPolicy] does not end). *)
Theorem run_stalled_never_returns fuel probe rtt loss s :
  dev_inv opts vr ifc s -> dev_stall s = true -> routing_of opts s = PRIMARY ->
  doPing cfg probe = Ok (rtt, loss) -> checkMetrics cfg rtt loss = true ->
  fst (run cfg opts fuel probe s) = Stuck.
Proof.
  intros Hi Hs Hr Hp Hc. rewrite (run_dev_cycle _ _ _ _ _ _ _ _ _ Hi Hp), Hc. unfold bind.
  pose proof (addRoute_stalled opts vr ifc (client s vr) nv (dev_token s) eq_refl eq_refl HG HR s fuel
                Hi eq_refl Hs Hr) as Hst.
  destruct (addRoute opts fuel (client s vr) s) as [[a|e|] s']; cbn in Hst |- *; congruence.
Qed.

(** C9: on a locked configuration a healthy cycle in the failover state
    sends the DELETE, which the device refuses; [delRoute] falls off the
    end of the method, so the cycle reports a partial failure
    ([DelPath None]) and leaves the device, backup route included,
    unchanged, whatever the fuel. *)
Theorem run_locked_partial fuel probe rtt loss s :
  dev_inv opts vr ifc s -> dev_locked s = true -> routing_of opts s = FAILOVER ->
  doPing cfg probe = Ok (rtt, loss) -> checkMetrics cfg rtt loss = false ->
  run cfg opts fuel probe s = (Ok (DelPath None), s).
Proof.
  intros Hi Hl Hr Hp Hc. rewrite (run_dev_cycle _ _ _ _ _ _ _ _ _ Hi Hp), Hc. unfold bind.
  rewrite (delRoute_locked opts vr ifc (client s vr) (dev_token s) eq_refl eq_refl s fuel Hi eq_refl Hl Hr).
  reflexivity.
Qed.

(** C8: when the table holds an entry named [route_BACKUP] that is not
    the backup route (left by an earlier configuration, e.g. another
    gateway), an unhealthy cycle in the primary state reports the
    failover ([AddPath True]) although the device refused the route:
    the route table is unchanged and the derived state is still PRIMARY,
    where the spec 4.6 machine would be in FAILOVER. *)
Theorem run_stale_backup_name fuel probe rtt loss s :
  dev_inv opts vr ifc s -> dev_stall s = false -> routing_of opts s = PRIMARY ->
  existsb (has_name "route_BACKUP") (dev_routes s) = true -> (2 <= fuel)%nat ->
  doPing cfg probe = Ok (rtt, loss) -> checkMetrics cfg rtt loss = true ->
  exists s', run cfg opts fuel probe s = (Ok (AddPath true), s') /\ dev_inv opts vr ifc s' /\
    routing_of opts s' = PRIMARY /\ dev_routes s' = dev_routes s /\
    fst (spec_cycle true (routing_of opts s)) = FAILOVER.
Proof.
  intros Hi Hs Hr Hn Hf Hp Hc. rewrite (run_dev_cycle _ _ _ _ _ _ _ _ _ Hi Hp), Hc. unfold bind.
  destruct (addRoute_stale opts vr ifc (client s vr) nv (dev_token s) eq_refl eq_refl HG HR s fuel
              Hi eq_refl Hs Hr Hn Hf) as (s1 & Hx & Hr1 & Hi1 & ->).
  exists (deployed s1). split; [reflexivity|]. split; [apply inv_deployed, Hi1|].
  rewrite routing_of_deployed, deployed_routes, Hr. split; [exact Hr1|].
  split; [exact (ext_routes _ _ Hx)|reflexivity].
Qed.

(** C10: with two backup entries under different ids (one added by
    hand, say), a healthy cycle deletes only the first one, deploys and
    reports the restoration ([DelPath (Some true)]), while the device is
    still in the failover state, where the spec 4.6 machine would be in
    PRIMARY. *)
Theorem run_two_backups fuel probe rtt loss s r1 r2 rid1 rid2 :
  dev_inv opts vr ifc s -> dev_stall s = false -> dev_locked s = false -> (2 <= fuel)%nat ->
  In r1 (dev_routes s) -> In r2 (dev_routes s) ->
  is_backup opts (dev_objects s) r1 = true -> is_backup opts (dev_objects s) r2 = true ->
  getitem_key "id" r1 = Ok (JStr rid1) -> getitem_key "id" r2 = Ok (JStr rid2) -> rid1 <> rid2 ->
  doPing cfg probe = Ok (rtt, loss) -> checkMetrics cfg rtt loss = false ->
  exists s', run cfg opts fuel probe s = (Ok (DelPath (Some true)), s') /\ dev_inv opts vr ifc s' /\
    routing_of opts s' = FAILOVER.
Proof.
  intros Hi Hs Hl Hf H1 H2 Hb1 Hb2 Hid1 Hid2 Hne Hp Hc.
  rewrite (run_dev_cycle _ _ _ _ _ _ _ _ _ Hi Hp), Hc. unfold bind.
  destruct (delRoute_two_backups_dev opts vr ifc (client s vr) (dev_token s) eq_refl eq_refl s fuel r1 r2
              rid1 rid2 Hi eq_refl Hs Hl Hf H1 H2 Hb1 Hb2 Hid1 Hid2 Hne) as (rid & Hi' & Hr' & ->).
  exists (deployed (deleted_route s rid)). split; [reflexivity|]. split; assumption.
Qed.

(** C11: one route entry of the table (any, not only the backup route)
    whose first destination is not a network object, such as a network
    group, reached by the loop of [doesRouteExist] before any backup
    route, makes every cycle raise [TypeError], whatever the verdict
    and the fuel, before any change to the device: the controller can
    then neither fail over nor restore. *)
Theorem run_dangling_route fuel probe rtt loss s pre r post g gv m :
  dev_session opts vr s -> dev_routes s = pre ++ r :: post ->
  Forall (route_wf (dev_objects s)) pre -> Forall (fun q => is_backup opts (dev_objects s) q = false) pre ->
  route_gateway_ref r = Ok (JStr g) -> obj_value (dev_objects s) g = Some gv ->
  route_network_ref r = Ok (JStr m) -> find (has_id m) (dev_objects s) = None ->
  doPing cfg probe = Ok (rtt, loss) ->
  run cfg opts fuel probe s = (Raise TypeError, s).
Proof.
  intros Hs Hr Hw Hn Hg Hgv Hm Hmn Hp. rewrite (run_session_cycle _ _ _ _ _ _ _ _ Hs Hp).
  assert (Hc : connected opts (client s vr) s) by (split; [apply (ses_base _ _ _ Hs)|reflexivity]).
  pose proof (doesRouteExist_dangling opts vr (client s vr) eq_refl s pre r post g gv m Hs Hc Hr Hw Hn Hg Hgv
                Hm Hmn) as Hd.
  destruct (checkMetrics cfg rtt loss); unfold addRoute, delRoute, bind; rewrite Hd; reflexivity.
Qed.

(** C12: two overlapping cycles race (spec 5, a known gap of the code):
    an unhealthy cycle A in the primary state stores the backup route,
    submits its deployment and starts polling in [sA]; a healthy cycle B
    run meanwhile finds the route, deletes it, deploys and reports the
    restoration; A's polling loop, resumed on the device B left, sees
    its own deployment done and reports the failover last, while the
    device ends in the primary state.  A's run is its prefix up to [sA]
    followed by the continuation shown, as the first equation states. *)
Theorem overlapping_cycles_race fuel pA pB rttA lossA rttB lossB s :
  dev_inv opts vr ifc s -> dev_ok opts s -> routing_of opts s = PRIMARY -> (2 <= fuel)%nat ->
  doPing cfg pA = Ok (rttA, lossA) -> checkMetrics cfg rttA lossA = true ->
  doPing cfg pB = Ok (rttB, lossB) -> checkMetrics cfg rttB lossB = false ->
  exists i sA sB s',
    run cfg opts fuel pA s = bind (deploy_loop opts fuel (client s vr) i) (fun r => ret (AddPath r)) sA /\
    run cfg opts fuel pB sA = (Ok (DelPath (Some true)), sB) /\
    bind (deploy_loop opts fuel (client s vr) i) (fun r => ret (AddPath r)) sB = (Ok (AddPath true), s') /\
    routing_of opts s' = PRIMARY.
Proof.
  intros Hi Ho Hr Hf HpA HcA HpB HcB.
  destruct (addRoute_until_polling opts vr ifc (client s vr) nv (dev_token s) eq_refl eq_refl HG HR s fuel
              Hi Ho eq_refl Hr) as (s2 & Hi2 & Ho2 & Hr2 & Ht2 & HA).
  set (sA := snd (post_deploy s2)).
  assert (HoA : dev_ok opts sA) by (apply (ok_frame opts s2); try reflexivity; exact Ho2).
  destruct (delRoute_dev opts vr ifc (client sA vr) (dev_token sA) eq_refl eq_refl sA fuel
              (inv_post_deploy _ _ _ _ Hi2) HoA eq_refl Hr2 Hf) as (r & rid & _ & _ & HiB & _ & HrB & HdB).
  set (sB := deployed (deleted_route sA rid)) in *.
  assert (Hs2 : dev_stall s2 = false) by exact (ok_stall _ _ Ho2).
  assert (HtB : dev_token sB = dev_token s) by (unfold sB; rewrite deployed_token; exact Ht2).
  exists (fresh_id "deploy" s2), sA, sB, (sleep 8 sB).
  split; [rewrite (run_dev_cycle _ _ _ _ _ _ _ _ _ Hi HpA), HcA; unfold bind; rewrite HA; reflexivity|].
  split.
  { rewrite (run_dev_cycle _ _ _ _ _ _ _ _ _ (inv_post_deploy _ _ _ _ Hi2) HpB), HcB. unfold bind. fold sA. rewrite HdB.
    reflexivity. }
  split.
  - unfold bind. rewrite (deploy_loop_first_poll opts (client s vr)); [reflexivity| | | |lia].
    + apply (connected_inv opts vr ifc (client s vr) (dev_token s) eq_refl sB HiB HtB).
    + unfold sB, deployed. rewrite !sleep_stall. exact Hs2.
    + unfold sB, deployed. rewrite !sleep_tasks by (rewrite ?sleep_stall; exact Hs2).
      apply (queued_deployed_after_three _ (dev_tasks s2 ++ [mk_task (fresh_id "deploy" s2) "QUEUED"])).
      apply in_or_app. right. left. reflexivity.
  - unfold routing_of. rewrite sleep_routes, sleep_objects. exact HrB.
Qed.
End Theorems.

(** ** Concrete runs against the reference device *)

Definition ifc0 : json * json := (JStr "if1", JStr "outside2").

Lemma dev0_inv : dev_inv opts0 "vr1" ifc0 dev0.
Proof.
  constructor; cbn; try reflexivity; try constructor; try lia.
  eexists _, _. repeat split.
Qed.

Lemma opts0_gateway : GATEWAY opts0 <> "".
Proof. discriminate. Qed.

Lemma opts0_route : network_value (ROUTE opts0) = Ok "10.9.0.0/255.255.0.0".
Proof. reflexivity. Qed.

(** The device after one unhealthy cycle from [dev0]. *)
Definition dev_cycle1 : device := snd (run cfg0 opts0 5 probe_lossy dev0).

Lemma reach_cycle1 : reachable cfg0 opts0 dev0 dev_cycle1.
Proof. apply (reach_cycle cfg0 opts0 dev0 dev0 5 probe_lossy (fst (run cfg0 opts0 5 probe_lossy dev0))); [constructor|lia|reflexivity]. Qed.

Lemma dev0_ok : dev_ok opts0 dev0.
Proof. constructor; vm_compute; try reflexivity; try lia; repeat constructor. Qed.

Lemma dev_cycle1_good : dev_inv opts0 "vr1" ifc0 dev_cycle1 /\ dev_ok opts0 dev_cycle1.
Proof.
  apply (reachable_dev_inv cfg0 opts0 "vr1" ifc0 _ opts0_gateway opts0_route dev0);
    [exact dev0_inv|exact dev0_ok|exact reach_cycle1].
Qed.

Lemma dev_cycle1_inv : dev_inv opts0 "vr1" ifc0 dev_cycle1.
Proof. exact (proj1 dev_cycle1_good). Qed.

Lemma dev_cycle1_ok : dev_ok opts0 dev_cycle1.
Proof. exact (proj2 dev_cycle1_good). Qed.

Lemma run_refines_witness :
  dev_inv opts0 "vr1" ifc0 dev_cycle1 /\ doPing cfg0 probe_healthy = Ok (15%Q, 0%Q) /\
  exists c s', run cfg0 opts0 5 probe_healthy dev_cycle1 = (Ok c, s') /\ dev_inv opts0 "vr1" ifc0 s' /\
    dev_ok opts0 s' /\ (routing_of opts0 s', classify c) =
      spec_cycle (checkMetrics cfg0 15 0) (routing_of opts0 dev_cycle1).
Proof.
  split; [exact dev_cycle1_inv|]. split; [reflexivity|].
  apply (run_refines cfg0 opts0 "vr1" ifc0 "10.9.0.0/255.255.0.0"); try reflexivity; try discriminate.
  - exact dev_cycle1_inv.
  - exact dev_cycle1_ok.
  - lia.
Defined.

Lemma addRoute_twice_witness :
  routing_of opts0 dev0 = PRIMARY /\
  exists s1, addRoute opts0 5 (client dev0 "vr1") dev0 = (Ok true, s1) /\
    addRoute opts0 5 (client dev0 "vr1") s1 = (Ok false, s1) /\
    length (dev_routes s1) = S (length (dev_routes dev0)).
Proof.
  split; [reflexivity|].
  apply (addRoute_twice opts0 "vr1" ifc0 "10.9.0.0/255.255.0.0"); try reflexivity; try discriminate.
  - exact dev0_inv.
  - exact dev0_ok.
  - lia.
Defined.

Lemma addRoute_delRoute_roundtrip_witness :
  routing_of opts0 dev0 = PRIMARY /\
  exists s1 s2, addRoute opts0 5 (client dev0 "vr1") dev0 = (Ok true, s1) /\
    delRoute opts0 5 (client dev0 "vr1") s1 = (Ok (Some true), s2) /\ dev_routes s2 = dev_routes dev0.
Proof.
  split; [reflexivity|].
  apply (addRoute_delRoute_roundtrip opts0 "vr1" ifc0 "10.9.0.0/255.255.0.0"); try reflexivity; try discriminate.
  - exact dev0_inv.
  - exact dev0_ok.
  - lia.
Defined.

Lemma addRoute_reuses_objects_witness :
  routing_of opts0 dev0 = PRIMARY /\
  exists s1 s2 s3 rd i1 i2,
    addRoute opts0 5 (client dev0 "vr1") dev0 = (Ok true, s1) /\
    delRoute opts0 5 (client dev0 "vr1") s1 = (Ok (Some true), s2) /\
    addRoute opts0 5 (client dev0 "vr1") s2 = (Ok true, s3) /\
    dev_routes s1 = dev_routes dev0 ++ [with_id i1 rd] /\
    dev_routes s3 = dev_routes dev0 ++ [with_id i2 rd] /\
    dev_objects s3 = dev_objects s1.
Proof.
  split; [reflexivity|].
  apply (addRoute_reuses_objects opts0 "vr1" ifc0 "10.9.0.0/255.255.0.0"); try reflexivity; try discriminate.
  - exact dev0_inv.
  - exact dev0_ok.
  - lia.
Defined.

Lemma reachable_inv_witness :
  reachable cfg0 opts0 dev0 dev_cycle1 /\ dev_inv opts0 "vr1" ifc0 dev_cycle1 /\
  (dev_ok opts0 dev0 -> dev_ok opts0 dev_cycle1).
Proof.
  split; [exact reach_cycle1|].
  apply (reachable_inv cfg0 opts0 "vr1" ifc0 "10.9.0.0/255.255.0.0" opts0_gateway opts0_route dev0);
    [exact dev0_inv|exact reach_cycle1].
Defined.

Lemma reachable_doesRouteExist_witness :
  reachable cfg0 opts0 dev0 dev_cycle1 /\
  doesRouteExist opts0 (client dev_cycle1 "vr1") dev_cycle1 =
    (Ok (find (is_backup opts0 (dev_objects dev_cycle1)) (dev_routes dev_cycle1)), dev_cycle1).
Proof.
  split; [exact reach_cycle1|].
  apply (reachable_doesRouteExist cfg0 opts0 "vr1" ifc0 "10.9.0.0/255.255.0.0" opts0_gateway opts0_route dev0);
    [exact dev0_inv|exact reach_cycle1].
Defined.

Lemma run_cycles_refine_witness :
  Forall (fun p => exists m, doPing cfg0 p = Ok m) [probe_lossy; probe_lossy; probe_healthy] /\
  exists cs s', run_cycles cfg0 opts0 5 [probe_lossy; probe_lossy; probe_healthy] dev0 = (Ok cs, s') /\
    dev_inv opts0 "vr1" ifc0 s' /\ dev_ok opts0 s' /\
    (routing_of opts0 s', map classify cs) =
      spec_trace (map (verdict cfg0) [probe_lossy; probe_lossy; probe_healthy]) (routing_of opts0 dev0).
Proof.
  assert (Hp : Forall (fun p => exists m, doPing cfg0 p = Ok m) [probe_lossy; probe_lossy; probe_healthy])
    by (repeat constructor; eexists; reflexivity).
  split; [exact Hp|].
  apply (run_cycles_refine cfg0 opts0 "vr1" ifc0 "10.9.0.0/255.255.0.0"); try reflexivity; try discriminate.
  - exact dev0_inv.
  - exact dev0_ok.
  - lia.
  - exact Hp.
Defined.

(** The reference device with its deployments stalled. *)
Definition stall (s : device) : device :=
  mk_device (dev_base s) (dev_user s) (dev_pass s) (dev_token s) (dev_vrs s) (dev_ifaces s)
    (dev_objects s) (dev_routes s) (dev_tasks s) (dev_next s) true (dev_locked s).

Lemma inv_stall_dev opts vr ifc s : dev_inv opts vr ifc s -> dev_inv opts vr ifc (stall s).
Proof. intros []. constructor; assumption. Qed.

Lemma inv_lock_dev opts vr ifc s : dev_inv opts vr ifc s -> dev_inv opts vr ifc (lock s).
Proof. intros []. constructor; assumption. Qed.

Lemma dev_stale_inv : dev_inv opts0 "vr1" ifc0 dev_stale.
Proof.
  constructor; cbn; try reflexivity; try lia.
  - eexists _, _. repeat split.
  - repeat constructor; eexists; eexists; split; reflexivity.
  - vm_compute. eexists _, _. repeat split.
  - constructor; [apply (fresh_for_id _ _ _ 0); [reflexivity|lia]|].
    constructor; [apply (fresh_for_id _ _ _ 1); [reflexivity|lia]|constructor].
  - constructor; [apply (fresh_for_id _ _ _ 2); [reflexivity|lia]|constructor].
  - constructor.
Qed.

Lemma run_stalled_never_returns_witness :
  routing_of opts0 (stall dev0) = PRIMARY /\ fst (run cfg0 opts0 1000 probe_lossy (stall dev0)) = Stuck.
Proof.
  split; [reflexivity|].
  apply (run_stalled_never_returns cfg0 opts0 "vr1" ifc0 "10.9.0.0/255.255.0.0" opts0_gateway opts0_route
           1000 probe_lossy 15 (600 # 10)); try reflexivity.
  apply inv_stall_dev, dev0_inv.
Defined.

Lemma run_locked_partial_witness :
  routing_of opts0 (lock dev_cycle1) = FAILOVER /\
  run cfg0 opts0 5 probe_healthy (lock dev_cycle1) = (Ok (DelPath None), lock dev_cycle1).
Proof.
  assert (Hr : routing_of opts0 (lock dev_cycle1) = FAILOVER) by (vm_compute; reflexivity).
  split; [exact Hr|].
  apply (run_locked_partial cfg0 opts0 "vr1" ifc0 5 probe_healthy 15 0); [apply inv_lock_dev, dev_cycle1_inv|reflexivity|exact Hr|reflexivity|reflexivity].
Defined.

Lemma run_stale_backup_name_witness :
  routing_of opts0 dev_stale = PRIMARY /\ existsb (has_name "route_BACKUP") (dev_routes dev_stale) = true /\
  exists s', run cfg0 opts0 5 probe_lossy dev_stale = (Ok (AddPath true), s') /\ dev_inv opts0 "vr1" ifc0 s' /\
    routing_of opts0 s' = PRIMARY /\ dev_routes s' = dev_routes dev_stale /\
    fst (spec_cycle true (routing_of opts0 dev_stale)) = FAILOVER.
Proof.
  assert (Hr : routing_of opts0 dev_stale = PRIMARY) by (vm_compute; reflexivity).
  split; [exact Hr|]. split; [reflexivity|].
  apply (run_stale_backup_name cfg0 opts0 "vr1" ifc0 "10.9.0.0/255.255.0.0" opts0_gateway opts0_route
           5 probe_lossy 15 (600 # 10)); [exact dev_stale_inv|reflexivity|exact Hr|reflexivity|lia|reflexivity|reflexivity].
Defined.

(** The state after one unhealthy cycle, with a second entry for the
    backup route added by hand under another id. *)
Definition manual_backup : json :=
  with_id "manual1" (route_json (JStr "if1") (JStr "outside2") (JStr "obj0") "network_10.9.0.0"
                                (JStr "obj1") "gateway_192.168.1.1").

Definition dev_two_backups : device :=
  set_routes (dev_routes dev_cycle1 ++ [manual_backup]) false dev_cycle1.

Lemma dev_two_backups_inv : dev_inv opts0 "vr1" ifc0 dev_two_backups.
Proof.
  apply inv_add_entry; [exact dev_cycle1_inv| |].
  - vm_compute. split; [eexists _, _; split; reflexivity|]. split; [eexists _, _; split; reflexivity|].
    eexists. reflexivity.
  - intros k Hk. vm_compute in Hk. discriminate.
Qed.

Lemma run_two_backups_witness :
  exists s', run cfg0 opts0 5 probe_healthy dev_two_backups = (Ok (DelPath (Some true)), s') /\
    dev_inv opts0 "vr1" ifc0 s' /\ routing_of opts0 s' = FAILOVER.
Proof.
  apply (run_two_backups cfg0 opts0 "vr1" ifc0 5 probe_healthy
           15 0 dev_two_backups (hd JNull (dev_routes dev_cycle1)) manual_backup "route2" "manual1");
    try (vm_compute; reflexivity).
  - exact dev_two_backups_inv.
  - lia.
  - vm_compute. left. reflexivity.
  - vm_compute. right. left. reflexivity.
  - discriminate.
Defined.

(** The reference device with a static route to a network group (an id
    that is not a network object) through a gateway object. *)
Definition group_route : json :=
  with_id "route1" (route_json (JStr "if0") (JStr "outside") (JStr "grp1") "inside_networks"
                               (JStr "obj0") (gateway_name "10.0.0.1")).

Definition dev_group : device :=
  mk_device (dev_base dev0) (dev_user dev0) (dev_pass dev0) (dev_token dev0) (dev_vrs dev0)
    (dev_ifaces dev0) [with_id "obj0" (host_data (gateway_name "10.0.0.1") "HOST" "10.0.0.1")]
    [group_route] [] 2 false false.

Lemma run_dangling_route_witness :
  dev_routes dev_group = [] ++ group_route :: [] /\
  run cfg0 opts0 5 probe_lossy dev_group = (Raise TypeError, dev_group) /\
  run cfg0 opts0 5 probe_healthy dev_group = (Raise TypeError, dev_group).
Proof.
  assert (Hs : dev_session opts0 "vr1" dev_group) by (constructor; try reflexivity; eexists _, _; repeat split).
  split; [reflexivity|]. split.
  - apply (run_dangling_route cfg0 opts0 "vr1" 5 probe_lossy 15 (600 # 10) dev_group [] group_route []
             "obj0" "10.0.0.1" "grp1"); try reflexivity; [exact Hs|constructor|constructor].
  - apply (run_dangling_route cfg0 opts0 "vr1" 5 probe_healthy 15 0 dev_group [] group_route []
             "obj0" "10.0.0.1" "grp1"); try reflexivity; [exact Hs|constructor|constructor].
Defined.

Lemma overlapping_cycles_race_witness :
  routing_of opts0 dev0 = PRIMARY /\
  exists i sA sB s',
    run cfg0 opts0 5 probe_lossy dev0 = bind (deploy_loop opts0 5 (client dev0 "vr1") i) (fun r => ret (AddPath r)) sA /\
    run cfg0 opts0 5 probe_healthy sA = (Ok (DelPath (Some true)), sB) /\
    bind (deploy_loop opts0 5 (client dev0 "vr1") i) (fun r => ret (AddPath r)) sB = (Ok (AddPath true), s') /\
    routing_of opts0 s' = PRIMARY.
Proof.
  split; [reflexivity|].
  apply (overlapping_cycles_race cfg0 opts0 "vr1" ifc0 "10.9.0.0/255.255.0.0" opts0_gateway opts0_route
           5 probe_lossy probe_healthy 15 (600 # 10) 15 0 dev0); try reflexivity; [exact dev0_inv|exact dev0_ok|lia].
Defined.

Lemma init_session_witness :
  dev_session opts0 "vr1" dev0 /\ init opts0 dev0 = (Ok (client dev0 "vr1"), dev0).
Proof.
  assert (Hs : dev_session opts0 "vr1" dev0) by exact (inv_session _ _ _ _ dev0_inv).
  split; [exact Hs|]. apply init_session, Hs.
Defined.
